(** * lightning-flash: image inputs, deserializer, collation, task mixins

    A shallow embedding of the adapter layer of the library
    (flash/image/data.py, flash/image/face_detection/data.py,
    flash/image/style_transfer/data.py, flash/core/Regression.py, the two
    CLI entry points and the input validation exercised by
    tests/core/data/io/test_input_base.py) together with the properties
    the specification states about it (C1 to C10) and further properties
    of the same code: its exceptions, what it leaves in place when it
    raises, and how its functions compose (X1 to X22).

    Conventions.
    - A Python call that may raise returns a [result]; exceptions are the
      constructors of [exn].
    - Code that mutates objects runs in a state-and-exception monad over
      the store of the objects it can reach.
    - Calls into third-party libraries (PIL, torch, torchvision, numpy,
      fastface, icedata) are parameters of the sections that use them. A
      call that reads a file, decodes bytes or converts an array returns a
      [result]: the value, or the exception of the library. Called on a
      value that is not of the type it documents, a library function
      raises a [TypeError]. The standard library's base64 is modelled
      after RFC 4648 and CPython. *)

From Stdlib Require Import ZArith Strings.Byte Ascii String Lia.
From stdpp Require Import gmap strings list fin_maps sorting.

Local Open Scope string_scope.
Local Open Scope list_scope.
Local Open Scope Z_scope.

(** ** Python basics *)

Module Py.

(** The exceptions the embedded code raises. *)
Inductive exn :=
| KeyError (key : string)
| IndexError (msg : string)
| TypeError (msg : string)
| ValueError (msg : string)
| RuntimeError (msg : string)
| ModuleNotFoundError (msg : string)
| UnicodeEncodeError
| binascii_Error (msg : string)
| AttributeError (name : string)
| NameError (name : string)
| MisconfigurationException (msg : string)
| FileNotFoundError (path : string)
| UnidentifiedImageError.

Inductive result (A : Type) :=
| Ok (a : A)
| Raise (e : exn).
Arguments Ok {A} a.
Arguments Raise {A} e.

#[global] Instance result_ret : MRet result := fun A a => Ok a.
#[global] Instance result_bind : MBind result := fun A B k r =>
  match r with
  | Ok a => k a
  | Raise e => Raise e
  end.

(** The four reserved keys of a sample, [flash.core.data.io.input.DataKeys].
    The enumeration compares and hashes as its string value, so a sample
    is a mapping keyed by strings. *)
Definition INPUT : string := "input".
Definition PREDS : string := "preds".
Definition TARGET : string := "target".
Definition METADATA : string := "metadata".

(** [d[k]] on a dict. *)
Definition getitem {V} (d : gmap string V) (k : string) : result V :=
  match d !! k with
  | Some v => Ok v
  | None => Raise (KeyError k)
  end.

Lemma getitem_Some {V} (d : gmap string V) (k : string) (v : V) :
  d !! k = Some v -> getitem d k = Ok v.
Proof. unfold getitem. by intros ->. Qed.

(** Code that mutates objects: a computation over a store [S] that ends
    with a value or an exception; what was written before an exception
    stays written. *)
Definition M (S A : Type) : Type := S -> result A * S.

#[global] Instance M_ret {S} : MRet (M S) := fun A a s => (Ok a, s).
#[global] Instance M_bind {S} : MBind (M S) := fun A B k m s =>
  match m s with
  | (Ok a, s') => k a s'
  | (Raise e, s') => (Raise e, s')
  end.

Definition lift {S A} (r : result A) : M S A := fun s => (r, s).

Class MRaise (T : Type -> Type) := raise : forall {A}, exn -> T A.
#[global] Instance result_raise : MRaise result := fun A e => Raise e.
#[global] Instance M_raise {S} : MRaise (M S) := fun A e s => (Raise e, s).

(** Objects live in the store under a location. *)
Definition loc := positive.

End Py.
Export Py.

(** ** The standard library's [base64] module

  [base64.b64encode] follows RFC 4648 section 4: three bytes become four
  characters of the alphabet, and a final group of one or two bytes is
  completed with ['=']. [base64.b64decode] with its default
  [validate=False] is [binascii.a2b_base64] in non-strict mode; the
  embedding follows the loop of CPython's binascii.c, with its
  [quad_pos], [leftchar] and [pads] variables. *)

Module base64.

Definition byte_to_Z (b : byte) : Z := Z.of_N (Byte.to_N b).

(** Storing an [int] into an [unsigned char] keeps its low eight bits. *)
Definition byte_of_Z (z : Z) : byte :=
  match Byte.of_N (Z.to_N (Z.land z 255)) with
  | Some b => b
  | None => "000"%byte
  end.

Definition BASE64_PAD : byte := "="%byte.

Definition table_b2a_base64 : list byte :=
  list_byte_of_string
    "ABCDEFGHIJKLMNOPQRSTUVWXYZabcdefghijklmnopqrstuvwxyz0123456789+/".

Definition b2a (sextet : Z) : byte :=
  nth (Z.to_nat sextet) table_b2a_base64 BASE64_PAD.

(** [table_a2b_base64]: the value of an alphabet character, 0 for the pad
    character, and [(unsigned char)-1] for every other byte. *)
Definition table_a2b_base64 (ch : byte) : Z :=
  let c := byte_to_Z ch in
  if (65 <=? c) && (c <=? 90) then c - 65
  else if (97 <=? c) && (c <=? 122) then c - 71
  else if (48 <=? c) && (c <=? 57) then c + 4
  else if c =? 43 then 62
  else if c =? 47 then 63
  else if c =? 61 then 0
  else 255.

(** RFC 4648: the 24 bits of three bytes are cut into four sextets. *)
Definition sextet1 (x : byte) : Z := Z.shiftr (byte_to_Z x) 2.
Definition sextet2 (x y : byte) : Z :=
  Z.lor (Z.shiftl (Z.land (byte_to_Z x) 3) 4) (Z.shiftr (byte_to_Z y) 4).
Definition sextet3 (y z : byte) : Z :=
  Z.lor (Z.shiftl (Z.land (byte_to_Z y) 15) 2) (Z.shiftr (byte_to_Z z) 6).
Definition sextet4 (z : byte) : Z := Z.land (byte_to_Z z) 63.

Definition zero : byte := "000"%byte.

(** The characters of the encoding that carry data. *)
Fixpoint b64encode_body (s : list byte) : list byte :=
  match s with
  | [] => []
  | [x] => [b2a (sextet1 x); b2a (sextet2 x zero)]
  | [x; y] => [b2a (sextet1 x); b2a (sextet2 x y); b2a (sextet3 y zero)]
  | x :: y :: z :: rest =>
      b2a (sextet1 x) :: b2a (sextet2 x y) :: b2a (sextet3 y z)
      :: b2a (sextet4 z) :: b64encode_body rest
  end.

(** The number of ['='] that complete the last group. *)
Definition b64encode_pads (s : list byte) : nat :=
  match (length s mod 3)%nat with
  | 1%nat => 2%nat
  | 2%nat => 1%nat
  | _ => 0%nat
  end.

Definition b64encode (s : list byte) : list byte :=
  b64encode_body s ++ replicate (b64encode_pads s) BASE64_PAD.

(** [binascii.a2b_base64(data)], non-strict. [bin_data] is the output
    written so far. *)
Fixpoint a2b_base64_loop (ascii_data : list byte)
    (quad_pos leftchar pads : Z) (bin_data : list byte)
    : result (list byte) :=
  match ascii_data with
  | [] =>
      if quad_pos =? 0 then Ok bin_data
      else if quad_pos =? 1 then
        Raise (binascii_Error
          "Invalid base64-encoded string: number of data characters cannot be 1 more than a multiple of 4")
      else Raise (binascii_Error "Incorrect padding")
  | ch :: ascii_data =>
      if Byte.eqb ch BASE64_PAD then
        if 2 <=? quad_pos then
          let pads := pads + 1 in
          if 4 <=? quad_pos + pads then Ok bin_data
          else a2b_base64_loop ascii_data quad_pos leftchar pads bin_data
        else a2b_base64_loop ascii_data quad_pos leftchar pads bin_data
      else
        let this_ch := table_a2b_base64 ch in
        if 64 <=? this_ch then
          a2b_base64_loop ascii_data quad_pos leftchar pads bin_data
        else
          if quad_pos =? 0 then
            a2b_base64_loop ascii_data 1 this_ch 0 bin_data
          else if quad_pos =? 1 then
            a2b_base64_loop ascii_data 2 (Z.land this_ch 15) 0
              (bin_data ++
               [byte_of_Z (Z.lor (Z.shiftl leftchar 2) (Z.shiftr this_ch 4))])
          else if quad_pos =? 2 then
            a2b_base64_loop ascii_data 3 (Z.land this_ch 3) 0
              (bin_data ++
               [byte_of_Z (Z.lor (Z.shiftl leftchar 4) (Z.shiftr this_ch 2))])
          else
            a2b_base64_loop ascii_data 0 0 0
              (bin_data ++
               [byte_of_Z (Z.lor (Z.shiftl leftchar 6) this_ch)])
  end.

Definition a2b_base64 (data : list byte) : result (list byte) :=
  a2b_base64_loop data 0 0 0 [].

Definition b64decode (s : list byte) : result (list byte) := a2b_base64 s.

End base64.


(** *** Properties of the base64 model *)

Module base64_facts.
Import base64.















(** One turn of the decoding loop on a character of the alphabet, by the
    position in the quad. *)
Section loop_steps.
Variables (s : Z) (rest : list byte) (leftchar pads : Z) (bin_data : list byte).
Hypothesis Hs : 0 <= s < 64.





End loop_steps.














(** The decoder raises no other exception than [binascii.Error]. *)
Lemma loop_Raise (l : list byte) :
  forall quad_pos leftchar pads bin_data e,
  a2b_base64_loop l quad_pos leftchar pads bin_data = Raise e ->
  exists msg, e = binascii_Error msg.
Proof.
  induction l as [|ch l IH]; intros quad_pos leftchar pads bin_data e Hrun;
    cbn [a2b_base64_loop] in Hrun.
  - destruct (quad_pos =? 0); [discriminate |].
    destruct (quad_pos =? 1); injection Hrun as <-; by eexists.
  - destruct (Byte.eqb ch BASE64_PAD).
    + destruct (2 <=? quad_pos); [|by eapply IH].
      cbv zeta in Hrun.
      destruct (4 <=? quad_pos + (pads + 1)); [discriminate | by eapply IH].
    + cbv zeta in Hrun.
      destruct (64 <=? table_a2b_base64 ch); [by eapply IH |].
      destruct (quad_pos =? 0); [by eapply IH |].
      destruct (quad_pos =? 1); [by eapply IH |].
      destruct (quad_pos =? 2); by eapply IH.
Qed.

(** *** What the decoder reads

    A character of the alphabet carries six bits; the decoder reads these
    and the pad character, and passes over every other byte. *)


Definition significant (ch : byte) : bool :=
  Byte.eqb ch BASE64_PAD || (table_a2b_base64 ch <? 64).

Lemma loop_filter_significant (l : list byte) :
  forall quad_pos leftchar pads bin_data,
  a2b_base64_loop l quad_pos leftchar pads bin_data
  = a2b_base64_loop (List.filter significant l) quad_pos leftchar pads bin_data.
Proof.
  induction l as [|ch l IH]; intros quad_pos leftchar pads bin_data;
    [reflexivity |].
  cbn [List.filter]. unfold significant at 1.
  destruct (Byte.eqb ch BASE64_PAD) eqn:Hpad.
  - cbn [orb a2b_base64_loop]. rewrite Hpad.
    repeat case_match; solve [reflexivity | apply IH].
  - cbn [orb]. destruct (table_a2b_base64 ch <? 64) eqn:Hch.
    + cbn [a2b_base64_loop]. rewrite Hpad.
      replace (64 <=? table_a2b_base64 ch) with false by lia.
      repeat case_match; apply IH.
    + cbn [a2b_base64_loop]. rewrite Hpad.
      replace (64 <=? table_a2b_base64 ch) with true by lia.
      apply IH.
Qed.











End base64_facts.

(** ** flash/image/data.py and the loader of flash/image/face_detection/data.py *)

Module image_data.

Section image_data.

(** Library types: a PIL image, a torch tensor, a numpy array. *)
Variables Image Tensor ndarray : Type.

(** [Image.size], the pair (width, height). *)
Variable Image_size : Image -> Z * Z.
(** [Image.open(BytesIO(b), mode="r")]: the image PIL identifies in the
    bytes, if it identifies one. When it does not, the call raises
    [UnidentifiedImageError]. *)
Variable Image_open : list byte -> option Image.
(** [Image.fromarray(array, mode)]: the image, or the exception of an
    array PIL cannot handle. *)
Variable Image_fromarray : ndarray -> string -> result Image.
(** [np.load(path)] and [array.astype(dtype)]: the array, or the exception
    of a file that is missing or malformed and of a conversion that
    fails. *)
Variable np_load : string -> result ndarray.
Variable ndarray_astype : ndarray -> string -> result ndarray.
(** [torchvision.transforms.functional.to_pil_image], on a tensor or an
    array, and [torch.from_numpy]: each returns, or raises on a tensor or
    an array it cannot convert. *)
Variable to_pil_image : Tensor + ndarray -> result Image.
Variable torch_from_numpy : ndarray -> result Tensor.
(** [flash.core.data.utils.image_default_loader]: the image of the file,
    or the exception of a file that is missing or is not an image. *)
Variable image_default_loader : string -> result Image.
(** [flash.core.data.io.input.has_file_allowed_extension]. *)
Variable has_file_allowed_extension : string -> list string -> bool.
(** Which optional dependencies are installed. *)
Variable module_available : string -> bool.
Variable _TORCHVISION_AVAILABLE : bool.
Variable torchvision_IMG_EXTENSIONS : list string.

(** The values a sample holds. A dict is an object of the store and a
    value refers to it by its location. *)
Inductive value :=
| VNone
| VInt (n : Z)
| VStr (s : string)
| VTuple (a b : value)
| VImage (img : Image)
| VTensor (t : Tensor)
| VNdarray (a : ndarray)
| VDict (l : loc).

Abbreviation heap := (gmap loc (gmap string value)).

(** [d[k]]: a [KeyError] when the dict has no such key. *)
Definition dict_getitem (d : value) (k : string) : M heap value := fun h =>
  match d with
  | VDict l =>
      match h !! l with
      | Some m =>
          match m !! k with
          | Some v => (Ok v, h)
          | None => (Raise (KeyError k), h)
          end
      | None => (Raise (TypeError "object is not subscriptable"), h)
      end
  | _ => (Raise (TypeError "object is not subscriptable"), h)
  end.

(** [d[k] = v], in place. *)
Definition dict_setitem (d : value) (k : string) (v : value) : M heap unit :=
  fun h =>
  match d with
  | VDict l =>
      match h !! l with
      | Some m => (Ok tt, <[l := <[k := v]> m]> h)
      | None =>
          (Raise (TypeError "object does not support item assignment"), h)
      end
  | _ => (Raise (TypeError "object does not support item assignment"), h)
  end.

(** A dict display [{k: v, ...}] makes a new object. *)
Definition dict_new (m : gmap string value) : M heap value := fun h =>
  let l := fresh (dom h) in (Ok (VDict l), <[l := m]> h).

(** [img.size] on a value. *)
Definition getattr_size (v : value) : M heap (Z * Z) :=
  match v with
  | VImage img => mret (Image_size img)
  | _ => raise (AttributeError "size")
  end.

(** Modelled from the spec: the decorator [requires] of
    flash.core.utilities.imports is not among the sources. It guards a
    function by an optional dependency: the call goes through when the
    dependency is installed and raises [ModuleNotFoundError] when not. *)
Definition requires {T} `{MRaise T} {A B} (module_path : string)
    (func : A -> T B) : A -> T B :=
  fun a =>
    if module_available module_path then func a
    else raise (ModuleNotFoundError module_path).

Definition IMG_EXTENSIONS : list string :=
  if _TORCHVISION_AVAILABLE then torchvision_IMG_EXTENSIONS
  else [".jpg"; ".jpeg"; ".png"; ".ppm"; ".bmp"; ".pgm"; ".tif"; ".tiff";
        ".webp"].

Definition NP_EXTENSIONS : list string := [".npy"].

(** [repr] of a list of plain strings, as an f-string prints it. *)
Definition repr_str (s : string) : string := "'" +:+ s +:+ "'".
Fixpoint join (sep : string) (l : list string) : string :=
  match l with
  | [] => EmptyString
  | [s] => s
  | s :: l => s +:+ sep +:+ join sep l
  end.
Definition repr_list (l : list string) : string :=
  "[" +:+ join ", " (map repr_str l) +:+ "]".

Definition unsupported_extension (filepath : string) : string :=
  "File: " +:+ filepath +:+
  " has an unsupported extension. Supported extensions: " +:+
  repr_list (IMG_EXTENSIONS ++ NP_EXTENSIONS) +:+ ".".

Definition image_loader (filepath : string) : result Image :=
  if has_file_allowed_extension filepath IMG_EXTENSIONS then
    image_default_loader filepath
  else if has_file_allowed_extension filepath NP_EXTENSIONS then
    array ← np_load filepath;
    array ← ndarray_astype array "uint8";
    Image_fromarray array "RGB"
  else
    Raise (ValueError (unsupported_extension filepath)).

(** [s.encode("ascii")]. *)
Definition str_encode_ascii (s : string) : result (list byte) :=
  let bs := list_byte_of_string s in
  if forallb (fun b => base64.byte_to_Z b <? 128) bs then Ok bs
  else Raise UnicodeEncodeError.


(** The call [Image.open(buffer, mode="r")]. *)
Definition call_Image_open (buffer : list byte) : result Image :=
  match Image_open buffer with
  | Some img => Ok img
  | None => Raise UnidentifiedImageError
  end.

(** [ImageDeserializer.deserialize]. *)
Definition ImageDeserializer_deserialize : string -> result (gmap string value) :=
  requires "image" (fun data =>
    encoded_with_padding ← str_encode_ascii (data +:+ "===");
    img ← base64.b64decode encoded_with_padding;
    let buffer := img in
    img ← call_Image_open buffer;
    Ok {[ INPUT := VImage img ]}).

(** Calls of library functions on values: a function is applied to a
    value of the type it documents and raises [TypeError] on anything
    else. *)
Definition call_image_default_loader (path : value) : result Image :=
  match path with
  | VStr p => image_default_loader p
  | _ => Raise (TypeError "expected a path")
  end.

(** The name [to_pil_image] is bound by the import under
    [if _TORCHVISION_AVAILABLE:]; a call looks the name up before it
    evaluates the argument. *)
Definition name_to_pil_image : result unit :=
  if _TORCHVISION_AVAILABLE then Ok tt else Raise (NameError "to_pil_image").

Definition call_to_pil_image (pic : value) : result Image :=
  match pic with
  | VTensor t => to_pil_image (inl t)
  | VNdarray a => to_pil_image (inr a)
  | _ => Raise (TypeError "pic should be Tensor or ndarray")
  end.

Definition call_torch_from_numpy (a : value) : result value :=
  match a with
  | VNdarray a => t ← torch_from_numpy a; Ok (VTensor t)
  | _ => Raise (TypeError "expected np.ndarray")
  end.

Definition call_loader (loader : string -> result Image) (path : value)
    : result Image :=
  match path with
  | VStr p => loader p
  | _ => Raise (TypeError "expected a path")
  end.

(** Modelled from the spec: [PathsInput.load_sample] of
    flash.core.data.io.input is not among the sources. It is the path
    loader that normalizes into the common sample dictionary: it replaces
    the path under the input key by what the loader returns for it and
    sets the metadata to a new mapping that records the source file
    path. *)
Definition PathsInput_load_sample
    (loader : option (string -> result Image)) (sample : value)
    : M heap value :=
  path ← dict_getitem sample INPUT;
  _ ← match loader with
      | Some loader =>
          img ← lift (call_loader loader path);
          dict_setitem sample INPUT (VImage img)
      | None => mret tt
      end;
  metadata ← dict_new {[ "filepath" := path ]};
  _ ← dict_setitem sample METADATA metadata;
  mret sample.

(** [ImagePathsInput]: its constructor passes [loader=image_loader]. *)
Definition ImagePathsInput_load_sample : value -> M heap value :=
  requires "image" (fun sample =>
    sample ← PathsInput_load_sample (Some image_loader) sample;
    input ← dict_getitem sample INPUT;
    '(w, h) ← getattr_size input;
    metadata ← dict_getitem sample METADATA;
    _ ← dict_setitem metadata "size" (VTuple (VInt h) (VInt w));
    mret sample).

Definition ImageTensorInput_load_sample (sample : value) : M heap value :=
  _ ← lift name_to_pil_image;
  input ← dict_getitem sample INPUT;
  img ← lift (call_to_pil_image input);
  _ ← dict_setitem sample INPUT (VImage img);
  let '(w, h) := Image_size img in
  metadata ← dict_new {[ "size" := VTuple (VInt h) (VInt w) ]};
  _ ← dict_setitem sample METADATA metadata;
  mret sample.

Definition ImageNumpyInput_load_sample (sample : value) : M heap value :=
  _ ← lift name_to_pil_image;
  input ← dict_getitem sample INPUT;
  t ← lift (call_torch_from_numpy input);
  img ← lift (call_to_pil_image t);
  _ ← dict_setitem sample INPUT (VImage img);
  let '(w, h) := Image_size img in
  metadata ← dict_new {[ "size" := VTuple (VInt h) (VInt w) ]};
  _ ← dict_setitem sample METADATA metadata;
  mret sample.

Definition ImageFiftyOneInput_load_sample (sample : value) : M heap value :=
  img_path ← dict_getitem sample INPUT;
  img ← lift (call_image_default_loader img_path);
  _ ← dict_setitem sample INPUT (VImage img);
  let '(w, h) := Image_size img in
  metadata ← dict_new
    (<["size" := VTuple (VInt h) (VInt w)]> {[ "filepath" := img_path ]});
  _ ← dict_setitem sample METADATA metadata;
  mret sample.

(** [FastFaceInput.load_sample], flash/image/face_detection/data.py. *)
Definition FastFaceInput_load_sample (sample : value) : M heap value :=
  filepath ← dict_getitem sample INPUT;
  img ← lift (call_image_default_loader filepath);
  _ ← dict_setitem sample INPUT (VImage img);
  let '(w, h) := Image_size img in
  metadata ← dict_new
    (<["size" := VTuple (VInt h) (VInt w)]> {[ "filepath" := filepath ]});
  _ ← dict_setitem sample METADATA metadata;
  mret sample.

(** The five inputs whose [load_sample] the sources define. *)
Inductive image_input :=
| ImagePathsInput
| ImageTensorInput
| ImageNumpyInput
| ImageFiftyOneInput
| FastFaceInput.

Definition load_sample (cls : image_input) : value -> M heap value :=
  match cls with
  | ImagePathsInput => ImagePathsInput_load_sample
  | ImageTensorInput => ImageTensorInput_load_sample
  | ImageNumpyInput => ImageNumpyInput_load_sample
  | ImageFiftyOneInput => ImageFiftyOneInput_load_sample
  | FastFaceInput => FastFaceInput_load_sample
  end.

(** What the loader of each input makes of the value under the input
    key. *)
Definition decode_input (cls : image_input) (input : value) : result Image :=
  match cls with
  | ImagePathsInput => call_loader image_loader input
  | ImageTensorInput => _ ← name_to_pil_image; call_to_pil_image input
  | ImageNumpyInput =>
      _ ← name_to_pil_image;
      t ← call_torch_from_numpy input;
      call_to_pil_image t
  | ImageFiftyOneInput | FastFaceInput => call_image_default_loader input
  end.

Definition records_filepath (cls : image_input) : bool :=
  match cls with
  | ImageFiftyOneInput | FastFaceInput => true
  | _ => false
  end.

(** *** The deserializer and the file loader *)

Lemma list_byte_of_string_app (s1 s2 : string) :
  list_byte_of_string (s1 +:+ s2)
  = list_byte_of_string s1 ++ list_byte_of_string s2.
Proof.
  unfold list_byte_of_string.
  induction s1 as [|c s1 IH]; [reflexivity |].
  simpl. f_equal. exact IH.
Qed.







(** C2, amended. When the extension of the file is in neither
    [IMG_EXTENSIONS] nor [NP_EXTENSIONS], as [has_file_allowed_extension]
    decides, [image_loader] raises the [ValueError] that names the file
    and lists the supported extensions. When the extension is supported
    it hands the file to a loader and returns or raises as the loader
    does: the default image loader for an image extension, and for a
    [.npy] file [np.load], the conversion to uint8 and [Image.fromarray]
    with mode RGB, one after the other. So a call raises if and only if
    the extension is unsupported or the loader of a supported file
    raises. *)
Theorem image_loader_unsupported_iff (filepath : string) :
  (has_file_allowed_extension filepath IMG_EXTENSIONS = false ->
   has_file_allowed_extension filepath NP_EXTENSIONS = false ->
   image_loader filepath
   = Raise (ValueError
       ("File: " +:+ filepath +:+
        " has an unsupported extension. Supported extensions: " +:+
        repr_list (IMG_EXTENSIONS ++ NP_EXTENSIONS) +:+ "."))) /\
  (has_file_allowed_extension filepath IMG_EXTENSIONS = true ->
   image_loader filepath = image_default_loader filepath) /\
  (has_file_allowed_extension filepath IMG_EXTENSIONS = false ->
   has_file_allowed_extension filepath NP_EXTENSIONS = true ->
   (forall e, np_load filepath = Raise e -> image_loader filepath = Raise e) /\
   (forall array e,
      np_load filepath = Ok array -> ndarray_astype array "uint8" = Raise e ->
      image_loader filepath = Raise e) /\
   (forall array array',
      np_load filepath = Ok array -> ndarray_astype array "uint8" = Ok array' ->
      image_loader filepath = Image_fromarray array' "RGB")) /\
  ((exists e, image_loader filepath = Raise e) <->
   (has_file_allowed_extension filepath IMG_EXTENSIONS = false /\
    has_file_allowed_extension filepath NP_EXTENSIONS = false) \/
   (has_file_allowed_extension filepath IMG_EXTENSIONS = true /\
    exists e, image_default_loader filepath = Raise e) \/
   (has_file_allowed_extension filepath IMG_EXTENSIONS = false /\
    has_file_allowed_extension filepath NP_EXTENSIONS = true /\
    exists e,
      (array ← np_load filepath;
       array ← ndarray_astype array "uint8";
       Image_fromarray array "RGB") = Raise e)).
Proof.
  unfold image_loader, unsupported_extension.
  destruct (has_file_allowed_extension filepath IMG_EXTENSIONS) eqn:Eimg;
    destruct (has_file_allowed_extension filepath NP_EXTENSIONS) eqn:Enp.
  all: split; [intros; first [reflexivity | discriminate] |].
  all: split; [intros; first [reflexivity | discriminate] |].
  all: split.
  all: try (intros; discriminate).
  - split; [intros He; right; left; by split |].
    intros [[? _] | [[_ He] | [? _]]]; [discriminate | done | discriminate].
  - split; [intros He; right; left; by split |].
    intros [[? _] | [[_ He] | [? _]]]; [discriminate | done | discriminate].
  - intros _ _. split_and!.
    + by intros e ->.
    + intros array e -> Hastype. cbn [mbind result_bind]. by rewrite Hastype.
    + intros array array' -> Hastype. cbn [mbind result_bind].
      by rewrite Hastype.
  - split; [intros He; right; right; by split_and! |].
    intros [[_ ?] | [[? _] | (_ & _ & He)]]; [discriminate | discriminate | done].
  - split; [intros _; by left | intros _; by eexists].
Qed.

(** *** The sample loaders *)

(** One step of a run. *)
Lemma bind_run_Ok {S A B} (m : M S A) (k : A -> M S B) s a s1 :
  m s = (Ok a, s1) -> (m ≫= k) s = k a s1.
Proof. unfold mbind, M_bind. by intros ->. Qed.

Lemma bind_run_Raise {S A B} (m : M S A) (k : A -> M S B) s e s1 :
  m s = (Raise e, s1) -> (m ≫= k) s = (Raise e, s1).
Proof. unfold mbind, M_bind. by intros ->. Qed.

(** What a run that ends without an exception went through. *)
Lemma bind_Ok {S A B} (m : M S A) (k : A -> M S B) s b s' :
  (m ≫= k) s = (Ok b, s') ->
  exists a s1, m s = (Ok a, s1) /\ k a s1 = (Ok b, s').
Proof.
  unfold mbind, M_bind. destruct (m s) as [[a|e] s1]; [eauto | discriminate].
Qed.

Lemma lift_Ok {S A} (r : result A) (s s' : S) a :
  lift r s = (Ok a, s') -> r = Ok a /\ s' = s.
Proof. unfold lift. intros [= -> ->]. auto. Qed.

Lemma ret_Ok {S A} (a b : A) (s s' : S) :
  (mret a : M S A) s = (Ok b, s') -> b = a /\ s' = s.
Proof. intros [= -> ->]. auto. Qed.

Lemma dict_getitem_Ok d k h v h' :
  dict_getitem d k h = (Ok v, h') ->
  exists l m, d = VDict l /\ h !! l = Some m /\ m !! k = Some v /\ h' = h.
Proof.
  unfold dict_getitem. intros H.
  destruct d; try discriminate.
  destruct (h !! l) as [m|] eqn:Hl; [|discriminate].
  destruct (m !! k) as [w|] eqn:Hk; [|discriminate].
  injection H as <- <-. eauto 10.
Qed.

Lemma dict_setitem_Ok d k v h u h' :
  dict_setitem d k v h = (Ok u, h') ->
  exists l m, d = VDict l /\ h !! l = Some m /\ h' = <[l := <[k := v]> m]> h.
Proof.
  unfold dict_setitem. intros H.
  destruct d; try discriminate.
  destruct (h !! l) as [m|] eqn:Hl; [|discriminate].
  injection H as _ <-. eauto 10.
Qed.

Lemma dict_new_Ok m h v h' :
  dict_new m h = (Ok v, h') ->
  v = VDict (fresh (dom h)) /\ h' = <[fresh (dom h) := m]> h.
Proof. unfold dict_new. intros [= <- <-]. auto. Qed.

Lemma fresh_loc_None (h : heap) : h !! fresh (dom h) = None.
Proof. apply not_elem_of_dom, is_fresh. Qed.

Ltac inv_run :=
  repeat match goal with
  | H : (_ ≫= _) _ = (Ok _, _) |- _ =>
      apply bind_Ok in H; destruct H as (? & ? & ? & H)
  | H : lift _ _ = (Ok _, _) |- _ => apply lift_Ok in H; destruct H as [? ->]
  | H : @mret (M _) _ _ _ _ = (Ok _, _) |- _ =>
      apply ret_Ok in H; destruct H as [? ->]
  | H : dict_getitem _ _ _ = (Ok _, _) |- _ =>
      apply dict_getitem_Ok in H; destruct H as (? & ? & ? & ? & ? & ->)
  | H : dict_setitem _ _ _ _ = (Ok _, _) |- _ =>
      apply dict_setitem_Ok in H; destruct H as (? & ? & ? & ? & ->)
  | H : dict_new _ _ = (Ok _, _) |- _ =>
      apply dict_new_Ok in H; destruct H as [-> ->]
  | H : (let '(_, _) := ?p in _) _ = (Ok _, _) |- _ =>
      destruct p eqn:?
  end.

(** What a run that ends with an exception went through. *)
Lemma bind_Raise {S A B} (m : M S A) (k : A -> M S B) s e s' :
  (m ≫= k) s = (Raise e, s') ->
  m s = (Raise e, s') \/
  exists a s1, m s = (Ok a, s1) /\ k a s1 = (Raise e, s').
Proof.
  unfold mbind, M_bind. destruct (m s) as [[a|e0] s1]; [eauto |].
  intros [= -> ->]. by left.
Qed.

Lemma lift_Raise {S A} (r : result A) (s s' : S) e :
  lift r s = (Raise e, s') -> s' = s.
Proof. unfold lift. by intros [= _ ->]. Qed.

Lemma dict_getitem_Raise d k h e h' :
  dict_getitem d k h = (Raise e, h') ->
  h' = h /\ forall l m, d = VDict l -> h !! l = Some m -> m !! k = None.
Proof.
  unfold dict_getitem. intros Hrun.
  destruct d; try (injection Hrun as _ <-; by split).
  destruct (h !! l) as [m|] eqn:Hl.
  - destruct (m !! k) eqn:Hk; [discriminate |].
    injection Hrun as _ <-. split; [done |].
    intros ? ? [= <-] Hm. congruence.
  - injection Hrun as _ <-. split; [done |].
    intros ? ? [= <-] Hm. congruence.
Qed.

Lemma getattr_size_Raise v h e h' :
  getattr_size v h = (Raise e, h') ->
  h' = h /\ forall img, v <> VImage img.
Proof.
  unfold getattr_size. intros Hrun.
  destruct v; try (injection Hrun as _ <-; by split).
  discriminate.
Qed.

Lemma dict_setitem_Raise d k v h e h' :
  dict_setitem d k v h = (Raise e, h') ->
  h' = h /\ forall l, d = VDict l -> h !! l = None.
Proof.
  unfold dict_setitem. intros Hrun.
  destruct d; try (injection Hrun as _ <-; by split).
  destruct (h !! l) as [m|] eqn:Hl; [discriminate |].
  injection Hrun as _ <-. split; [done |]. by intros ? [= <-].
Qed.

Ltac inv_raise :=
  repeat match goal with
  | H : (_ ≫= _) _ = (Raise _, _) |- _ =>
      apply bind_Raise in H; destruct H as [H | (? & ? & ? & H)]
  | H : lift _ _ = (Raise _, _) |- _ => apply lift_Raise in H
  | H : @mret (M _) _ _ _ _ = (Raise _, _) |- _ => discriminate H
  | H : dict_getitem _ _ _ = (Raise _, _) |- _ =>
      apply dict_getitem_Raise in H; destruct H as [? H]
  | H : dict_setitem _ _ _ _ = (Raise _, _) |- _ =>
      apply dict_setitem_Raise in H; destruct H as [? H]
  | H : dict_new _ _ = (Raise _, _) |- _ => discriminate H
  | H : getattr_size _ _ = (Raise _, _) |- _ =>
      apply getattr_size_Raise in H; destruct H as [? H]
  | H : (let '(_, _) := ?p in _) _ = (Raise _, _) |- _ =>
      destruct p eqn:?
  | _ => progress inv_run
  end.

Ltac fresh_locs :=
  repeat match goal with
  | H : context [fresh (dom ?h)] |- _ =>
      let Hf := fresh "Hfresh" in
      pose proof (fresh_loc_None h) as Hf;
      generalize dependent (fresh (dom h)); intros;
      apply lookup_insert_None in Hf; destruct Hf as [Hf ?]
  | |- context [fresh (dom ?h)] =>
      let Hf := fresh "Hfresh" in
      pose proof (fresh_loc_None h) as Hf;
      generalize dependent (fresh (dom h)); intros;
      apply lookup_insert_None in Hf; destruct Hf as [Hf ?]
  end.

(** The metadata each input records for the value [input] it found under
    the input key and the image [img] it made of it. *)
Definition image_size_hw (img : Image) : value :=
  VTuple (VInt (Image_size img).2) (VInt (Image_size img).1).

Definition metadata_of (cls : image_input) (input : value) (img : Image)
    : gmap string value :=
  match cls with
  | ImageTensorInput | ImageNumpyInput => {[ "size" := image_size_hw img ]}
  | ImagePathsInput | ImageFiftyOneInput | FastFaceInput =>
      <["size" := image_size_hw img]> {[ "filepath" := input ]}
  end.

(** The store after a call that returns: the sample has its input and
    metadata keys rewritten, the metadata is a new dict, and every other
    object is as it was. *)
Lemma load_sample_Ok cls sample h r h' :
  load_sample cls sample h = (Ok r, h') ->
  exists l d input img lm,
    sample = VDict l /\ r = sample /\
    h !! l = Some d /\ d !! INPUT = Some input /\
    decode_input cls input = Ok img /\
    h !! lm = None /\
    h' !! l = Some (<[METADATA := VDict lm]> (<[INPUT := VImage img]> d)) /\
    h' !! lm = Some (metadata_of cls input img) /\
    (forall l', l' <> l -> l' <> lm -> h' !! l' = h !! l').
Proof.
  intros Hrun.
  destruct cls; cbn [load_sample] in Hrun;
    unfold ImagePathsInput_load_sample, requires, PathsInput_load_sample,
      ImageTensorInput_load_sample, ImageNumpyInput_load_sample,
      ImageFiftyOneInput_load_sample, FastFaceInput_load_sample in Hrun;
    try (destruct (module_available "image"); [|discriminate]);
    inv_run; fresh_locs; simplify_eq; simplify_map_eq;
    inv_run; simplify_map_eq;
    (do 5 eexists; split_and!; try done; try eassumption);
    simplify_map_eq; try reflexivity.
  all: try (unfold image_size_hw;
            match goal with H : _ = Image_size _ |- _ => rewrite <- H end;
            reflexivity).
  all: try (unfold image_size_hw;
            match goal with H : Image_size _ = _ |- _ => rewrite H end;
            reflexivity).
  all: try (intros; by rewrite !lookup_insert_ne by done).
  all: repeat match goal with
         | H : name_to_pil_image = _ |- _ => rewrite H; clear H
         | H : call_torch_from_numpy _ = _ |- _ => rewrite H; clear H
         end; done.
Qed.

(** A call that raises has written nothing: every exception comes before
    the first assignment. *)
Lemma load_sample_Raise cls sample h e h' :
  load_sample cls sample h = (Raise e, h') -> h' = h.
Proof.
  intros Hrun.
  destruct cls; cbn [load_sample] in Hrun;
    unfold ImagePathsInput_load_sample, requires, PathsInput_load_sample,
      ImageTensorInput_load_sample, ImageNumpyInput_load_sample,
      ImageFiftyOneInput_load_sample, FastFaceInput_load_sample in Hrun;
    try (destruct (module_available "image");
         [|by injection Hrun as _ <-]).
  all: inv_raise; fresh_locs; simplify_eq; try done.
  all: do 3 (try (simplify_map_eq; inv_run; simplify_eq;
     repeat match goal with
       | H : forall l0, VDict _ = VDict l0 -> _ |- _ =>
           specialize (H _ eq_refl)
       | H : forall l0 m, VDict _ = VDict l0 -> _ |- _ =>
           specialize (fun m => H _ m eq_refl)
       | H : forall m, Some _ = Some m -> _ |- _ =>
           specialize (H _ eq_refl)
       | H : forall img, VImage _ <> VImage img |- _ =>
           by destruct (H _ eq_refl)
       end; try done)).
Qed.

Lemma dict_getitem_run l d k v (h : heap) :
  h !! l = Some d -> d !! k = Some v ->
  dict_getitem (VDict l) k h = (Ok v, h).
Proof. unfold dict_getitem. by intros -> ->. Qed.

Lemma dict_setitem_run l d k v (h : heap) :
  h !! l = Some d ->
  dict_setitem (VDict l) k v h = (Ok tt, <[l := <[k := v]> d]> h).
Proof. unfold dict_setitem. by intros ->. Qed.

Lemma dict_new_run m (h : heap) :
  dict_new m h = (Ok (VDict (fresh (dom h))), <[fresh (dom h) := m]> h).
Proof. reflexivity. Qed.

Lemma lookup_insert_fresh (h : heap) l d m :
  h !! l = Some d -> <[fresh (dom h) := m]> h !! l = Some d.
Proof.
  intros Hl. rewrite lookup_insert_ne; [done |].
  intros Heq. pose proof (fresh_loc_None h) as Hfresh.
  rewrite Heq in Hfresh. congruence.
Qed.

Lemma PathsInput_load_sample_run loader l d input img (h : heap) :
  h !! l = Some d -> d !! INPUT = Some input ->
  call_loader loader input = Ok img ->
  PathsInput_load_sample (Some loader) (VDict l) h
  = (Ok (VDict l),
     let h1 := <[l := <[INPUT := VImage img]> d]> h in
     <[l := <[METADATA := VDict (fresh (dom h1))]> (<[INPUT := VImage img]> d)]>
       (<[fresh (dom h1) := {[ "filepath" := input ]}]> h1)).
Proof.
  intros Hd Hin Hload. unfold PathsInput_load_sample.
  rewrite (bind_run_Ok _ _ _ _ _ (dict_getitem_run _ _ _ _ _ Hd Hin)).
  rewrite (bind_run_Ok _ _ _ tt (<[l := <[INPUT := VImage img]> d]> h))
    by (rewrite (bind_run_Ok _ _ h img h)
          by (unfold lift; by rewrite Hload);
        by apply dict_setitem_run).
  rewrite (bind_run_Ok _ _ _ _ _ (dict_new_run _ _)).
  rewrite (bind_run_Ok _ _ _ _ _
             (dict_setitem_run _ _ METADATA _ _
                (lookup_insert_fresh _ _ _ _ (lookup_insert_eq _ _ _)))).
  reflexivity.
Qed.

(** The samples [load_sample] accepts: a sample that is a dict of the
    store and holds under the input key a value the loader of the input
    decodes is loaded, and the call returns the sample. *)
Lemma load_sample_accepts cls l d input img (h : heap) :
  h !! l = Some d -> d !! INPUT = Some input ->
  decode_input cls input = Ok img ->
  (cls = ImagePathsInput -> module_available "image" = true) ->
  exists h', load_sample cls (VDict l) h = (Ok (VDict l), h').
Proof.
  intros Hd Hin Hdec Havail.
  pose proof (dict_getitem_run _ _ _ _ _ Hd Hin) as Hget.
  pose proof (dict_setitem_run _ _ INPUT (VImage img) _ Hd) as Hset.
  assert (Hl1 : <[l := <[INPUT := VImage img]> d]> h !! l
                = Some (<[INPUT := VImage img]> d))
    by apply lookup_insert_eq.
  destruct cls; cbn [load_sample decode_input] in Hdec |- *.
  - unfold ImagePathsInput_load_sample, requires.
    rewrite (Havail eq_refl).
    rewrite (bind_run_Ok _ _ _ _ _
               (PathsInput_load_sample_run _ _ _ _ _ _ Hd Hin Hdec)).
    cbv zeta.
    set (h1 := <[l := <[INPUT := VImage img]> d]> h).
    assert (Hne : fresh (dom h1) <> l).
    { intros Heq. pose proof (fresh_loc_None h1) as Hfresh.
      rewrite Heq in Hfresh. unfold h1 in Hfresh.
      by rewrite lookup_insert_eq in Hfresh. }
    rewrite (bind_run_Ok _ _ _ (VImage img) _)
      by (apply (dict_getitem_run _ _ _ _ _ (lookup_insert_eq _ _ _));
          rewrite lookup_insert_ne by done; apply lookup_insert_eq).
    cbn [getattr_size]. destruct (Image_size img) as [w hh].
    rewrite (bind_run_Ok _ _ _ (w, hh) _) by reflexivity.
    rewrite (bind_run_Ok _ _ _ _ _
               (dict_getitem_run _ _ _ _ _ (lookup_insert_eq _ _ _)
                  (lookup_insert_eq _ _ _))).
    eexists.
    erewrite bind_run_Ok; [reflexivity |].
    apply dict_setitem_run. rewrite lookup_insert_ne by done.
    apply lookup_insert_eq.
  - unfold ImageTensorInput_load_sample.
    destruct name_to_pil_image as [[]|] eqn:Hname; [|discriminate].
    cbn [mbind result_bind] in Hdec.
    rewrite (bind_run_Ok _ _ h tt h) by reflexivity.
    rewrite (bind_run_Ok _ _ _ _ _ Hget).
    rewrite (bind_run_Ok _ _ h img h) by (unfold lift; by rewrite Hdec).
    rewrite (bind_run_Ok _ _ _ _ _ Hset).
    destruct (Image_size img) as [w hh].
    rewrite (bind_run_Ok _ _ _ _ _ (dict_new_run _ _)).
    rewrite (bind_run_Ok _ _ _ _ _
               (dict_setitem_run _ _ METADATA _ _
                  (lookup_insert_fresh _ _ _ _ Hl1))).
    by eexists.
  - unfold ImageNumpyInput_load_sample.
    destruct name_to_pil_image as [[]|] eqn:Hname; [|discriminate].
    cbn [mbind result_bind] in Hdec.
    destruct (call_torch_from_numpy input) as [t|] eqn:Ht; [|discriminate].
    cbn [mbind result_bind] in Hdec.
    rewrite (bind_run_Ok _ _ h tt h) by reflexivity.
    rewrite (bind_run_Ok _ _ _ _ _ Hget).
    rewrite (bind_run_Ok _ _ h t h) by (unfold lift; by rewrite Ht).
    rewrite (bind_run_Ok _ _ h img h) by (unfold lift; by rewrite Hdec).
    rewrite (bind_run_Ok _ _ _ _ _ Hset).
    destruct (Image_size img) as [w hh].
    rewrite (bind_run_Ok _ _ _ _ _ (dict_new_run _ _)).
    rewrite (bind_run_Ok _ _ _ _ _
               (dict_setitem_run _ _ METADATA _ _
                  (lookup_insert_fresh _ _ _ _ Hl1))).
    by eexists.
  - unfold ImageFiftyOneInput_load_sample.
    rewrite (bind_run_Ok _ _ _ _ _ Hget).
    rewrite (bind_run_Ok _ _ h img h) by (unfold lift; by rewrite Hdec).
    rewrite (bind_run_Ok _ _ _ _ _ Hset).
    destruct (Image_size img) as [w hh].
    rewrite (bind_run_Ok _ _ _ _ _ (dict_new_run _ _)).
    rewrite (bind_run_Ok _ _ _ _ _
               (dict_setitem_run _ _ METADATA _ _
                  (lookup_insert_fresh _ _ _ _ Hl1))).
    by eexists.
  - unfold FastFaceInput_load_sample.
    rewrite (bind_run_Ok _ _ _ _ _ Hget).
    rewrite (bind_run_Ok _ _ h img h) by (unfold lift; by rewrite Hdec).
    rewrite (bind_run_Ok _ _ _ _ _ Hset).
    destruct (Image_size img) as [w hh].
    rewrite (bind_run_Ok _ _ _ _ _ (dict_new_run _ _)).
    rewrite (bind_run_Ok _ _ _ _ _
               (dict_setitem_run _ _ METADATA _ _
                  (lookup_insert_fresh _ _ _ _ Hl1))).
    by eexists.
Qed.

(** C6. [load_sample] of each of the five inputs accepts the samples
    that are a dict holding under the input key a value the loader of the
    input decodes ([ImagePathsInput] with the image dependencies
    installed). For every sample it accepts, the mapping it returns holds
    under the input key the image its loader decodes from the value that
    was there, and under the metadata key a mapping whose ["size"] entry
    is the pair (height, width) of that image, the reverse of the
    (width, height) its [size] attribute reports; [ImageFiftyOneInput]
    and [FastFaceInput] also record the source file path under
    ["filepath"]. *)
Theorem load_sample_image_and_size cls sample h :
  (forall l d input img,
     sample = VDict l -> h !! l = Some d -> d !! INPUT = Some input ->
     decode_input cls input = Ok img ->
     (cls = ImagePathsInput -> module_available "image" = true) ->
     exists h', load_sample cls sample h = (Ok sample, h')) /\
  (forall r h',
     load_sample cls sample h = (Ok r, h') ->
     exists l d' img lm metadata,
       r = VDict l /\ h' !! l = Some d' /\
       (exists d input, h !! l = Some d /\ d !! INPUT = Some input /\
          decode_input cls input = Ok img /\
          (records_filepath cls = true ->
           metadata !! "filepath" = Some input)) /\
       d' !! INPUT = Some (VImage img) /\
       d' !! METADATA = Some (VDict lm) /\
       h' !! lm = Some metadata /\
       (forall width height, Image_size img = (width, height) ->
          metadata !! "size" = Some (VTuple (VInt height) (VInt width)))).
Proof.
  split.
  { intros l d input img -> Hd Hin Hdec Havail.
    by eapply load_sample_accepts. }
  intros r h' Hrun.
  destruct (load_sample_Ok _ _ _ _ _ Hrun)
    as (l & d & input & img & lm & -> & -> & Hd & Hin & Hdec & Hlm & Hl' & Hm & _).
  exists l, (<[METADATA := VDict lm]> (<[INPUT := VImage img]> d)), img, lm,
    (metadata_of cls input img).
  split_and!; try done.
  - exists d, input. split_and!; try done.
    destruct cls; try discriminate; intros _; by simplify_map_eq.
  - by simplify_map_eq.
  - by simplify_map_eq.
  - intros width height Hsz. unfold metadata_of, image_size_hw.
    rewrite Hsz. destruct cls; by simplify_map_eq.
Qed.

(** C10. Every [load_sample] writes only the input key and the metadata
    key of the mapping it is given, and returns that very mapping: a call
    that raises has written nothing, and after a call that returns every
    other key of the sample (the target key in particular) keeps its value
    and every other object of the store is as it was. *)
Theorem load_sample_frame cls sample h :
  (forall e h', load_sample cls sample h = (Raise e, h') -> h' = h) /\
  (forall r h', load_sample cls sample h = (Ok r, h') ->
     r = sample /\
     exists l d d',
       sample = VDict l /\ h !! l = Some d /\ h' !! l = Some d' /\
       (forall k, k <> INPUT -> k <> METADATA -> d' !! k = d !! k) /\
       d' !! TARGET = d !! TARGET /\
       (forall l', l' <> l -> is_Some (h !! l') -> h' !! l' = h !! l')).
Proof.
  split; [intros e h'; apply load_sample_Raise |].
  intros r h' Hrun.
  destruct (load_sample_Ok _ _ _ _ _ Hrun)
    as (l & d & input & img & lm & -> & -> & Hd & Hin & Hdec & Hlm & Hl' & Hm & Hframe).
  split; [done |].
  exists l, d, (<[METADATA := VDict lm]> (<[INPUT := VImage img]> d)).
  split_and!; try done.
  - intros k Hk1 Hk2. by rewrite !lookup_insert_ne.
  - by rewrite !lookup_insert_ne.
  - intros l' Hne [v Hv]. apply Hframe; [done |]. congruence.
Qed.

(** *** More on the deserializer *)

(** [flash.ASSETS_ROOT], the path [Path(root) / name], and
    [path.open("rb")] followed by [f.read()]: the content of the file, or
    the exception of a file that cannot be opened. *)
Variable ASSETS_ROOT : string.
Variable Path_joinpath : string -> string -> string.
Variable Path_open_read : string -> result (list byte).


(** The text has ASCII characters only. *)
Definition isascii (data : string) : bool :=
  forallb (fun b => base64.byte_to_Z b <? 128) (list_byte_of_string data).


(** The text without the characters the decoder passes over. *)
Definition significant_characters (data : string) : string :=
  string_of_list_byte
    (List.filter base64_facts.significant (list_byte_of_string data)).

Lemma str_encode_ascii_pads (data : string) :
  isascii data = true ->
  str_encode_ascii (data +:+ "===")
  = Ok (list_byte_of_string data ++ replicate 3 base64.BASE64_PAD).
Proof.
  unfold isascii, str_encode_ascii. intros Hascii.
  rewrite list_byte_of_string_app, forallb_app, Hascii. reflexivity.
Qed.

Lemma filter_filter {A} (f : A -> bool) (l : list A) :
  List.filter f (List.filter f l) = List.filter f l.
Proof.
  induction l as [|a l IH]; [reflexivity |].
  cbn [List.filter]. destruct (f a) eqn:Ha; [|exact IH].
  cbn [List.filter]. by rewrite Ha, IH.
Qed.

Lemma forallb_filter {A} (p f : A -> bool) (l : list A) :
  forallb p l = true -> forallb p (List.filter f l) = true.
Proof.
  rewrite !forallb_forall. intros Hall a Hin.
  apply Hall. by apply filter_In in Hin as [Hin _].
Qed.


(** X2. The deserializer passes over every character that is neither of
    the base64 alphabet nor the pad character: an ASCII payload with line
    breaks, blanks or any other such characters in it is deserialized as
    the payload without them. *)
Theorem deserialize_skips_other_characters (data : string) :
  isascii data = true ->
  ImageDeserializer_deserialize data
  = ImageDeserializer_deserialize (significant_characters data).
Proof.
  intros Hascii.
  assert (Hascii' : isascii (significant_characters data) = true).
  { unfold isascii, significant_characters.
    rewrite list_byte_of_string_of_list_byte. apply forallb_filter.
    exact Hascii. }
  unfold ImageDeserializer_deserialize, requires.
  case (module_available "image"); [|reflexivity].
  rewrite (str_encode_ascii_pads _ Hascii), (str_encode_ascii_pads _ Hascii').
  cbn [mbind result_bind].
  unfold significant_characters. rewrite list_byte_of_string_of_list_byte.
  unfold base64.b64decode, base64.a2b_base64.
  rewrite (base64_facts.loop_filter_significant (list_byte_of_string data ++ _)).
  rewrite (base64_facts.loop_filter_significant (List.filter _ _ ++ _)).
  rewrite !List.filter_app, filter_filter. reflexivity.
Qed.

(** X3. The deserializer raises a [UnicodeEncodeError] exactly for the
    payloads that hold a character that is not ASCII: such a payload is
    rejected by the encoding to ASCII before anything is decoded, and a
    payload of ASCII characters never meets this exception. *)
Theorem deserialize_not_ascii (data : string) :
  module_available "image" = true ->
  ImageDeserializer_deserialize data = Raise UnicodeEncodeError
  <-> isascii data = false.
Proof.
  intros Havail.
  unfold ImageDeserializer_deserialize, requires. rewrite Havail. split.
  - destruct (isascii data) eqn:Hascii; [|done].
    rewrite (str_encode_ascii_pads _ Hascii). cbn [mbind result_bind].
    destruct (base64.b64decode _) as [img|e] eqn:Hdecode.
    + cbn [mbind result_bind]. unfold call_Image_open.
      by destruct (Image_open img).
    + cbn [mbind result_bind]. intros [= ->].
      by apply base64_facts.loop_Raise in Hdecode as [msg Hmsg].
  - intros Hascii. unfold str_encode_ascii. unfold isascii in Hascii.
    by rewrite list_byte_of_string_app, forallb_app, Hascii.
Qed.



(** *** More on the sample loaders *)

(** X5. A sample is loaded once: [load_sample] applied again to the
    mapping it has returned finds the decoded image under the input key,
    raises, and leaves the sample as the first call has left it. *)
Theorem load_sample_twice cls sample h r h' :
  load_sample cls sample h = (Ok r, h') ->
  exists e, load_sample cls r h' = (Raise e, h').
Proof.
  intros Hrun.
  destruct (load_sample_Ok _ _ _ _ _ Hrun)
    as (l & d & input & img & lm & -> & -> & Hd & Hin & Hdec & Hlm & Hl' & Hm & _).
  assert (Hget : dict_getitem (VDict l) INPUT h' = (Ok (VImage img), h')).
  { unfold dict_getitem. rewrite Hl'. by simplify_map_eq. }
  destruct cls; cbn [load_sample] in Hrun |- *.
  - unfold ImagePathsInput_load_sample, requires in Hrun |- *.
    destruct (module_available "image"); [|discriminate].
    eexists. apply bind_run_Raise. unfold PathsInput_load_sample.
    rewrite (bind_run_Ok _ _ _ _ _ Hget). reflexivity.
  - cbn [decode_input] in Hdec.
    destruct name_to_pil_image as [[]|] eqn:Hname; [|discriminate].
    unfold ImageTensorInput_load_sample. rewrite Hname.
    eexists. rewrite (bind_run_Ok _ _ h' tt h') by reflexivity.
    rewrite (bind_run_Ok _ _ _ _ _ Hget). reflexivity.
  - cbn [decode_input] in Hdec.
    destruct name_to_pil_image as [[]|] eqn:Hname; [|discriminate].
    unfold ImageNumpyInput_load_sample. rewrite Hname.
    eexists. rewrite (bind_run_Ok _ _ h' tt h') by reflexivity.
    rewrite (bind_run_Ok _ _ _ _ _ Hget). reflexivity.
  - unfold ImageFiftyOneInput_load_sample.
    eexists. rewrite (bind_run_Ok _ _ _ _ _ Hget). reflexivity.
  - unfold FastFaceInput_load_sample.
    eexists. rewrite (bind_run_Ok _ _ _ _ _ Hget). reflexivity.
Qed.

(** X6. The four inputs that set the metadata themselves accept the
    samples that are a dict holding under the input key a value their
    loader decodes, and make a new mapping for the metadata of every
    sample they accept: the metadata of the returned sample is an object
    that was not in the store before the call, and it holds the size
    (and, for [ImageFiftyOneInput] and [FastFaceInput], the file path)
    and nothing else, so that no entry of a metadata the sample carried
    before is kept. *)
Theorem load_sample_new_metadata cls sample h :
  cls <> ImagePathsInput ->
  (forall l d input img,
     sample = VDict l -> h !! l = Some d -> d !! INPUT = Some input ->
     decode_input cls input = Ok img ->
     exists h', load_sample cls sample h = (Ok sample, h')) /\
  (forall r h',
     load_sample cls sample h = (Ok r, h') ->
     exists l d' lm metadata,
       r = VDict l /\ h' !! l = Some d' /\
       d' !! METADATA = Some (VDict lm) /\
       h !! lm = None /\ h' !! lm = Some metadata /\
       forall k, is_Some (metadata !! k) <->
                 k = "size" \/
                 (records_filepath cls = true /\ k = "filepath")).
Proof.
  intros Hcls. split.
  { intros l d input img -> Hd Hin Hdec.
    by eapply load_sample_accepts. }
  intros r h' Hrun.
  destruct (load_sample_Ok _ _ _ _ _ Hrun)
    as (l & d & input & img & lm & -> & -> & Hd & Hin & Hdec & Hlm & Hl' & Hm & _).
  exists l, (<[METADATA := VDict lm]> (<[INPUT := VImage img]> d)), lm,
    (metadata_of cls input img).
  split_and!; try done; [by simplify_map_eq |].
  intros k. destruct cls; try done; cbn [metadata_of records_filepath].
  - rewrite lookup_singleton_is_Some.
    split; [intros <-; by left | by intros [->|[? _]]].
  - rewrite lookup_singleton_is_Some.
    split; [intros <-; by left | by intros [->|[? _]]].
  - rewrite lookup_insert_is_Some, lookup_singleton_is_Some.
    split; [intros [<-|[_ <-]]; [by left | by right]
           | intros [->|[_ ->]]; [by left | by right]].
  - rewrite lookup_insert_is_Some, lookup_singleton_is_Some.
    split; [intros [<-|[_ <-]]; [by left | by right]
           | intros [->|[_ ->]]; [by left | by right]].
Qed.

End image_data.

(** *** [_labels_to_indices] *)

Section labels_to_indices.

(** The hashable Python values, with Python's equality; a tensor; any
    value that cannot be hashed (a list, a dict, an array). *)
Context {L : Type} `{Countable L}.
Variables Tensor U : Type.
(** [tensor.item()]: the scalar of a one-element tensor, and an exception
    for any other tensor. *)
Variable Tensor_item : Tensor -> result L.

Inductive pyobj :=
| Hashable (l : L)
| TensorObj (t : Tensor)
| Unhashable (u : U).

Definition torch_is_tensor (o : pyobj) : bool :=
  match o with
  | TensorObj _ => true
  | _ => false
  end.

(** [out[label].append(idx)] on a [defaultdict(list)]. *)
Definition defaultdict_append (out : gmap L (list nat)) (label : L) (idx : nat)
    : gmap L (list nat) :=
  <[label := default [] (out !! label) ++ [idx]]> out.

(** The loop over [enumerate(data)], from index [idx] on. *)
Fixpoint _labels_to_indices_loop (idx : nat) (data : list (gmap string pyobj))
    (out : gmap L (list nat)) : result (gmap L (list nat)) :=
  match data with
  | [] => Ok out
  | sample :: data =>
      label ← getitem sample TARGET;
      label ← match label with
              | TensorObj t => l ← Tensor_item t; Ok (Hashable l)
              | _ => Ok label
              end;
      match label with
      | Hashable l =>
          _labels_to_indices_loop (S idx) data (defaultdict_append out l idx)
      | _ => Raise (TypeError "unhashable type")
      end
  end.

Definition _labels_to_indices (data : list (gmap string pyobj))
    : result (gmap L (list nat)) :=
  _labels_to_indices_loop 0 data ∅.

(** The target label a sample carries: a hashable value, or the scalar
    of a one-element tensor. *)
Definition label_of (sample : gmap string pyobj) : option L :=
  match sample !! TARGET with
  | Some (Hashable l) => Some l
  | Some (TensorObj t) =>
      match Tensor_item t with
      | Ok l => Some l
      | Raise _ => None
      end
  | _ => None
  end.

(** The indices, counted from [idx], of the samples labelled [l]. *)
Fixpoint positions (l : L) (idx : nat) (data : list (gmap string pyobj))
    : list nat :=
  match data with
  | [] => []
  | sample :: data =>
      (if decide (label_of sample = Some l) then [idx] else [])
      ++ positions l (S idx) data
  end.

Lemma elem_of_positions l idx data i :
  i ∈ positions l idx data <->
  exists sample, (idx <= i)%nat /\ data !! (i - idx)%nat = Some sample /\
                 label_of sample = Some l.
Proof.
  revert idx. induction data as [|s data IH]; intros idx; cbn [positions].
  - split; [intros Hin; inversion Hin | intros (? & _ & Hl & _); discriminate].
  - rewrite elem_of_app, IH. split.
    + intros [Hin | (s' & Hle & Hl & Hs')].
      * destruct (decide (label_of s = Some l)) as [Hs|]; [|inversion Hin].
        apply list_elem_of_singleton in Hin as ->.
        exists s. rewrite Nat.sub_diag. auto.
      * exists s'. split_and!; [lia | | done].
        replace (i - idx)%nat with (S (i - S idx)) by lia. done.
    + intros (s' & Hle & Hl & Hs').
      destruct (decide (i = idx)) as [->|Hne].
      * rewrite Nat.sub_diag in Hl. injection Hl as ->.
        left. rewrite decide_True by done. by apply list_elem_of_singleton.
      * right. exists s'. split_and!; [lia | | done].
        replace (i - idx)%nat with (S (i - S idx)) in Hl by lia. done.
Qed.

Lemma positions_sorted l idx data : StronglySorted lt (positions l idx data).
Proof.
  revert idx. induction data as [|s data IH]; intros idx; cbn [positions].
  - constructor.
  - destruct (decide (label_of s = Some l)); cbn [app]; [|apply IH].
    constructor; [apply IH |].
    apply Forall_forall. intros i Hi.
    apply elem_of_positions in Hi as (? & Hle & _). lia.
Qed.

(** The loop appends to the list of each label the indices of the samples
    that carry it. *)
Lemma _labels_to_indices_loop_spec data : forall idx out,
  Forall (fun sample => is_Some (label_of sample)) data ->
  exists out',
    _labels_to_indices_loop idx data out = Ok out' /\
    forall l, default [] (out' !! l)
              = default [] (out !! l) ++ positions l idx data.
Proof.
  induction data as [|s data IH]; intros idx out Hall.
  - exists out. split; [done |]. intros l. cbn. by rewrite app_nil_r.
  - apply Forall_cons in Hall as [[l0 Hl0] Hall].
    destruct (IH (S idx) (defaultdict_append out l0 idx) Hall)
      as (out' & Hrun & Hout').
    exists out'. split.
    + cbn [_labels_to_indices_loop]. unfold label_of in Hl0.
      unfold getitem.
      destruct (s !! TARGET) as [[l1|t|u]|]; try discriminate; cbn.
      * by injection Hl0 as ->.
      * destruct (Tensor_item t); [|discriminate]. cbn.
        by injection Hl0 as ->.
    + intros l. rewrite Hout'. cbn [positions]. unfold defaultdict_append.
      destruct (decide (l0 = l)) as [->|Hne].
      * rewrite lookup_insert_eq, decide_True by done.
        cbn. by rewrite <- !app_assoc.
      * rewrite lookup_insert_ne by done.
        rewrite decide_False by congruence. done.
Qed.

(** C9. For every sequence of samples that each carry a target label,
    [_labels_to_indices] returns a mapping in which every index of the
    sequence occurs in the list of the label of its sample, in no other
    list, and once; each list is in strictly increasing order. *)
Theorem labels_to_indices_partition (data : list (gmap string pyobj)) :
  Forall (fun sample => is_Some (label_of sample)) data ->
  exists out,
    _labels_to_indices data = Ok out /\
    (forall i sample, data !! i = Some sample ->
       exists l indices,
         label_of sample = Some l /\ out !! l = Some indices /\ i ∈ indices) /\
    (forall l indices i, out !! l = Some indices -> i ∈ indices ->
       exists sample, data !! i = Some sample /\ label_of sample = Some l) /\
    (forall l indices, out !! l = Some indices ->
       StronglySorted lt indices /\ NoDup indices).
Proof.
  intros Hall.
  destruct (_labels_to_indices_loop_spec data 0%nat ∅ Hall) as (out & Hrun & Hout).
  assert (Hpos : forall l indices, out !! l = Some indices ->
                   indices = positions l 0 data).
  { intros l indices Hl. specialize (Hout l).
    rewrite Hl, lookup_empty in Hout. exact Hout. }
  exists out. split_and!; [done | | |].
  - intros i sample Hi.
    destruct (proj1 (Forall_lookup _ _) Hall i sample Hi) as [l Hl].
    assert (Hin : i ∈ positions l 0 data).
    { apply elem_of_positions. exists sample.
      rewrite Nat.sub_0_r. split_and!; [lia | done | done]. }
    specialize (Hout l). rewrite lookup_empty in Hout. cbn in Hout.
    destruct (out !! l) as [indices|] eqn:Hl'.
    + exists l, indices. cbn in Hout. by subst.
    + cbn in Hout. rewrite <- Hout in Hin. inversion Hin.
  - intros l indices i Hl Hin. apply Hpos in Hl as ->.
    apply elem_of_positions in Hin as (sample & _ & Hi & Hs).
    rewrite Nat.sub_0_r in Hi. eauto.
  - intros l indices Hl. apply Hpos in Hl as ->.
    pose proof (positions_sorted l 0 data) as Hsorted.
    split; [done |].
    clear -Hsorted. induction Hsorted as [|i indices Hs IH Hlt].
    + constructor.
    + constructor; [|done]. intros Hin.
      rewrite Forall_forall in Hlt. specialize (Hlt _ Hin). lia.
Qed.

(** The entry of a label after the loop: as it was when no sample carries
    the label, and otherwise the list it had followed by the indices of
    the samples that carry it. *)
Lemma _labels_to_indices_loop_lookup data : forall idx out out',
  _labels_to_indices_loop idx data out = Ok out' ->
  forall l,
    out' !! l = match positions l idx data with
                | [] => out !! l
                | _ :: _ =>
                    Some (default [] (out !! l) ++ positions l idx data)
                end.
Proof.
  assert (Hstep : forall idx (out : gmap L (list nat)) l0 l ps,
    match ps with
    | [] => defaultdict_append out l0 idx !! l
    | _ :: _ => Some (default [] (defaultdict_append out l0 idx !! l) ++ ps)
    end
    = match (if decide (Some l0 = Some l) then [idx] else []) ++ ps with
      | [] => out !! l
      | _ :: _ =>
          Some (default [] (out !! l)
                ++ (if decide (Some l0 = Some l) then [idx] else []) ++ ps)
      end).
  { intros idx out l0 l ps. unfold defaultdict_append.
    destruct (decide (Some l0 = Some l)) as [[= ->]|Hne].
    - rewrite lookup_insert_eq. cbn [app default].
      destruct ps; [reflexivity |].
      unfold id. by rewrite <- app_assoc.
    - rewrite lookup_insert_ne by congruence. reflexivity. }
  induction data as [|s data IH]; intros idx out out' Hrun l.
  - injection Hrun as <-. reflexivity.
  - cbn [_labels_to_indices_loop positions] in Hrun |- *.
    unfold label_of. unfold getitem in Hrun.
    destruct (s !! TARGET) as [[l0|t|u]|]; cbn in Hrun; try discriminate.
    + rewrite (IH _ _ _ Hrun l). apply Hstep.
    + destruct (Tensor_item t) as [l0|]; cbn in Hrun; [|discriminate].
      rewrite (IH _ _ _ Hrun l). apply Hstep.
Qed.

(** A run of the loop that returns has found a label in every sample. *)
Lemma _labels_to_indices_loop_labelled data : forall idx out out',
  _labels_to_indices_loop idx data out = Ok out' ->
  Forall (fun sample => is_Some (label_of sample)) data.
Proof.
  induction data as [|s data IH]; intros idx out out' Hrun; [constructor |].
  cbn [_labels_to_indices_loop] in Hrun. unfold getitem in Hrun.
  constructor.
  - unfold label_of.
    destruct (s !! TARGET) as [[l0|t|u]|]; cbn in Hrun; try discriminate;
      [by eexists |].
    destruct (Tensor_item t); [by eexists | discriminate].
  - destruct (s !! TARGET) as [[l0|t|u]|]; cbn in Hrun; try discriminate.
    + by eapply IH.
    + destruct (Tensor_item t); cbn in Hrun; [by eapply IH | discriminate].
Qed.

(** The loop over a sequence whose first samples all carry a label goes
    on with the rest, from the index it has reached. *)
Lemma _labels_to_indices_loop_app good rest : forall idx out,
  Forall (fun sample => is_Some (label_of sample)) good ->
  exists out1,
    _labels_to_indices_loop idx (good ++ rest) out
    = _labels_to_indices_loop (idx + length good) rest out1.
Proof.
  induction good as [|s good IH]; intros idx out Hall.
  - exists out. cbn. by rewrite Nat.add_0_r.
  - apply Forall_cons in Hall as [[l0 Hl0] Hall].
    destruct (IH (S idx) (defaultdict_append out l0 idx) Hall) as [out1 Hrun].
    exists out1. cbn [app _labels_to_indices_loop length].
    replace (idx + S (length good))%nat with (S idx + length good)%nat by lia.
    rewrite <- Hrun. unfold label_of in Hl0. unfold getitem.
    destruct (s !! TARGET) as [[l1|t|u]|]; try discriminate; cbn.
    + by injection Hl0 as ->.
    + destruct (Tensor_item t); [|discriminate]. cbn. by injection Hl0 as ->.
Qed.

Lemma positions_nil l idx data :
  positions l idx data = [] <->
  forall sample, sample ∈ data -> label_of sample <> Some l.
Proof.
  revert idx. induction data as [|s data IH]; intros idx; cbn [positions].
  - split; [|done]. intros _ sample Hin. inversion Hin.
  - destruct (decide (label_of s = Some l)) as [Hs|Hs]; cbn [app].
    + split; [discriminate |]. intros Hall.
      destruct (Hall s); [by left | done].
    + rewrite IH. split.
      * intros Hall sample [->|Hin]%elem_of_cons; [done | by apply Hall].
      * intros Hall sample Hin. apply Hall. by right.
Qed.

(** X7. The mapping [_labels_to_indices] returns has an entry for a label
    exactly when some sample carries that label, and no entry holds an
    empty list; it is empty only for an empty sequence of samples. *)
Theorem labels_to_indices_keys (data : list (gmap string pyobj))
    (out : gmap L (list nat)) :
  _labels_to_indices data = Ok out ->
  (forall l, is_Some (out !! l) <->
             exists sample, sample ∈ data /\ label_of sample = Some l) /\
  (forall l indices, out !! l = Some indices -> indices <> []) /\
  (out = ∅ <-> data = []).
Proof.
  intros Hrun. unfold _labels_to_indices in Hrun.
  pose proof (_labels_to_indices_loop_lookup _ _ _ _ Hrun) as Hout.
  pose proof (_labels_to_indices_loop_labelled _ _ _ _ Hrun) as Hall.
  assert (Hkeys : forall l, is_Some (out !! l) <->
            exists sample, sample ∈ data /\ label_of sample = Some l).
  { intros l. rewrite (Hout l), lookup_empty. split.
    - destruct (positions l 0 data) as [|n ps] eqn:Hpos; [by intros [? ?] |].
      intros _.
      assert (Hin : n ∈ positions l 0 data) by (rewrite Hpos; by left).
      apply elem_of_positions in Hin as (sample & _ & Hi & Hs).
      exists sample. split; [by eapply list_elem_of_lookup_2 | done].
    - intros (sample & Hin & Hl).
      destruct (positions l 0 data) eqn:Hpos; [|by eexists].
      destruct (proj1 (positions_nil _ _ _) Hpos sample Hin Hl). }
  split_and!; [exact Hkeys | |].
  - intros l indices Hl ->. rewrite (Hout l), lookup_empty in Hl.
    destruct (positions l 0 data); [discriminate |].
    injection Hl as Hl. discriminate.
  - split.
    + intros ->. destruct data as [|s data]; [done |].
      apply Forall_cons in Hall as [[l Hl] _].
      assert (Hsome : is_Some ((∅ : gmap L (list nat)) !! l)).
      { apply Hkeys. exists s. split; [by left | done]. }
      rewrite lookup_empty in Hsome. by destruct Hsome.
    + intros ->. by injection Hrun as <-.
Qed.

(** X8. [_labels_to_indices] returns a mapping only when every sample
    carries a label. At the first sample that does not, the call ends
    with the exception of that sample and returns nothing: a [KeyError]
    for a sample without the target key, the exception of [item()] for a
    tensor that is not a scalar, and a [TypeError] for a target that
    cannot be hashed. *)
Theorem labels_to_indices_raises (good rest : list (gmap string pyobj))
    (bad : gmap string pyobj) :
  Forall (fun sample => is_Some (label_of sample)) good ->
  (bad !! TARGET = None ->
   _labels_to_indices (good ++ bad :: rest) = Raise (KeyError TARGET)) /\
  (forall t e, bad !! TARGET = Some (TensorObj t) -> Tensor_item t = Raise e ->
   _labels_to_indices (good ++ bad :: rest) = Raise e) /\
  (forall u, bad !! TARGET = Some (Unhashable u) ->
   exists msg, _labels_to_indices (good ++ bad :: rest) = Raise (TypeError msg)) /\
  (forall data out, _labels_to_indices data = Ok out ->
   Forall (fun sample => is_Some (label_of sample)) data).
Proof.
  intros Hgood. unfold _labels_to_indices.
  destruct (_labels_to_indices_loop_app good (bad :: rest) 0 ∅ Hgood)
    as [out1 ->].
  cbn [_labels_to_indices_loop]. unfold getitem.
  split_and!.
  - by intros ->.
  - intros t e -> Ht. cbn. by rewrite Ht.
  - intros u ->. by eexists.
  - intros data out. apply _labels_to_indices_loop_labelled.
Qed.

End labels_to_indices.

(** *** The loaders on concrete inputs

    A small library to run the definitions with. An image, a tensor and
    an array are represented by their (width, height); a file has the
    extension its lower-cased name ends with; the files whose name starts
    with "missing" do not exist; and the images identified in bytes are
    those of the binary PPM format: the signature P6, then the width, the
    height and the maximal value of a colour in decimal, separated by
    white space, then the pixels. *)

Definition str_lower (s : string) : string :=
  string_of_list_ascii
    ((fun c : ascii =>
        let n := nat_of_ascii c in
        if (65 <=? n)%nat && (n <=? 90)%nat then ascii_of_nat (n + 32) else c)
       <$> list_ascii_of_string s).

Definition endswith (s suffix : string) : bool :=
  String.prefix (String.rev suffix) (String.rev s).

Definition lower_endswith (filename : string) (extensions : list string)
    : bool :=
  existsb (endswith (str_lower filename)) extensions.

Definition sized : Type := Z * Z.

Definition sized_of_path (p : string) : sized := (Z.of_nat (String.length p), 2).

Definition sized_of_pic (pic : sized + sized) : sized :=
  match pic with
  | inl t => t
  | inr a => a
  end.

Definition file_exists (p : string) : bool := negb (String.prefix "missing" p).

Definition load_file (p : string) : result sized :=
  if file_exists p then Ok (sized_of_path p) else Raise (FileNotFoundError p).

Definition astype (a : sized) (dtype : string) : result sized := Ok a.

Definition fromarray (a : sized) (mode : string) : result sized := Ok a.

Definition pil_of_pic (pic : sized + sized) : result sized :=
  fromarray (sized_of_pic pic) "RGB".

Definition from_numpy (a : sized) : result sized := Ok a.

Definition is_whitespace (b : byte) : bool :=
  let c := base64.byte_to_Z b in (c =? 32) || ((9 <=? c) && (c <=? 13)).

Definition is_digit (b : byte) : bool :=
  let c := base64.byte_to_Z b in (48 <=? c) && (c <=? 57).

Fixpoint skip_whitespace (l : list byte) : list byte :=
  match l with
  | b :: l' => if is_whitespace b then skip_whitespace l' else l
  | [] => []
  end.

(** The digits of a number, up to the white space that ends it. *)
Fixpoint read_digits (l : list byte) (n : Z) : option (Z * list byte) :=
  match l with
  | b :: l' =>
      if is_digit b then read_digits l' (10 * n + (base64.byte_to_Z b - 48))
      else if is_whitespace b then Some (n, l')
      else None
  | [] => Some (n, [])
  end.

Definition read_token (l : list byte) : option (Z * list byte) :=
  match skip_whitespace l with
  | b :: l' => if is_digit b then read_digits (b :: l') 0 else None
  | [] => None
  end.

Definition open_ppm (b : list byte) : option sized :=
  match b with
  | b0 :: b1 :: b2 :: l =>
      if Byte.eqb b0 "P" && Byte.eqb b1 "6" && is_whitespace b2 then
        '(width, l) ← read_token l;
        '(height, l) ← read_token l;
        '(maxval, l) ← read_token l;
        if (0 <? maxval) && (maxval <? 65536) then Some (width, height)
        else None
      else None
  | _ => None
  end.

Definition extensions : list string :=
  [".jpg"; ".jpeg"; ".png"; ".ppm"; ".bmp"; ".pgm"; ".tif"; ".tiff"; ".webp"].

Definition run_image_loader : string -> result sized :=
  image_loader sized sized fromarray load_file astype load_file lower_endswith
    true extensions.

Definition run_deserialize
    : string -> result (gmap string (value sized sized sized)) :=
  ImageDeserializer_deserialize sized sized sized open_ppm (fun _ => true).

Definition run_decode_input (cls : image_input)
    : value sized sized sized -> result sized :=
  decode_input sized sized sized fromarray load_file astype pil_of_pic
    from_numpy load_file lower_endswith true extensions cls.

Definition run_load_sample (cls : image_input)
    : value sized sized sized ->
      M (gmap loc (gmap string (value sized sized sized)))
        (value sized sized sized) :=
  load_sample sized sized sized (fun img => img) fromarray load_file astype
    pil_of_pic from_numpy load_file lower_endswith (fun _ => true) true
    extensions cls.

(** The sample is the dict at location 1 of the store. *)
Definition sample_ref : value sized sized sized :=
  VDict sized sized sized 1%positive.

(** A FDDB sample: a path under the input key, and a target. *)
Definition face_sample : gmap loc (gmap string (value sized sized sized)) :=
  {[ 1%positive :=
       <[INPUT := VStr sized sized sized "2002/07/19/big/img_18.jpg"]>
         {[ TARGET := VInt sized sized sized 1 ]} ]}.

(** A sample with a tensor under the input key, a target and one more
    key. *)
Definition tensor_sample : gmap loc (gmap string (value sized sized sized)) :=
  {[ 1%positive :=
       <[INPUT := VTensor sized sized sized (640, 480)]>
         (<[TARGET := VInt sized sized sized 7]>
            {[ "weight" := VInt sized sized sized 3 ]}) ]}.

(** A sample with the given value under the input key, and a target. *)
Definition sample_of (input : value sized sized sized)
    : gmap loc (gmap string (value sized sized sized)) :=
  {[ 1%positive :=
       <[INPUT := input]> {[ TARGET := VInt sized sized sized 1 ]} ]}.

Example image_loader_png :
  run_image_loader "Cat.PNG" = Ok (7, 2).
Proof. reflexivity. Qed.

Example image_loader_npy :
  run_image_loader "a.npy" = Ok (5, 2).
Proof. reflexivity. Qed.

(** An image of one pixel, and its encoding, which ends with one pad
    character. *)
Definition one_pixel : list byte := list_byte_of_string "P6 1 1 255 abc".

Example b64encode_one_pixel :
  base64.b64encode one_pixel = list_byte_of_string "UDYgMSAxIDI1NSBhYmM=".
Proof. vm_compute. reflexivity. Qed.



Lemma image_loader_unsupported_iff_witness :
  run_image_loader "notes.txt"
  = Raise (ValueError
      "File: notes.txt has an unsupported extension. Supported extensions: ['.jpg', '.jpeg', '.png', '.ppm', '.bmp', '.pgm', '.tif', '.tiff', '.webp', '.npy'].").
Proof.
  exact (proj1
    (image_loader_unsupported_iff sized sized fromarray load_file astype
       load_file lower_endswith true extensions "notes.txt")
    eq_refl eq_refl).
Defined.

(** C2, as stated, fails for a supported extension whose file the loader
    cannot load: a file that does not exist, with an image extension or
    with the extension of an array. *)
Lemma image_loader_missing_file :
  (lower_endswith "missing.png" extensions = true /\
   run_image_loader "missing.png" = Raise (FileNotFoundError "missing.png")) /\
  (lower_endswith "missing.npy" [".npy"] = true /\
   run_image_loader "missing.npy" = Raise (FileNotFoundError "missing.npy")).
Proof. split_and!; vm_compute; reflexivity. Qed.

(** What loading the sample at location 1 of the store [h] gives, for
    the value [input] under its input key and the image [img] decoded
    from it. *)
Definition loaded (cls : image_input)
    (h : gmap loc (gmap string (value sized sized sized)))
    (input : value sized sized sized) (img : sized) : Prop :=
  exists h' d' lm metadata,
    run_load_sample cls sample_ref h = (Ok sample_ref, h') /\
    h' !! 1%positive = Some d' /\
    d' !! INPUT = Some (VImage sized sized sized img) /\
    d' !! METADATA = Some (VDict sized sized sized lm) /\
    h' !! lm = Some metadata /\
    metadata !! "size"
    = Some (VTuple sized sized sized (VInt sized sized sized img.2)
              (VInt sized sized sized img.1)) /\
    (records_filepath cls = true -> metadata !! "filepath" = Some input).

Lemma loaded_intro (cls : image_input)
    (h : gmap loc (gmap string (value sized sized sized)))
    (d : gmap string (value sized sized sized))
    (input : value sized sized sized) (img : sized) :
  h !! 1%positive = Some d -> d !! INPUT = Some input ->
  run_decode_input cls input = Ok img ->
  (forall l d0 input0 img0,
     sample_ref = VDict sized sized sized l -> h !! l = Some d0 ->
     d0 !! INPUT = Some input0 -> run_decode_input cls input0 = Ok img0 ->
     (cls = ImagePathsInput -> (fun _ : string => true) "image" = true) ->
     exists h', run_load_sample cls sample_ref h = (Ok sample_ref, h')) ->
  (forall r h',
     run_load_sample cls sample_ref h = (Ok r, h') ->
     exists l d' img0 lm metadata,
       r = VDict sized sized sized l /\ h' !! l = Some d' /\
       (exists d0 input0,
          h !! l = Some d0 /\ d0 !! INPUT = Some input0 /\
          run_decode_input cls input0 = Ok img0 /\
          (records_filepath cls = true ->
           metadata !! "filepath" = Some input0)) /\
       d' !! INPUT = Some (VImage sized sized sized img0) /\
       d' !! METADATA = Some (VDict sized sized sized lm) /\
       h' !! lm = Some metadata /\
       (forall width height, img0 = (width, height) ->
          metadata !! "size"
          = Some (VTuple sized sized sized (VInt sized sized sized height)
                    (VInt sized sized sized width)))) ->
  loaded cls h input img.
Proof.
  intros Hd Hin Hdec Haccepts Hreturns.
  destruct (Haccepts _ _ _ _ eq_refl Hd Hin Hdec (fun _ => eq_refl))
    as [h' Hrun].
  destruct (Hreturns _ _ Hrun)
    as (l & d' & img0 & lm & metadata & [= <-] & Hd'
        & (d0 & input0 & Hd0 & Hin0 & Hdec0 & Hpath) & Himg & Hmeta & Hlm
        & Hsize).
  pose proof (eq_trans (eq_sym Hd0) Hd) as [= ->].
  pose proof (eq_trans (eq_sym Hin0) Hin) as [= ->].
  pose proof (eq_trans (eq_sym Hdec0) Hdec) as [= ->].
  exists h', d', lm, metadata. split_and!; try done.
  destruct img as [width height]. by apply Hsize.
Qed.

(** One sample for each of the five inputs: two paths, a tensor, an
    array, and the path of a FDDB image. *)
Lemma load_sample_image_and_size_witness :
  loaded ImagePathsInput (sample_of (VStr sized sized sized "Cat.PNG"))
    (VStr sized sized sized "Cat.PNG") (7, 2) /\
  loaded ImageTensorInput tensor_sample
    (VTensor sized sized sized (640, 480)) (640, 480) /\
  loaded ImageNumpyInput (sample_of (VNdarray sized sized sized (32, 24)))
    (VNdarray sized sized sized (32, 24)) (32, 24) /\
  loaded ImageFiftyOneInput (sample_of (VStr sized sized sized "a/b.jpg"))
    (VStr sized sized sized "a/b.jpg") (7, 2) /\
  loaded FastFaceInput face_sample
    (VStr sized sized sized "2002/07/19/big/img_18.jpg") (25, 2).
Proof.
  split_and!.
  - eapply loaded_intro; [reflexivity | reflexivity | reflexivity | |];
      apply (load_sample_image_and_size sized sized sized (fun img => img)
               fromarray load_file astype pil_of_pic from_numpy load_file
               lower_endswith (fun _ => true) true extensions ImagePathsInput).
  - eapply loaded_intro; [reflexivity | reflexivity | reflexivity | |];
      apply (load_sample_image_and_size sized sized sized (fun img => img)
               fromarray load_file astype pil_of_pic from_numpy load_file
               lower_endswith (fun _ => true) true extensions ImageTensorInput).
  - eapply loaded_intro; [reflexivity | reflexivity | reflexivity | |];
      apply (load_sample_image_and_size sized sized sized (fun img => img)
               fromarray load_file astype pil_of_pic from_numpy load_file
               lower_endswith (fun _ => true) true extensions ImageNumpyInput).
  - eapply loaded_intro; [reflexivity | reflexivity | reflexivity | |];
      apply (load_sample_image_and_size sized sized sized (fun img => img)
               fromarray load_file astype pil_of_pic from_numpy load_file
               lower_endswith (fun _ => true) true extensions
               ImageFiftyOneInput).
  - eapply loaded_intro; [reflexivity | reflexivity | reflexivity | |];
      apply (load_sample_image_and_size sized sized sized (fun img => img)
               fromarray load_file astype pil_of_pic from_numpy load_file
               lower_endswith (fun _ => true) true extensions FastFaceInput).
Defined.

(** A sample whose file does not exist is not accepted, and is left as
    it was. *)
Example load_sample_missing_file :
  run_load_sample ImageFiftyOneInput sample_ref
    (sample_of (VStr sized sized sized "missing.jpg"))
  = (Raise (FileNotFoundError "missing.jpg"),
     sample_of (VStr sized sized sized "missing.jpg")).
Proof. vm_compute. reflexivity. Qed.

Lemma load_sample_frame_witness :
  run_load_sample ImageTensorInput sample_ref tensor_sample
  = (Ok sample_ref,
     (run_load_sample ImageTensorInput sample_ref tensor_sample).2) /\
  sample_ref = sample_ref /\
  exists l d d',
    sample_ref = VDict sized sized sized l /\
    tensor_sample !! l = Some d /\
    (run_load_sample ImageTensorInput sample_ref tensor_sample).2 !! l
    = Some d' /\
    (forall k, k <> INPUT -> k <> METADATA -> d' !! k = d !! k) /\
    d' !! TARGET = d !! TARGET /\
    (forall l', l' <> l -> is_Some (tensor_sample !! l') ->
       (run_load_sample ImageTensorInput sample_ref tensor_sample).2 !! l'
       = tensor_sample !! l').
Proof.
  assert (Hrun :
    run_load_sample ImageTensorInput sample_ref tensor_sample
    = (Ok sample_ref,
       (run_load_sample ImageTensorInput sample_ref tensor_sample).2))
    by (vm_compute; reflexivity).
  split; [exact Hrun |].
  exact (proj2
           (load_sample_frame sized sized sized (fun img => img)
              fromarray load_file astype pil_of_pic from_numpy load_file
              lower_endswith (fun _ => true) true extensions
              ImageTensorInput sample_ref tensor_sample)
           _ _ Hrun).
Defined.

(** A sample without the input key is rejected with the store as it
    was. *)
Example load_sample_missing_input :
  run_load_sample FastFaceInput sample_ref
    {[ 1%positive := {[ TARGET := VInt sized sized sized 1 ]} ]}
  = (Raise (KeyError INPUT),
     {[ 1%positive := {[ TARGET := VInt sized sized sized 1 ]} ]}).
Proof. vm_compute. reflexivity. Qed.

(** Three samples, the second with a one-element tensor as its target. *)
Definition one_element_item (t : list Z) : result Z :=
  match t with
  | [x] => Ok x
  | _ => Raise (ValueError
           "only one element tensors can be converted to Python scalars")
  end.

Definition labelled_samples : list (gmap string (pyobj (L:=Z) (list Z) unit)) :=
  [ {[ TARGET := Hashable (list Z) unit 1 ]};
    {[ TARGET := TensorObj (list Z) unit [0] ]};
    {[ TARGET := Hashable (list Z) unit 1 ]} ].

Example labels_to_indices_run :
  _labels_to_indices (list Z) unit one_element_item labelled_samples
  = Ok (<[1 := [0; 2]%nat]> {[ 0 := [1%nat] ]}).
Proof. vm_compute. reflexivity. Qed.

Lemma labels_to_indices_partition_witness :
  exists out,
    _labels_to_indices (list Z) unit one_element_item labelled_samples = Ok out
    /\
    (forall i sample, labelled_samples !! i = Some sample ->
       exists l indices,
         label_of (list Z) unit one_element_item sample = Some l /\
         out !! l = Some indices /\ i ∈ indices) /\
    (forall l indices i, out !! l = Some indices -> i ∈ indices ->
       exists sample,
         labelled_samples !! i = Some sample /\
         label_of (list Z) unit one_element_item sample = Some l) /\
    (forall l indices, out !! l = Some indices ->
       StronglySorted lt indices /\ NoDup indices).
Proof.
  apply (labels_to_indices_partition (list Z) unit one_element_item
           labelled_samples).
  repeat constructor; eexists; vm_compute; reflexivity.
Defined.

Lemma labels_to_indices_keys_witness :
  (forall l,
     is_Some ((<[1 := [0; 2]%nat]> {[ 0 := [1%nat] ]} : gmap Z (list nat)) !! l)
     <-> exists sample,
           sample ∈ labelled_samples /\
           label_of (list Z) unit one_element_item sample = Some l) /\
  (forall l indices,
     (<[1 := [0; 2]%nat]> {[ 0 := [1%nat] ]} : gmap Z (list nat)) !! l
     = Some indices -> indices <> []) /\
  ((<[1 := [0; 2]%nat]> {[ 0 := [1%nat] ]} : gmap Z (list nat)) = ∅
   <-> labelled_samples = []).
Proof.
  exact (labels_to_indices_keys (list Z) unit one_element_item
           labelled_samples _ labels_to_indices_run).
Defined.

(** A fourth sample without the target key. *)
Lemma labels_to_indices_raises_witness :
  _labels_to_indices (list Z) unit one_element_item (labelled_samples ++ [∅])
  = Raise (KeyError TARGET).
Proof.
  refine (proj1 (labels_to_indices_raises (list Z) unit one_element_item
                   labelled_samples [] ∅ _) (lookup_empty _)).
  repeat constructor; eexists; vm_compute; reflexivity.
Defined.





(** A payload with blanks in it. *)
Lemma deserialize_skips_other_characters_witness :
  run_deserialize "UDYgMSAx IDI1NSBh YmM="
  = run_deserialize "UDYgMSAxIDI1NSBhYmM=".
Proof.
  exact (deserialize_skips_other_characters sized sized sized
           open_ppm (fun _ => true) "UDYgMSAx IDI1NSBh YmM=" eq_refl).
Defined.

Example deserialize_one_pixel :
  run_deserialize "UDYgMSAxIDI1NSBhYmM="
  = Ok {[ INPUT := VImage sized sized sized (1, 1) ]}.
Proof. vm_compute. reflexivity. Qed.

(** A payload that starts with the character of code 233. *)
Lemma deserialize_not_ascii_witness :
  run_deserialize (String "233"%char "Zm8=") = Raise UnicodeEncodeError.
Proof.
  exact (proj2 (deserialize_not_ascii sized sized sized
                  open_ppm (fun _ => true)
                  (String "233"%char "Zm8=") eq_refl) eq_refl).
Defined.



Lemma load_sample_twice_witness :
  run_load_sample FastFaceInput sample_ref face_sample
  = (Ok sample_ref,
     (run_load_sample FastFaceInput sample_ref face_sample).2) /\
  exists e,
    run_load_sample FastFaceInput sample_ref
      (run_load_sample FastFaceInput sample_ref face_sample).2
    = (Raise e, (run_load_sample FastFaceInput sample_ref face_sample).2).
Proof.
  assert (Hrun :
    run_load_sample FastFaceInput sample_ref face_sample
    = (Ok sample_ref,
       (run_load_sample FastFaceInput sample_ref face_sample).2))
    by (vm_compute; reflexivity).
  split; [exact Hrun |].
  exact (load_sample_twice sized sized sized (fun img => img)
           fromarray load_file astype pil_of_pic from_numpy load_file
           lower_endswith (fun _ => true) true extensions
           FastFaceInput _ _ _ _ Hrun).
Defined.

(** A sample that carries a metadata of its own, the dict at location 2
    of the store, when it is loaded. *)
Definition with_metadata (input : value sized sized sized)
    : gmap loc (gmap string (value sized sized sized)) :=
  <[1%positive :=
      <[INPUT := input]> {[ METADATA := VDict sized sized sized 2%positive ]}]>
    {[ 2%positive :=
         <["filepath" := VStr sized sized sized "a.png"]>
           {[ "label" := VInt sized sized sized 3 ]} ]}.

(** Loading the sample at location 1 of the store [h] leaves it with a
    metadata that is a new object and holds the size, the file path for
    the inputs that record it, and nothing else. *)
Definition has_new_metadata (cls : image_input)
    (h : gmap loc (gmap string (value sized sized sized))) : Prop :=
  exists h' d' lm metadata,
    run_load_sample cls sample_ref h = (Ok sample_ref, h') /\
    h' !! 1%positive = Some d' /\
    d' !! METADATA = Some (VDict sized sized sized lm) /\
    h !! lm = None /\ h' !! lm = Some metadata /\
    metadata !! "label" = None /\
    forall k, is_Some (metadata !! k) <->
              k = "size" \/ (records_filepath cls = true /\ k = "filepath").

Lemma has_new_metadata_intro (cls : image_input)
    (h : gmap loc (gmap string (value sized sized sized)))
    (d : gmap string (value sized sized sized))
    (input : value sized sized sized) (img : sized) :
  h !! 1%positive = Some d -> d !! INPUT = Some input ->
  run_decode_input cls input = Ok img ->
  (forall l d0 input0 img0,
     sample_ref = VDict sized sized sized l -> h !! l = Some d0 ->
     d0 !! INPUT = Some input0 -> run_decode_input cls input0 = Ok img0 ->
     exists h', run_load_sample cls sample_ref h = (Ok sample_ref, h')) ->
  (forall r h',
     run_load_sample cls sample_ref h = (Ok r, h') ->
     exists l d' lm metadata,
       r = VDict sized sized sized l /\ h' !! l = Some d' /\
       d' !! METADATA = Some (VDict sized sized sized lm) /\
       h !! lm = None /\ h' !! lm = Some metadata /\
       forall k, is_Some (metadata !! k) <->
                 k = "size" \/
                 (records_filepath cls = true /\ k = "filepath")) ->
  has_new_metadata cls h.
Proof.
  intros Hd Hin Hdec Haccepts Hreturns.
  destruct (Haccepts _ _ _ _ eq_refl Hd Hin Hdec) as [h' Hrun].
  destruct (Hreturns _ _ Hrun)
    as (l & d' & lm & metadata & [= <-] & Hd' & Hmeta & Hnew & Hlm & Hkeys).
  exists h', d', lm, metadata. split_and!; try done.
  destruct (metadata !! "label") as [v|] eqn:Hlabel; [|done].
  destruct (proj1 (Hkeys "label") ltac:(by eexists)) as [? | [_ ?]];
    discriminate.
Qed.

(** One sample for each of the four inputs, each with a metadata that
    holds a label before the call. *)
Lemma load_sample_new_metadata_witness :
  has_new_metadata ImageTensorInput
    (with_metadata (VTensor sized sized sized (640, 480))) /\
  has_new_metadata ImageNumpyInput
    (with_metadata (VNdarray sized sized sized (32, 24))) /\
  has_new_metadata ImageFiftyOneInput
    (with_metadata (VStr sized sized sized "a/b.jpg")) /\
  has_new_metadata FastFaceInput
    (with_metadata (VStr sized sized sized "2002/07/19/big/img_18.jpg")).
Proof.
  split_and!.
  - eapply has_new_metadata_intro; [reflexivity | reflexivity | reflexivity | |];
      apply (load_sample_new_metadata sized sized sized (fun img => img)
               fromarray load_file astype pil_of_pic from_numpy load_file
               lower_endswith (fun _ => true) true extensions ImageTensorInput
               _ _ ltac:(discriminate)).
  - eapply has_new_metadata_intro; [reflexivity | reflexivity | reflexivity | |];
      apply (load_sample_new_metadata sized sized sized (fun img => img)
               fromarray load_file astype pil_of_pic from_numpy load_file
               lower_endswith (fun _ => true) true extensions ImageNumpyInput
               _ _ ltac:(discriminate)).
  - eapply has_new_metadata_intro; [reflexivity | reflexivity | reflexivity | |];
      apply (load_sample_new_metadata sized sized sized (fun img => img)
               fromarray load_file astype pil_of_pic from_numpy load_file
               lower_endswith (fun _ => true) true extensions
               ImageFiftyOneInput _ _ ltac:(discriminate)).
  - eapply has_new_metadata_intro; [reflexivity | reflexivity | reflexivity | |];
      apply (load_sample_new_metadata sized sized sized (fun img => img)
               fromarray load_file astype pil_of_pic from_numpy load_file
               lower_endswith (fun _ => true) true extensions FastFaceInput
               _ _ ltac:(discriminate)).
Defined.

End image_data.

(** ** flash/core/Regression.py *)

Module Regression.

Section Regression.

(** Library types: a callable, a [torchmetrics.Metric], a serializer, the
    positional and keyword arguments a task is built from, and the task
    object [Task.__init__] sets up. *)
Variables Callable Metric Serializer Args Kwargs TaskObject : Type.

(** [bool(x)] of a callable and of a metric object. *)
Variable Callable_bool : Callable -> bool.
Variable Metric_bool : Metric -> bool.
(** [torch.nn.functional.mse_loss] and [torchmetrics.MeanSquaredError()]. *)
Variable F_mse_loss : Callable.
Variable torchmetrics_MeanSquaredError : unit -> Metric.

(** [Optional[Callable]]. *)
Inductive loss_fn_arg :=
| LossNone
| LossCallable (f : Callable).

(** [Union[torchmetrics.Metric, Mapping, Sequence, None]]. *)
Inductive metrics_arg :=
| MetricsNone
| MetricsMetric (m : Metric)
| MetricsMapping (d : gmap string Metric)
| MetricsSequence (l : list Metric).

(** [Optional[Union[Serializer, Mapping[str, Serializer]]]]. *)
Inductive serializer_arg :=
| SerializerNone
| SerializerOne (s : Serializer)
| SerializerMapping (d : gmap string Serializer).

(** [Task.__init__] of flash.core.model, called with the positional
    arguments, [loss_fn], [metrics], [serializer] and the keyword
    arguments. *)
Variable Task___init__ :
  Args -> loss_fn_arg -> metrics_arg -> serializer_arg -> Kwargs -> TaskObject.

(** Python's truth value. *)
Definition loss_fn_truthy (x : loss_fn_arg) : bool :=
  match x with
  | LossNone => false
  | LossCallable f => Callable_bool f
  end.

Definition metrics_truthy (x : metrics_arg) : bool :=
  match x with
  | MetricsNone => false
  | MetricsMetric m => Metric_bool m
  | MetricsMapping d => negb (bool_decide (d = ∅))
  | MetricsSequence l => negb (bool_decide (l = []))
  end.

(** [RegressionMixin._build]. The right operand of [or] is evaluated only
    when the left one is false. *)
Definition _build (loss_fn : loss_fn_arg) (metrics : metrics_arg)
    : metrics_arg * loss_fn_arg :=
  let metrics :=
    if metrics_truthy metrics then metrics
    else MetricsMetric (torchmetrics_MeanSquaredError tt) in
  let loss_fn :=
    if loss_fn_truthy loss_fn then loss_fn else LossCallable F_mse_loss in
  (metrics, loss_fn).

(** [RegressionTask.__init__]. *)
Definition RegressionTask___init__ (args : Args) (loss_fn : loss_fn_arg)
    (metrics : metrics_arg) (serializer : serializer_arg) (kwargs : Kwargs)
    : TaskObject :=
  let '(metrics, loss_fn) := _build loss_fn metrics in
  Task___init__ args loss_fn metrics serializer kwargs.

(** C5. Every construction of a [RegressionTask] hands to the generic task
    base the loss function and the metrics that [_build] returns: with
    [loss_fn] None the loss is [F.mse_loss], with [metrics] None the metric
    is a [torchmetrics.MeanSquaredError], and a truthy [loss_fn] or
    [metrics] of the caller goes through unchanged. *)
Theorem RegressionTask_wires_defaults (args : Args) (loss_fn : loss_fn_arg)
    (metrics : metrics_arg) (serializer : serializer_arg) (kwargs : Kwargs) :
  RegressionTask___init__ args loss_fn metrics serializer kwargs
  = Task___init__ args (_build loss_fn metrics).2 (_build loss_fn metrics).1
      serializer kwargs /\
  (loss_fn = LossNone ->
   (_build loss_fn metrics).2 = LossCallable F_mse_loss) /\
  (metrics = MetricsNone ->
   (_build loss_fn metrics).1
   = MetricsMetric (torchmetrics_MeanSquaredError tt)) /\
  (loss_fn_truthy loss_fn = true -> (_build loss_fn metrics).2 = loss_fn) /\
  (metrics_truthy metrics = true -> (_build loss_fn metrics).1 = metrics).
Proof.
  unfold RegressionTask___init__, _build. cbn [fst snd].
  split_and!; [done | | | |].
  - by intros ->.
  - by intros ->.
  - by intros ->.
  - by intros ->.
Qed.

(** X9. The default loss function and the default metric being true
    values, as a function and a metric object are, what [_build] returns
    is never None and never an empty collection: [Task.__init__] always
    receives a loss function and metrics that are true values. And
    [_build] changes nothing in what it has returned: applied to its own
    result it returns it as it is. *)
Theorem build_truthy_and_idempotent (args : Args) (loss_fn : loss_fn_arg)
    (metrics : metrics_arg) (serializer : serializer_arg) (kwargs : Kwargs) :
  Callable_bool F_mse_loss = true ->
  Metric_bool (torchmetrics_MeanSquaredError tt) = true ->
  (exists loss_fn' metrics',
     RegressionTask___init__ args loss_fn metrics serializer kwargs
     = Task___init__ args loss_fn' metrics' serializer kwargs /\
     loss_fn_truthy loss_fn' = true /\ metrics_truthy metrics' = true /\
     loss_fn' <> LossNone /\ metrics' <> MetricsNone) /\
  _build (_build loss_fn metrics).2 (_build loss_fn metrics).1
  = _build loss_fn metrics.
Proof.
  intros Hloss Hmetrics.
  assert (Hl : loss_fn_truthy (_build loss_fn metrics).2 = true).
  { unfold _build. cbn [snd].
    destruct (loss_fn_truthy loss_fn) eqn:E; [exact E | exact Hloss]. }
  assert (Hm : metrics_truthy (_build loss_fn metrics).1 = true).
  { unfold _build. cbn [fst].
    destruct (metrics_truthy metrics) eqn:E; [exact E | exact Hmetrics]. }
  split.
  - exists (_build loss_fn metrics).2, (_build loss_fn metrics).1.
    split_and!; [reflexivity | exact Hl | exact Hm | |].
    + intros Hnone. rewrite Hnone in Hl. discriminate.
    + intros Hnone. rewrite Hnone in Hm. discriminate.
  - unfold _build at 1. rewrite Hl, Hm. by destruct (_build loss_fn metrics).
Qed.

End Regression.

(** *** A construction with both defaults

    Callables and metrics are represented by their names, and the task
    object by the loss function and the metrics it was given. *)

Definition task_of (args : unit) (loss_fn : loss_fn_arg string)
    (metrics : metrics_arg string) (serializer : serializer_arg unit)
    (kwargs : unit) : loss_fn_arg string * metrics_arg string :=
  (loss_fn, metrics).

Lemma RegressionTask_wires_defaults_witness :
  RegressionTask___init__ string string unit unit unit _
    (fun _ => true) (fun _ => true) "F.mse_loss"
    (fun _ => "torchmetrics.MeanSquaredError") task_of
    tt (LossNone string) (MetricsNone string) (SerializerNone unit) tt
  = (LossCallable string "F.mse_loss",
     MetricsMetric string "torchmetrics.MeanSquaredError").
Proof.
  destruct (RegressionTask_wires_defaults string string unit unit unit _
              (fun _ => true) (fun _ => true) "F.mse_loss"
              (fun _ => "torchmetrics.MeanSquaredError") task_of
              tt (LossNone string) (MetricsNone string) (SerializerNone unit)
              tt) as (Hinit & Hloss & Hmetrics & _).
  rewrite Hinit, (Hloss eq_refl), (Hmetrics eq_refl). reflexivity.
Defined.

(** A truthy loss function and a non-empty list of metrics go through. *)
Example RegressionTask_keeps_arguments :
  RegressionTask___init__ string string unit unit unit _
    (fun _ => true) (fun _ => true) "F.mse_loss"
    (fun _ => "torchmetrics.MeanSquaredError") task_of
    tt (LossCallable string "F.l1_loss")
    (MetricsSequence string ["MeanAbsoluteError"]) (SerializerNone unit) tt
  = (LossCallable string "F.l1_loss",
     MetricsSequence string ["MeanAbsoluteError"]).
Proof. reflexivity. Qed.

(** An empty list of metrics is false, and the default takes its place. *)
Example RegressionTask_empty_metrics :
  RegressionTask___init__ string string unit unit unit _
    (fun _ => true) (fun _ => true) "F.mse_loss"
    (fun _ => "torchmetrics.MeanSquaredError") task_of
    tt (LossNone string) (MetricsSequence string []) (SerializerNone unit) tt
  = (LossCallable string "F.mse_loss",
     MetricsMetric string "torchmetrics.MeanSquaredError").
Proof. reflexivity. Qed.

(** An empty mapping of metrics and no loss function. *)
Lemma build_truthy_and_idempotent_witness :
  (exists loss_fn' metrics',
     RegressionTask___init__ string string unit unit unit _
       (fun _ => true) (fun _ => true) "F.mse_loss"
       (fun _ => "torchmetrics.MeanSquaredError") task_of
       tt (LossNone string) (MetricsMapping string ∅) (SerializerNone unit) tt
     = task_of tt loss_fn' metrics' (SerializerNone unit) tt /\
     loss_fn_truthy string (fun _ => true) loss_fn' = true /\
     metrics_truthy string (fun _ => true) metrics' = true /\
     loss_fn' <> LossNone string /\ metrics' <> MetricsNone string) /\
  _build string string (fun _ => true) (fun _ => true) "F.mse_loss"
    (fun _ => "torchmetrics.MeanSquaredError")
    (_build string string (fun _ => true) (fun _ => true) "F.mse_loss"
       (fun _ => "torchmetrics.MeanSquaredError")
       (LossNone string) (MetricsMapping string ∅)).2
    (_build string string (fun _ => true) (fun _ => true) "F.mse_loss"
       (fun _ => "torchmetrics.MeanSquaredError")
       (LossNone string) (MetricsMapping string ∅)).1
  = _build string string (fun _ => true) (fun _ => true) "F.mse_loss"
      (fun _ => "torchmetrics.MeanSquaredError")
      (LossNone string) (MetricsMapping string ∅).
Proof.
  exact (build_truthy_and_idempotent string string unit unit unit _
           (fun _ => true) (fun _ => true) "F.mse_loss"
           (fun _ => "torchmetrics.MeanSquaredError") task_of
           tt (LossNone string) (MetricsMapping string ∅)
           (SerializerNone unit) tt eq_refl eq_refl).
Defined.

End Regression.

(** ** flash/image/style_transfer/data.py *)

Module style_transfer_data.

Lemma dom_insert_nonempty {V} (k : string) (v : V) (m : gmap string V) :
  dom (<[k := v]> m) <> ∅.
Proof.
  intros Hdom.
  assert (Hk : k ∈ dom (<[k := v]> m))
    by (apply elem_of_dom; rewrite lookup_insert_eq; by eexists).
  rewrite Hdom in Hk. by apply not_elem_of_empty in Hk.
Qed.

Section style_transfer_data.

(** Library types: a callable transform, an opaque Python object, a data
    module. *)
Variables Callable Object DataModule : Type.

(** A transform argument, [Optional[Union[str, Dict[str, Callable]]]]. *)
Inductive transform_arg :=
| TransformNone
| TransformDict (d : gmap string Callable)
| TransformStr (s : string).

(** Python's truth value of a transform argument: None, the empty dict
    and the empty string are false. *)
Definition transform_truthy (t : transform_arg) : bool :=
  match t with
  | TransformNone => false
  | TransformDict d => negb (bool_decide (d = ∅))
  | TransformStr s => negb (bool_decide (s = EmptyString))
  end.

(** [image_size: int = 256], or a pair given by the caller. *)
Inductive image_size_arg :=
| SizeInt (n : Z)
| SizeTuple (h w : Z).

(** The members of [InputFormat] the constructor names. *)
Inductive InputFormat := FILES | FOLDERS | NUMPY | TENSORS.

(** The attributes of a transform object. *)
Inductive attribute :=
| AttrImageSize (h w : Z)
| AttrObject (o : Object).

Abbreviation self_state := (gmap string attribute).

(** [InputTransform.__init__] of flash.core.data.io.input_transform: it
    works on the attributes of the object under construction. The dict
    display of [inputs] is passed as written, entry by entry. *)
Variable InputTransform___init__ :
  transform_arg -> transform_arg -> transform_arg -> transform_arg ->
  list (InputFormat * image_data.image_input) -> InputFormat ->
  M self_state unit.

(** Modelled from the spec: [raise_not_supported] of
    flash.image.style_transfer.utils is not among the sources. It rejects
    a phase that style transfer does not support: it raises, naming the
    phase, and never returns. *)
Definition not_supported (phase : string) : exn :=
  MisconfigurationException
    ("Style transfer does not support a " +:+ phase +:+ " phase").

Definition raise_not_supported {T} `{MRaise T} {A} (phase : string) : T A :=
  raise (not_supported phase).

Definition setattr (name : string) (v : attribute) : M self_state unit :=
  fun self => (Ok tt, <[name := v]> self).

(** [StyleTransferInputTransform.__init__]. *)
Definition StyleTransferInputTransform___init__
    (train_transform val_transform test_transform predict_transform
       : transform_arg)
    (image_size : image_size_arg) : M self_state unit :=
  _ ← (if transform_truthy val_transform
       then raise_not_supported "validation" else mret tt);
  _ ← (if transform_truthy test_transform
       then raise_not_supported "test" else mret tt);
  let image_size :=
    match image_size with
    | SizeInt n => AttrImageSize n n
    | SizeTuple h w => AttrImageSize h w
    end in
  _ ← setattr "image_size" image_size;
  InputTransform___init__ train_transform val_transform test_transform
    predict_transform
    [(FILES, image_data.ImagePathsInput);
     (FOLDERS, image_data.ImagePathsInput);
     (NUMPY, image_data.ImageNumpyInput);
     (TENSORS, image_data.ImageTensorInput);
     (TENSORS, image_data.ImageTensorInput)]
    FILES.

(** The objects a call has constructed, in order. *)
Inductive constructed :=
| TransformObject (self : self_state)
| DataModuleObject (dm : DataModule).

Abbreviation world := (list constructed).

Definition constructs (c : constructed) : M world unit :=
  fun w => (Ok tt, w ++ [c]).

(** [StyleTransferInputTransform(...)]: the object exists once
    [__init__] has returned. *)
Definition StyleTransferInputTransform
    (train_transform val_transform test_transform predict_transform
       : transform_arg)
    (image_size : image_size_arg) : M world self_state :=
  fun w =>
    match StyleTransferInputTransform___init__ train_transform val_transform
            test_transform predict_transform image_size ∅ with
    | (Ok _, self) => (Ok self, w ++ [TransformObject self])
    | (Raise e, _) => (Raise e, w)
    end.

(** A keyword argument: None, or an object. *)
Inductive kwvalue :=
| KwNone
| KwObject (o : Object).

(** [bool(input_transform)] of a transform object. *)
Variable InputTransform_bool : self_state -> bool.

(** [cls.from_input(InputFormat.FOLDERS, train_data=, predict_data=,
    input_transform=, **kwargs)] of the data module class. *)
Variable from_input :
  InputFormat -> kwvalue -> kwvalue -> self_state -> gmap string kwvalue ->
  DataModule.

(** [param in kwargs and kwargs[param] is not None]. *)
Definition given (kwargs : gmap string kwvalue) (param : string) : bool :=
  match kwargs !! param with
  | Some (KwObject _) => true
  | _ => false
  end.

(** [StyleTransferData.from_folders]. *)
Definition from_folders (train_folder predict_folder : kwvalue)
    (train_transform predict_transform : transform_arg)
    (input_transform : option self_state) (kwargs : gmap string kwvalue)
    : M world DataModule :=
  _ ← (if existsb (given kwargs) ["val_folder"; "val_transform"]
       then raise_not_supported "validation" else mret tt);
  _ ← (if existsb (given kwargs) ["test_folder"; "test_transform"]
       then raise_not_supported "test" else mret tt);
  input_transform ←
    match input_transform return M world self_state with
    | Some t =>
        if InputTransform_bool t then mret t
        else StyleTransferInputTransform train_transform TransformNone
               TransformNone predict_transform (SizeInt 256)
    | None =>
        StyleTransferInputTransform train_transform TransformNone
          TransformNone predict_transform (SizeInt 256)
    end;
  let dm := from_input FOLDERS train_folder predict_folder input_transform
              kwargs in
  _ ← constructs (DataModuleObject dm);
  mret dm.

(** The phase whose rejection comes first. *)
Definition rejected_phase (validation : bool) : string :=
  if validation then "validation" else "test".

(** The constructor. With a validation transform or a test transform
    supplied (a truthy argument: a non-empty dict or string), [__init__]
    raises through [raise_not_supported] with the attributes of the object
    as they were, and the constructor call raises with no object made. *)
Lemma StyleTransferInputTransform_rejects
    (train_transform val_transform test_transform predict_transform
       : transform_arg) (image_size : image_size_arg) :
  transform_truthy val_transform = true \/
  transform_truthy test_transform = true ->
  (forall self : self_state,
     StyleTransferInputTransform___init__ train_transform val_transform
       test_transform predict_transform image_size self
     = (raise_not_supported
          (rejected_phase (transform_truthy val_transform)), self)) /\
  (forall w : world,
     StyleTransferInputTransform train_transform val_transform test_transform
       predict_transform image_size w
     = (raise_not_supported
          (rejected_phase (transform_truthy val_transform)), w)).
Proof.
  intros Hsupplied.
  assert (Hinit : forall self : self_state,
     StyleTransferInputTransform___init__ train_transform val_transform
       test_transform predict_transform image_size self
     = (raise_not_supported
          (rejected_phase (transform_truthy val_transform)), self)).
  { intros self. unfold StyleTransferInputTransform___init__.
    destruct (transform_truthy val_transform); [reflexivity |].
    destruct Hsupplied as [Hval | Htest]; [discriminate |].
    rewrite Htest. reflexivity. }
  split; [exact Hinit |].
  intros w. unfold StyleTransferInputTransform. rewrite Hinit. reflexivity.
Qed.

(** The class method. Whenever the keyword arguments hold a non-None
    ["val_folder"], ["val_transform"], ["test_folder"] or
    ["test_transform"], [from_folders] raises through
    [raise_not_supported] and has constructed nothing. *)
Lemma from_folders_rejects (train_folder predict_folder : kwvalue)
    (train_transform predict_transform : transform_arg)
    (input_transform : option self_state) (kwargs : gmap string kwvalue) :
  existsb (given kwargs)
    ["val_folder"; "val_transform"; "test_folder"; "test_transform"] = true ->
  forall w : world,
    from_folders train_folder predict_folder train_transform
      predict_transform input_transform kwargs w
    = (raise_not_supported
         (rejected_phase
            (existsb (given kwargs) ["val_folder"; "val_transform"])), w).
Proof.
  intros Hgiven w. unfold from_folders.
  change ["val_folder"; "val_transform"; "test_folder"; "test_transform"]
    with (["val_folder"; "val_transform"] ++ ["test_folder"; "test_transform"])
    in Hgiven.
  rewrite existsb_app in Hgiven.
  destruct (existsb (given kwargs) ["val_folder"; "val_transform"]);
    [reflexivity |].
  cbn [orb] in Hgiven. rewrite Hgiven. reflexivity.
Qed.

(** C3. Constructing a [StyleTransferInputTransform] with a validation or
    a test transform supplied (an argument Python takes for true, as the
    guards of [__init__] test it) raises through [raise_not_supported] before
    any attribute of the object is set, and [from_folders] raises whenever
    its keyword arguments hold a non-None ["val_folder"],
    ["val_transform"], ["test_folder"] or ["test_transform"]; in every such
    case the list of constructed objects is as it was: no transform object
    and no data module is made. *)
Theorem style_transfer_rejects_validation_and_test
    (train_transform val_transform test_transform predict_transform
       : transform_arg) (image_size : image_size_arg)
    (train_folder predict_folder : kwvalue)
    (input_transform : option self_state)
    (kwargs : gmap string kwvalue) (param : string) (o : Object) :
  (transform_truthy val_transform = true \/
   transform_truthy test_transform = true ->
   exists phase,
     (forall self : self_state,
        StyleTransferInputTransform___init__ train_transform val_transform
          test_transform predict_transform image_size self
        = (Raise (not_supported phase), self)) /\
     (forall w : world,
        StyleTransferInputTransform train_transform val_transform
          test_transform predict_transform image_size w
        = (Raise (not_supported phase), w))) /\
  (param ∈ ["val_folder"; "val_transform"; "test_folder"; "test_transform"] ->
   kwargs !! param = Some (KwObject o) ->
   exists phase,
     forall w : world,
       from_folders train_folder predict_folder train_transform
         predict_transform input_transform kwargs w
       = (Raise (not_supported phase), w)).
Proof.
  split.
  - intros Hsupplied.
    exists (rejected_phase (transform_truthy val_transform)).
    by apply StyleTransferInputTransform_rejects.
  - intros Hparam Hkw.
    exists (rejected_phase
              (existsb (given kwargs) ["val_folder"; "val_transform"])).
    apply from_folders_rejects.
    apply existsb_exists. exists param. split.
    + by apply list_elem_of_In.
    + unfold given. by rewrite Hkw.
Qed.

(** *** A transform given by the caller *)

(** X10. When the caller gives [from_folders] an input transform (an
    object that is true) and no validation or test argument, the data
    module is built by [from_input] with that very transform, the two
    folders and the keyword arguments as given: no transform object is
    constructed, and the [train_transform] and [predict_transform]
    arguments play no part in the result. (The keyword arguments hold
    neither ["train_data"] nor ["predict_data"]: [from_folders] passes
    these two to [from_input] itself, and Python rejects a call that is
    given a keyword twice.) *)
Theorem from_folders_given_input_transform
    (train_folder predict_folder : kwvalue)
    (train_transform predict_transform : transform_arg)
    (t : self_state) (kwargs : gmap string kwvalue) (w : world) :
  existsb (given kwargs)
    ["val_folder"; "val_transform"; "test_folder"; "test_transform"] = false ->
  InputTransform_bool t = true ->
  kwargs !! "train_data" = None -> kwargs !! "predict_data" = None ->
  from_folders train_folder predict_folder train_transform predict_transform
    (Some t) kwargs w
  = (Ok (from_input FOLDERS train_folder predict_folder t kwargs),
     w ++ [DataModuleObject
             (from_input FOLDERS train_folder predict_folder t kwargs)]).
Proof.
  intros Hgiven Ht _ _. unfold from_folders.
  change ["val_folder"; "val_transform"; "test_folder"; "test_transform"]
    with (["val_folder"; "val_transform"] ++ ["test_folder"; "test_transform"])
    in Hgiven.
  rewrite existsb_app in Hgiven. apply orb_false_iff in Hgiven as [-> ->].
  rewrite Ht. reflexivity.
Qed.

(** *** The default transforms *)

(** [Union[Sequence[DataKeys], DataKeys]]. *)
Inductive keys_arg :=
| OneKey (k : string)
| KeySequence (l : list string).

(** The transforms the code builds: torchvision's [T.ToTensor()],
    [T.Resize(size)] and [T.CenterCrop(size)], [nn.Sequential] of two
    modules, and flash's [ApplyToKeys(keys, transform)]; any other
    callable. *)
Inductive transform :=
| T_ToTensor
| T_Resize (size : attribute)
| T_CenterCrop (size : attribute)
| nn_Sequential (first second : transform)
| ApplyToKeys (keys : keys_arg) (t : transform)
| OtherTransform (c : Callable).

(** The properties [training] and [predicting] of the base class. *)
Variables InputTransform_training InputTransform_predicting
  : self_state -> bool.

(** The name [T] is bound by the import under
    [if _TORCHVISION_AVAILABLE:]. *)
Variable _TORCHVISION_AVAILABLE : bool.

Definition name_T : result unit :=
  if _TORCHVISION_AVAILABLE then Ok tt else Raise (NameError "T").

(** [self.name]. *)
Definition getattr (self : self_state) (name : string) : result attribute :=
  match self !! name with
  | Some a => Ok a
  | None => Raise (AttributeError name)
  end.

(** [_apply_to_input(default_transforms_fn, keys)]: the wrapper it
    returns, applied to the arguments [args]. A result that is false,
    None or an empty mapping, is returned as it is. *)
Definition _apply_to_input {Args}
    (default_transforms_fn : Args -> result (option (gmap string transform)))
    (keys : keys_arg) (args : Args)
    : result (option (gmap string transform)) :=
  default_transforms ← default_transforms_fn args;
  match default_transforms return result (option (gmap string transform)) with
  | None => Ok None
  | Some d =>
      if bool_decide (dom d = ∅) then Ok (Some d)
      else Ok (Some (ApplyToKeys keys <$> d))
  end.

(** The body of [StyleTransferInputTransform.default_transforms], before
    its decorator. *)
Definition default_transforms_fn (self : self_state)
    : result (option (gmap string transform)) :=
  if InputTransform_training self then
    _ ← name_T;
    image_size ← getattr self "image_size";
    Ok (Some (<["to_tensor_transform" := T_ToTensor]>
                {[ "per_sample_transform_on_device" :=
                     nn_Sequential (T_Resize image_size)
                       (T_CenterCrop image_size) ]}))
  else if InputTransform_predicting self then
    _ ← name_T;
    image_size ← getattr self "image_size";
    Ok (Some (<["pre_tensor_transform" := T_Resize image_size]>
                {[ "to_tensor_transform" := T_ToTensor ]}))
  else Ok None.

(** [default_transforms], decorated with
    [functools.partial(_apply_to_input, keys=DataKeys.INPUT)]. *)
Definition default_transforms : self_state
    -> result (option (gmap string transform)) :=
  _apply_to_input default_transforms_fn (OneKey INPUT).

(** X11. The decorator keeps the hooks of the function it wraps. Whatever
    function [_apply_to_input] is given: the wrapper raises what the
    function raises; it returns None for None and the empty mapping for
    the empty mapping; and for any other mapping it returns a mapping
    with the same hook names in which the transform of each hook is
    [ApplyToKeys(keys, transform)] of the transform the function gave for
    that hook. *)
Theorem apply_to_input_keeps_hooks {Args}
    (fn : Args -> result (option (gmap string transform)))
    (keys : keys_arg) (args : Args) :
  (forall e, fn args = Raise e -> _apply_to_input fn keys args = Raise e) /\
  (fn args = Ok None -> _apply_to_input fn keys args = Ok None) /\
  (fn args = Ok (Some ∅) -> _apply_to_input fn keys args = Ok (Some ∅)) /\
  (forall d, fn args = Ok (Some d) ->
     exists d',
       _apply_to_input fn keys args = Ok (Some d') /\
       dom d' = dom d /\
       forall hook, d' !! hook = ApplyToKeys keys <$> d !! hook).
Proof.
  unfold _apply_to_input. split_and!.
  - by intros e ->.
  - by intros ->.
  - intros ->. cbn. by rewrite dom_empty_L, bool_decide_eq_true_2.
  - intros d ->. cbn. destruct (bool_decide (dom d = ∅)) eqn:Hd.
    + apply bool_decide_eq_true_1, dom_empty_inv_L in Hd as ->.
      exists ∅. split_and!; [done | done |].
      intros hook. by rewrite lookup_empty.
    + exists (ApplyToKeys keys <$> d). split_and!; [done | |].
      * by rewrite dom_fmap_L.
      * intros hook. by rewrite lookup_fmap.
Qed.

(** X12. Whatever [default_transforms] returns applies to the input of a
    sample and to nothing else. It returns None exactly when the object is
    neither training nor predicting; when training, the two hooks
    ["to_tensor_transform"] and ["per_sample_transform_on_device"]; and
    when predicting and not training, the two hooks
    ["pre_tensor_transform"] and ["to_tensor_transform"]. Every transform
    of the mapping is an [ApplyToKeys] of the input key, the conversion
    to a tensor is always among them, and the resizing and the cropping
    use the image size of the object. *)
Theorem default_transforms_input_only (self : self_state)
    (r : option (gmap string transform)) :
  default_transforms self = Ok r ->
  (r = None <->
   InputTransform_training self = false /\
   InputTransform_predicting self = false) /\
  (forall d, r = Some d ->
     (forall hook t, d !! hook = Some t ->
        exists t', t = ApplyToKeys (OneKey INPUT) t') /\
     d !! "to_tensor_transform" = Some (ApplyToKeys (OneKey INPUT) T_ToTensor) /\
     exists image_size,
       self !! "image_size" = Some image_size /\
       (InputTransform_training self = true ->
        d = <["to_tensor_transform" := ApplyToKeys (OneKey INPUT) T_ToTensor]>
              {[ "per_sample_transform_on_device" :=
                   ApplyToKeys (OneKey INPUT)
                     (nn_Sequential (T_Resize image_size)
                        (T_CenterCrop image_size)) ]}) /\
       (InputTransform_training self = false ->
        d = <["pre_tensor_transform" :=
                ApplyToKeys (OneKey INPUT) (T_Resize image_size)]>
              {[ "to_tensor_transform" :=
                   ApplyToKeys (OneKey INPUT) T_ToTensor ]})).
Proof.
  unfold default_transforms, _apply_to_input. intros Hrun.
  destruct (default_transforms_fn self) as [fn_result|] eqn:Hfn;
    [|discriminate].
  cbn [mbind result_bind] in Hrun.
  unfold default_transforms_fn, getattr in Hfn.
  destruct (InputTransform_training self) eqn:Htraining;
    [|destruct (InputTransform_predicting self) eqn:Hpredicting].
  - destruct name_T; [|discriminate]. cbn [mbind result_bind] in Hfn.
    destruct (self !! "image_size") as [image_size|]; [|discriminate].
    cbn [mbind result_bind] in Hfn. injection Hfn as <-.
    rewrite bool_decide_eq_false_2 in Hrun by apply dom_insert_nonempty.
    injection Hrun as <-. rewrite fmap_insert, map_fmap_singleton.
    split; [split; [discriminate | by intros [? _]] |].
    intros d [= <-]. split_and!.
    + intros hook t Ht.
      apply lookup_insert_Some in Ht as [[_ <-]|[_ Ht]]; [by eexists |].
      apply lookup_singleton_Some in Ht as [_ <-]. by eexists.
    + by rewrite lookup_insert_eq.
    + exists image_size. split_and!; [done | done | discriminate].
  - destruct name_T; [|discriminate]. cbn [mbind result_bind] in Hfn.
    destruct (self !! "image_size") as [image_size|]; [|discriminate].
    cbn [mbind result_bind] in Hfn. injection Hfn as <-.
    rewrite bool_decide_eq_false_2 in Hrun by apply dom_insert_nonempty.
    injection Hrun as <-. rewrite fmap_insert, map_fmap_singleton.
    split; [split; [discriminate | by intros [_ ?]] |].
    intros d [= <-]. split_and!.
    + intros hook t Ht.
      apply lookup_insert_Some in Ht as [[_ <-]|[_ Ht]]; [by eexists |].
      apply lookup_singleton_Some in Ht as [_ <-]. by eexists.
    + rewrite lookup_insert_ne by done. by rewrite lookup_singleton_eq.
    + exists image_size. split_and!; [done | discriminate | done].
  - injection Hfn as <-. injection Hrun as <-. split; [done |]. discriminate.
Qed.

End style_transfer_data.

(** *** Constructions on concrete arguments

    Callables, objects and data modules are units; the base [__init__]
    and [from_input] do nothing more than return. *)

Definition base___init__
    (train val test predict : transform_arg unit)
    (inputs : list (InputFormat * image_data.image_input))
    (default_input : InputFormat)
    : M (gmap string (attribute unit)) unit :=
  mret tt.

Definition to_tensor : gmap string unit := {[ "to_tensor_transform" := tt ]}.

Lemma style_transfer_rejects_validation_and_test_witness :
  (exists phase,
     (forall self,
        StyleTransferInputTransform___init__ unit unit base___init__
          (TransformNone unit) (TransformDict unit to_tensor)
          (TransformNone unit) (TransformNone unit) (SizeInt 256) self
        = (Raise (not_supported phase), self)) /\
     (forall w : list (constructed unit unit),
        StyleTransferInputTransform unit unit unit base___init__
          (TransformNone unit) (TransformDict unit to_tensor)
          (TransformNone unit) (TransformNone unit) (SizeInt 256) w
        = (Raise (not_supported phase), w))) /\
  (exists phase,
     forall w : list (constructed unit unit),
       from_folders unit unit unit base___init__ (fun _ => true)
         (fun _ _ _ _ _ => tt) (KwObject unit tt) (KwNone unit)
         (TransformNone unit) (TransformNone unit) None
         {[ "test_folder" := KwObject unit tt ]} w
       = (Raise (not_supported phase), w)).
Proof.
  destruct (style_transfer_rejects_validation_and_test unit unit unit
              base___init__ (fun _ => true) (fun _ _ _ _ _ => tt)
              (TransformNone unit) (TransformDict unit to_tensor)
              (TransformNone unit) (TransformNone unit) (SizeInt 256)
              (KwObject unit tt) (KwNone unit) None
              {[ "test_folder" := KwObject unit tt ]} "test_folder" tt)
    as [Hinit Hfolders].
  split.
  - apply Hinit. left. reflexivity.
  - apply Hfolders; [|reflexivity].
    apply list_elem_of_In. cbn. tauto.
Defined.

(** With a training transform alone the object is constructed, with its
    image size set. *)
Example StyleTransferInputTransform_training :
  StyleTransferInputTransform unit unit unit base___init__
    (TransformDict unit to_tensor) (TransformNone unit) (TransformNone unit)
    (TransformNone unit) (SizeInt 256) []
  = (Ok {[ "image_size" := AttrImageSize unit 256 256 ]},
     [TransformObject unit unit {[ "image_size" := AttrImageSize unit 256 256 ]}]).
Proof. reflexivity. Qed.

(** A ["val_folder"] given as None is let through, and the data module is
    constructed after its transform. *)
Example from_folders_val_folder_None :
  (from_folders unit unit unit base___init__ (fun _ => true)
     (fun _ _ _ _ _ => tt) (KwObject unit tt) (KwNone unit)
     (TransformNone unit) (TransformNone unit) None
     {[ "val_folder" := KwNone unit ]} []).2
  = [TransformObject unit unit {[ "image_size" := AttrImageSize unit 256 256 ]};
     DataModuleObject unit unit tt].
Proof. reflexivity. Qed.

(** A transform object made beforehand, with images of 64 by 64; the data
    module is represented by the transform it was given. *)
Definition transform_64 : gmap string (attribute unit) :=
  {[ "image_size" := AttrImageSize unit 64 64 ]}.

Lemma from_folders_given_input_transform_witness :
  from_folders unit unit (gmap string (attribute unit)) base___init__
    (fun _ => true) (fun _ _ _ t _ => t) (KwObject unit tt) (KwNone unit)
    (TransformDict unit to_tensor) (TransformNone unit) (Some transform_64)
    {[ "val_folder" := KwNone unit ]} []
  = (Ok transform_64, [DataModuleObject unit _ transform_64]).
Proof.
  exact (from_folders_given_input_transform unit unit _ base___init__
           (fun _ => true) (fun _ _ _ t _ => t) (KwObject unit tt)
           (KwNone unit) (TransformDict unit to_tensor) (TransformNone unit)
           transform_64 {[ "val_folder" := KwNone unit ]} []
           eq_refl eq_refl eq_refl eq_refl).
Defined.

(** The default transforms of an object that is training. *)
Lemma default_transforms_input_only_witness :
  default_transforms unit unit (fun _ => true) (fun _ => false) true
    transform_64
  = Ok (Some
      (<["to_tensor_transform" :=
           ApplyToKeys unit unit (OneKey INPUT) (T_ToTensor unit unit)]>
         {[ "per_sample_transform_on_device" :=
              ApplyToKeys unit unit (OneKey INPUT)
                (nn_Sequential unit unit
                   (T_Resize unit unit (AttrImageSize unit 64 64))
                   (T_CenterCrop unit unit (AttrImageSize unit 64 64))) ]})) /\
  forall hook t,
    (<["to_tensor_transform" :=
         ApplyToKeys unit unit (OneKey INPUT) (T_ToTensor unit unit)]>
       {[ "per_sample_transform_on_device" :=
            ApplyToKeys unit unit (OneKey INPUT)
              (nn_Sequential unit unit
                 (T_Resize unit unit (AttrImageSize unit 64 64))
                 (T_CenterCrop unit unit (AttrImageSize unit 64 64))) ]}
     : gmap string (transform unit unit)) !! hook = Some t ->
    exists t', t = ApplyToKeys unit unit (OneKey INPUT) t'.
Proof.
  assert (Hrun :
    default_transforms unit unit (fun _ => true) (fun _ => false) true
      transform_64
    = Ok (Some
        (<["to_tensor_transform" :=
             ApplyToKeys unit unit (OneKey INPUT) (T_ToTensor unit unit)]>
           {[ "per_sample_transform_on_device" :=
                ApplyToKeys unit unit (OneKey INPUT)
                  (nn_Sequential unit unit
                     (T_Resize unit unit (AttrImageSize unit 64 64))
                     (T_CenterCrop unit unit (AttrImageSize unit 64 64))) ]})))
    by (vm_compute; reflexivity).
  split; [exact Hrun |].
  exact (proj1 (proj2 (default_transforms_input_only unit unit
                         (fun _ => true) (fun _ => false) true
                         transform_64 _ Hrun) _ eq_refl)).
Defined.

End style_transfer_data.

(** ** flash/core/data/io/input_base.py, as tests/core/data/io/test_input_base.py
    exercises it *)

Module input_base.

(** [re.search(pattern, text)] for the patterns of the tests: a dot stands
    for any character but a newline, every other character for itself. *)
Definition re_char (p c : ascii) : bool :=
  if Ascii.eqb p "."%char then negb (Ascii.eqb c "010"%char)
  else Ascii.eqb p c.

(** The pattern matches a prefix of the text. *)
Fixpoint re_match_here (pattern text : string) : bool :=
  match pattern, text with
  | EmptyString, _ => true
  | String p pattern, String c text =>
      re_char p c && re_match_here pattern text
  | String _ _, EmptyString => false
  end.

Fixpoint re_search (pattern text : string) : bool :=
  re_match_here pattern text ||
  match text with
  | EmptyString => false
  | String _ text => re_search pattern text
  end.

Section input_base.

(** The elements a data source yields. *)
Variable A : Type.

(** What the tests assign to [self.data]: a list, or an iterator over a
    list. *)
Inductive data_source :=
| ListData (l : list A)
| IteratorData (l : list A).

(** [len(data)] is defined for a list and not for an iterator. *)
Definition _has_len (data : data_source) : bool :=
  match data with
  | ListData _ => true
  | IteratorData _ => false
  end.

Inductive RunningStage := TRAINING | VALIDATING | TESTING | PREDICTING.

(** The two loader base classes. *)
Inductive input_class := Input | IterableInput.

Record input_object := {
  running_stage : RunningStage;
  data : option data_source;
}.

(** Modelled from the spec: the classes [Input] and [IterableInput] of
    flash.core.data.io.input_base are not among the sources. Constructing
    the list-oriented base class with an iterator-backed data source fails
    with a [RuntimeError] that tells to use [IterableInput] instead, and
    constructing the iterable-oriented base class with a list-backed data
    source fails with a [RuntimeError] that tells to use [Input] instead;
    the check runs once [__init__] has returned. *)
Definition _validate_input (cls : input_class) (self : input_object)
    : result unit :=
  match data self with
  | None => Ok tt
  | Some d =>
      match cls with
      | Input =>
          if _has_len d then Ok tt
          else Raise (RuntimeError
            "`Input.data` is not a sequence with a defined length. Use `IterableInput` instead.")
      | IterableInput =>
          if _has_len d then
            Raise (RuntimeError
              "`IterableInput.data` is a sequence with a defined length. Use `Input` instead.")
          else Ok tt
      end
  end.

(** The base [__init__] records the running stage and leaves the data
    unset. *)
Definition InputBase___init__ (stage : RunningStage) : input_object :=
  {| running_stage := stage; data := None |}.

(** A subclass of the tests: its [__init__] calls the base [__init__] and
    then assigns [self.data]. *)
Definition subclass___init__ (d : data_source) (stage : RunningStage)
    : input_object :=
  let self := InputBase___init__ stage in
  {| running_stage := running_stage self; data := Some d |}.

(** [Subclass(stage)]: run [__init__], then validate. *)
Definition construct (cls : input_class) (d : data_source)
    (stage : RunningStage) : result input_object :=
  let self := subclass___init__ d stage in
  _ ← _validate_input cls self;
  Ok self.

(** [pytest.raises(RuntimeError, match=pattern)]. *)
Definition raises_RuntimeError_matching (pattern : string)
    (r : result input_object) : Prop :=
  exists msg, r = Raise (RuntimeError msg) /\ re_search pattern msg = true.

(** C4. Constructing an [Input] subclass whose data is an iterator raises a
    [RuntimeError] whose message matches
    [Use `IterableInput` instead.], and with a list it succeeds;
    constructing an [IterableInput] subclass whose data is a list raises a
    [RuntimeError] whose message matches [Use `Input` instead.], and with
    an iterator it succeeds. *)
Theorem input_validation (l : list A) (stage : RunningStage) :
  raises_RuntimeError_matching "Use `IterableInput` instead."
    (construct Input (IteratorData l) stage) /\
  construct Input (ListData l) stage
  = Ok {| running_stage := stage; data := Some (ListData l) |} /\
  raises_RuntimeError_matching "Use `Input` instead."
    (construct IterableInput (ListData l) stage) /\
  construct IterableInput (IteratorData l) stage
  = Ok {| running_stage := stage; data := Some (IteratorData l) |}.
Proof.
  split_and!.
  - eexists. split; [reflexivity | vm_compute; reflexivity].
  - reflexivity.
  - eexists. split; [reflexivity | vm_compute; reflexivity].
  - reflexivity.
Qed.

End input_base.

(** The four constructions of the tests. *)
Example test_input_validation_invalid :
  construct Z Input (IteratorData Z [1; 2; 3]) TRAINING
  = Raise (RuntimeError
      "`Input.data` is not a sequence with a defined length. Use `IterableInput` instead.").
Proof. reflexivity. Qed.

Example test_input_validation_valid :
  construct Z Input (ListData Z [1; 2; 3]) TRAINING
  = Ok {| running_stage := TRAINING; data := Some (ListData Z [1; 2; 3]) |}.
Proof. reflexivity. Qed.

Example test_iterable_input_validation_invalid :
  construct Z IterableInput (ListData Z [1; 2; 3]) TRAINING
  = Raise (RuntimeError
      "`IterableInput.data` is a sequence with a defined length. Use `Input` instead.").
Proof. reflexivity. Qed.

Example test_iterable_input_validation_valid :
  construct Z IterableInput (IteratorData Z [1; 2; 3]) TRAINING
  = Ok {| running_stage := TRAINING; data := Some (IteratorData Z [1; 2; 3]) |}.
Proof. reflexivity. Qed.

(** The pattern of the first test does not match the message of the
    second. *)
Example re_search_other_message :
  re_search "Use `IterableInput` instead."
    "`IterableInput.data` is a sequence with a defined length. Use `Input` instead."
  = false.
Proof. vm_compute. reflexivity. Qed.

End input_base.

(** ** flash/image/face_detection/data.py: [fastface_collate_fn] *)

Module face_detection_data.

Section fastface_collate.

(** The elements of a tensor with their product and sum, an opaque Python
    object, and the image batch fastface prepares. *)
Variables R Object Batch : Type.
Variables mul add : R -> R -> R.

(** A row of an (N, 4) tensor of boxes: columns 0 to 3. *)
Record box := Box { x1 : R; y1 : R; x2 : R; y2 : R }.

(** A row of the (N, 4) tensor of paddings: left, top, right, bottom. *)
Record padding := Padding { pad0 : R; pad1 : R; pad2 : R; pad3 : R }.

(** The element type of a tensor, [torch.dtype], and the name torch
    prints for it. The scales and the paddings fastface computes are
    floating point numbers, and arithmetic in place with such a number
    needs a floating point tensor: the result cannot be cast to an
    integer type. *)
Inductive dtype :=
| float16 | float32 | float64
| uint8 | int8 | int16 | int32 | int64.

Definition is_floating_point (d : dtype) : bool :=
  match d with
  | float16 | float32 | float64 => true
  | uint8 | int8 | int16 | int32 | int64 => false
  end.

Definition dtype_name (d : dtype) : string :=
  match d with
  | float16 => "Half" | float32 => "Float" | float64 => "Double"
  | uint8 => "Byte" | int8 => "Char" | int16 => "Short"
  | int32 => "Int" | int64 => "Long"
  end.

Definition cannot_cast (d : dtype) : string :=
  "result type Float can't be cast to the desired output type "
  +:+ dtype_name d.

(** A tensor of boxes: its dtype and the rows of its shape (N, 4). *)
Record tensor := Tensor { tensor_dtype : dtype; tensor_boxes : list box }.

Definition tensor_map (f : box -> box) (t : tensor) : tensor :=
  {| tensor_dtype := tensor_dtype t; tensor_boxes := f <$> tensor_boxes t |}.

(** The values of a sample. A tensor of boxes is an object of the store,
    updated in place, and [VTensor r] refers to the one at location [r];
    dicts and lists are the fresh ones the function builds or the ones it
    only reads. Every other Python value (an image, a number, [None], a
    tensor of another shape) is an opaque object. *)
#[warnings="-register-all"]
Inductive value :=
| VObject (o : Object)
| VTensor (r : loc)
| VDict (d : gmap string value)
| VList (l : list value)
| VBatch (b : Batch)
| VScales (l : list R)
| VPaddings (l : list padding).

Abbreviation store := (gmap loc tensor).

(** The call
    [ff.utils.preprocess.prepare_batch(imgs, None, adaptive_batch=True)]:
    the batch, the scales and the paddings, or the exception of the call.
    That is the exception of fastface for inputs it cannot make a batch
    of, and the [NameError] of the name [ff], which the module binds only
    when fastface is installed. *)
Variable prepare_batch :
  list value -> result (Batch * list R * list padding).

(** Python's arithmetic in place on a value that is not a tensor of
    boxes of the store (a number, [None], a list, a tensor of another
    shape): [v *= scale] gives the value that is bound afterwards, and
    [v[:, cols] += p] returns, unless the operation raises. *)
Variable py_imul : value -> R -> result value.
Variable py_iadd_columns : value -> list nat -> R -> result unit.

(** [[sample[key] for sample in samples]]. *)
Definition column (key : string) (samples : list (gmap string value))
    : result (list value) :=
  mapM (fun sample => getitem sample key) samples.

(** [{key: [sample[key] for sample in samples] for key in keys}]. *)
Fixpoint collate_keys (keys : list string) (samples : list (gmap string value))
    : result (gmap string value) :=
  match keys with
  | [] => Ok ∅
  | key :: keys =>
      values ← column key samples;
      collated ← collate_keys keys samples;
      Ok (<[key := VList values]> collated)
  end.

(** [target["boxes"]]. *)
Definition target_getitem (target : value) (key : string) : result value :=
  match target with
  | VDict d => getitem d key
  | _ => Raise (TypeError "object is not subscriptable")
  end.

(** [[{"target_boxes": target["boxes"]} for target in targets]]. *)
Definition rekey_targets (targets : list value)
    : result (list (gmap string value)) :=
  mapM (fun target =>
          boxes ← target_getitem target "boxes";
          Ok ({[ "target_boxes" := boxes ]} : gmap string value))
       targets.

(** [padding[i]]. *)
Definition padding_getitem (p : padding) (i : nat) : result R :=
  match i with
  | 0%nat => Ok (pad0 p)
  | 1%nat => Ok (pad1 p)
  | 2%nat => Ok (pad2 p)
  | 3%nat => Ok (pad3 p)
  | _ => Raise (IndexError "index out of range")
  end.

Definition box_mul (scale : R) (b : box) : box :=
  {| x1 := mul (x1 b) scale; y1 := mul (y1 b) scale;
     x2 := mul (x2 b) scale; y2 := mul (y2 b) scale |}.

(** [b[cols] += p] on one row. *)
Definition box_add_columns (cols : list nat) (p : R) (b : box) : box :=
  let at_column (j : nat) (x : R) :=
    if bool_decide (j ∈ cols) then add x p else x in
  {| x1 := at_column 0%nat (x1 b); y1 := at_column 1%nat (y1 b);
     x2 := at_column 2%nat (x2 b); y2 := at_column 3%nat (y2 b) |}.

(** [t *= scale]: on a tensor of boxes the product is made in place and
    the tensor itself is the result, unless its dtype cannot hold the
    floating point product: torch then raises a [RuntimeError] and the
    tensor is as it was. *)
Definition tensor_imul (t : value) (scale : R) : M store value :=
  fun st =>
    match t with
    | VTensor r =>
        match st !! r with
        | Some boxes =>
            if is_floating_point (tensor_dtype boxes) then
              (Ok (VTensor r), <[r := tensor_map (box_mul scale) boxes]> st)
            else
              (Raise (RuntimeError (cannot_cast (tensor_dtype boxes))), st)
        | None => (py_imul t scale, st)
        end
    | _ => (py_imul t scale, st)
    end.

(** [t[:, cols] += p]: the indexing comes first, with an [IndexError]
    for a column the four of a tensor of boxes do not have, then the sum
    in place, with the [RuntimeError] of a dtype that cannot hold it. *)
Definition tensor_iadd_columns (t : value) (cols : list nat) (p : R)
    : M store unit :=
  fun st =>
    match t with
    | VTensor r =>
        match st !! r with
        | Some boxes =>
            if negb (forallb (fun col => col <? 4)%nat cols) then
              (Raise (IndexError "index is out of bounds for dimension with size 4"),
               st)
            else if is_floating_point (tensor_dtype boxes) then
              (Ok tt, <[r := tensor_map (box_add_columns cols p) boxes]> st)
            else
              (Raise (RuntimeError (cannot_cast (tensor_dtype boxes))), st)
        | None => (py_iadd_columns t cols p, st)
        end
    | _ => (py_iadd_columns t cols p, st)
    end.

(** The body of the loop over [zip(targets, scales, paddings)]. *)
Definition rescale_target (target : gmap string value) (scale : R)
    (padding : padding) : M store (gmap string value) :=
  boxes ← lift (getitem target "target_boxes");
  boxes ← tensor_imul boxes scale;
  let target := <["target_boxes" := boxes]> target in
  boxes ← lift (getitem target "target_boxes");
  p ← lift (padding_getitem padding 0);
  _ ← tensor_iadd_columns boxes [0; 2]%nat p;
  boxes ← lift (getitem target "target_boxes");
  p ← lift (padding_getitem padding 1);
  _ ← tensor_iadd_columns boxes [1; 3]%nat p;
  boxes ← lift (getitem target "target_boxes");
  mret (<["target_boxes" := boxes]> target).

(** The loop: [zip] stops with the shortest of the three lists, and the
    targets it does not reach stay as they are. *)
Fixpoint rescale_targets (targets : list (gmap string value))
    (scales : list R) (paddings : list padding)
    : M store (list (gmap string value)) :=
  match targets, scales, paddings with
  | target :: targets, scale :: scales, padding :: paddings =>
      target ← rescale_target target scale padding;
      targets ← rescale_targets targets scales paddings;
      mret (target :: targets)
  | _, _, _ => mret targets
  end.

Definition as_list (v : value) : result (list value) :=
  match v with
  | VList l => Ok l
  | _ => Raise (TypeError "object is not iterable")
  end.

(** [fastface_collate_fn]. *)
Definition fastface_collate_fn (samples : list (gmap string value))
    : M store (gmap string value) :=
  first ← lift (match samples with
                | [] => Raise (IndexError "list index out of range")
                | first :: _ => Ok first
                end);
  samples ← lift (collate_keys (map_to_list first).*1 samples);
  inputs ← lift (getitem samples INPUT);
  inputs ← lift (as_list inputs);
  '(images, scales, paddings) ← lift (prepare_batch inputs);
  let samples := <["scales" := VScales scales]> samples in
  let samples := <["paddings" := VPaddings paddings]> samples in
  samples ←
    (if bool_decide (TARGET ∈ dom samples) then
       targets ← lift (getitem samples TARGET);
       targets ← lift (as_list targets);
       targets ← lift (rekey_targets targets);
       targets ← rescale_targets targets scales paddings;
       mret (<[TARGET := VList (VDict <$> targets)]> samples)
     else mret samples);
  mret (<[INPUT := VBatch images]> samples).

(** What the specification says of one row: it is multiplied by the scale
    and then translated by the padding, [padding[0]] added to the
    x-coordinates (columns 0 and 2) and [padding[1]] to the y-coordinates
    (columns 1 and 3). *)
Definition rescale (scale : R) (p : padding) (b : box) : box :=
  {| x1 := add (mul (x1 b) scale) (pad0 p);
     y1 := add (mul (y1 b) scale) (pad1 p);
     x2 := add (mul (x2 b) scale) (pad0 p);
     y2 := add (mul (y2 b) scale) (pad1 p) |}.

(** The tensor of boxes a sample carries in its target. *)
Definition target_boxes_of (sample : gmap string value) : option loc :=
  match sample !! TARGET with
  | Some (VDict d) =>
      match d !! "boxes" with
      | Some (VTensor r) => Some r
      | _ => None
      end
  | _ => None
  end.

(** The tensor at [r] is a floating point tensor of boxes of the
    store. *)
Definition floating (st : store) (r : loc) : Prop :=
  exists t, st !! r = Some t /\ is_floating_point (tensor_dtype t) = true.

(** The target of the result for a tensor of boxes. *)
Definition rekeyed (r : loc) : gmap string value :=
  {[ "target_boxes" := VTensor r ]}.

(** One turn of the loop, seen from the store. *)
Definition rescale_in_place (st : store) (x : loc * (R * padding)) : store :=
  alter (tensor_map (rescale x.2.1 x.2.2)) x.1 st.

(** *** Properties of the collation *)

Lemma column_Ok key (samples : list (gmap string value)) values :
  Forall2 (fun sample v => sample !! key = Some v) samples values ->
  column key samples = Ok values.
Proof.
  unfold column. induction 1 as [|sample v samples values Hv _ IH];
    [reflexivity |].
  cbn [mapM]. rewrite (getitem_Some _ _ _ Hv). cbn.
  rewrite IH. reflexivity.
Qed.

Lemma collate_keys_Ok (keys : list string)
    (samples : list (gmap string value)) :
  (forall k sample, k ∈ keys -> sample ∈ samples -> is_Some (sample !! k)) ->
  exists collated,
    collate_keys keys samples = Ok collated /\
    (forall k, k ∈ keys ->
       exists values,
         collated !! k = Some (VList values) /\
         Forall2 (fun sample v => sample !! k = Some v) samples values) /\
    (forall k, k ∉ keys -> collated !! k = None).
Proof.
  induction keys as [|key keys IH]; intros Hkeys.
  - exists ∅. split_and!; [done | | done].
    intros k Hk. inversion Hk.
  - destruct IH as (collated & Hrun & Hin & Hout).
    { intros k sample Hk. apply Hkeys. by right. }
    assert (Hcol : exists values,
              Forall2 (fun sample v => sample !! key = Some v) samples values).
    { assert (Hall : Forall (fun sample => is_Some (sample !! key)) samples).
      { apply Forall_forall. intros sample Hs. apply Hkeys; [by left | done]. }
      clear -Hall. induction Hall as [|sample samples [v Hv] _ [values IH]].
      - by exists [].
      - exists (v :: values). by constructor. }
    destruct Hcol as [values Hvalues].
    exists (<[key := VList values]> collated). split_and!.
    + cbn [collate_keys]. rewrite (column_Ok _ _ _ Hvalues). cbn.
      rewrite Hrun. reflexivity.
    + intros k Hk. destruct (decide (k = key)) as [->|Hne].
      * exists values. by rewrite lookup_insert_eq.
      * rewrite lookup_insert_ne by done. apply Hin.
        by apply elem_of_cons in Hk as [?|?].
    + intros k Hk. apply not_elem_of_cons in Hk as [Hne Hk].
      rewrite lookup_insert_ne by done. by apply Hout.
Qed.

(** What a collation that returns has put into the batch. *)
Lemma column_inv key (samples : list (gmap string value)) :
  forall values, column key samples = Ok values ->
  Forall2 (fun sample v => sample !! key = Some v) samples values.
Proof.
  unfold column.
  induction samples as [|sample samples IH]; intros values Hrun.
  - injection Hrun as <-. constructor.
  - cbn [mapM] in Hrun.
    destruct (getitem sample key) as [v|] eqn:Hv; [|discriminate].
    cbn in Hrun. destruct (mapM _ samples) as [vs|]; [|discriminate].
    cbn in Hrun. injection Hrun as <-. constructor; [|by apply IH].
    unfold getitem in Hv. destruct (sample !! key); [|discriminate].
    by injection Hv as ->.
Qed.

Lemma collate_keys_inv (keys : list string)
    (samples : list (gmap string value)) :
  forall collated, collate_keys keys samples = Ok collated ->
  forall k v, collated !! k = Some v ->
  exists values,
    v = VList values /\
    Forall2 (fun sample x => sample !! k = Some x) samples values.
Proof.
  induction keys as [|key keys IH]; intros collated Hrun k v Hk.
  - injection Hrun as <-. by rewrite lookup_empty in Hk.
  - cbn [collate_keys] in Hrun.
    destruct (column key samples) as [values|] eqn:Hcolumn; [|discriminate].
    cbn in Hrun.
    destruct (collate_keys keys samples) as [collated'|]; [|discriminate].
    cbn in Hrun. injection Hrun as <-.
    apply lookup_insert_Some in Hk as [[<- <-]|[_ Hk]].
    + exists values. split; [done | by apply column_inv].
    + by eapply IH.
Qed.

Lemma collate_keys_dom (keys : list string)
    (samples : list (gmap string value)) :
  forall collated, collate_keys keys samples = Ok collated ->
  forall k, is_Some (collated !! k) <-> k ∈ keys.
Proof.
  induction keys as [|key keys IH]; intros collated Hrun k.
  - injection Hrun as <-. rewrite lookup_empty. split.
    + by intros [? ?].
    + intros Hk. inversion Hk.
  - cbn [collate_keys] in Hrun.
    destruct (column key samples) as [values|]; [|discriminate].
    cbn in Hrun.
    destruct (collate_keys keys samples) as [collated'|]; [|discriminate].
    cbn in Hrun. injection Hrun as <-.
    rewrite lookup_insert_is_Some, elem_of_cons, (IH _ eq_refl).
    split.
    + intros [->|[_ Hk]]; [by left | by right].
    + intros [->|Hk]; [by left |].
      destruct (decide (key = k)); [by left | by right].
Qed.

Lemma rekey_targets_Ok (targets : list value) (refs : list loc) :
  Forall2 (fun target r =>
             exists d, target = VDict d /\ d !! "boxes" = Some (VTensor r))
          targets refs ->
  rekey_targets targets = Ok (rekeyed <$> refs).
Proof.
  unfold rekey_targets.
  induction 1 as [|target r targets refs (d & -> & Hd) _ IH]; [reflexivity |].
  cbn [mapM target_getitem]. rewrite (getitem_Some _ _ _ Hd). cbn.
  rewrite IH. reflexivity.
Qed.

(** The three updates of the loop body make the rescaling of the
    specification. *)
Lemma rescale_steps (scale : R) (p : padding) (b : box) :
  box_add_columns [1; 3]%nat (pad1 p)
    (box_add_columns [0; 2]%nat (pad0 p) (box_mul scale b))
  = rescale scale p b.
Proof. reflexivity. Qed.

Lemma rescale_target_Ok (r : loc) (scale : R) (p : padding) (st : store)
    (t : tensor) :
  st !! r = Some t -> is_floating_point (tensor_dtype t) = true ->
  rescale_target (rekeyed r) scale p st
  = (Ok (rekeyed r), rescale_in_place st (r, (scale, p))).
Proof.
  intros Hr Hfloat. unfold rescale_target, rekeyed, rescale_in_place.
  unfold mbind, M_bind, lift, tensor_imul, tensor_iadd_columns.
  unfold getitem. cbn [padding_getitem fst snd].
  rewrite lookup_singleton_eq, Hr, Hfloat, insert_singleton_eq.
  rewrite !lookup_singleton_eq, lookup_insert_eq.
  cbn [negb forallb andb Nat.ltb Nat.leb tensor_map tensor_dtype].
  rewrite Hfloat. cbv beta iota zeta.
  rewrite lookup_insert_eq.
  cbn [negb forallb andb Nat.ltb Nat.leb tensor_map tensor_dtype].
  rewrite Hfloat. cbv beta iota zeta.
  rewrite insert_singleton_eq, !insert_insert_eq.
  f_equal. apply map_eq. intros r'.
  rewrite lookup_alter. destruct (decide (r = r')) as [<-|Hne].
  - rewrite lookup_insert_eq, Hr. cbn. f_equal.
    unfold tensor_map. cbn [tensor_dtype tensor_boxes]. f_equal.
    rewrite <- !list_fmap_compose. apply list_fmap_ext.
    intros _ b _. apply rescale_steps.
  - by rewrite lookup_insert_ne.
Qed.

Lemma rescale_in_place_is_Some (st : store) x (r : loc) :
  is_Some (rescale_in_place st x !! r) <-> is_Some (st !! r).
Proof.
  unfold rescale_in_place. rewrite lookup_alter.
  destruct (decide (x.1 = r)) as [<-|]; [|done].
  by rewrite fmap_is_Some.
Qed.

(** A rescaling in place keeps the dtype of every tensor. *)
Lemma rescale_in_place_dtype (st : store) x (r : loc) :
  tensor_dtype <$> rescale_in_place st x !! r = tensor_dtype <$> st !! r.
Proof.
  unfold rescale_in_place. rewrite lookup_alter.
  destruct (decide (x.1 = r)) as [<-|]; [|done].
  by destruct (st !! x.1).
Qed.

Lemma rescale_in_place_floating (st : store) x (r : loc) :
  floating st r -> floating (rescale_in_place st x) r.
Proof.
  intros (t & Hr & Hfloat). pose proof (rescale_in_place_dtype st x r) as Hd.
  rewrite Hr in Hd.
  destruct (rescale_in_place st x !! r) as [t'|] eqn:Hr'; [|discriminate].
  injection Hd as Hd. exists t'. split; [done | by rewrite Hd].
Qed.

(** The loop rescales in place, target by target, and returns the
    targets as they were: each still refers to its tensor. *)
Lemma rescale_targets_Ok (refs : list loc) : forall scales paddings (st : store),
  Forall (floating st) refs ->
  rescale_targets (rekeyed <$> refs) scales paddings st
  = (Ok (rekeyed <$> refs),
     foldl rescale_in_place st (zip refs (zip scales paddings))).
Proof.
  induction refs as [|r refs IH]; intros scales paddings st Hrefs.
  - reflexivity.
  - destruct scales as [|scale scales]; [reflexivity |].
    destruct paddings as [|p paddings]; [reflexivity |].
    apply Forall_cons in Hrefs as [(t & Hr & Hfloat) Hrefs].
    cbn [fmap list_fmap rescale_targets zip zip_with foldl].
    unfold mbind at 1, M_bind at 1.
    rewrite (rescale_target_Ok _ _ _ _ _ Hr Hfloat).
    unfold mbind at 1, M_bind at 1.
    rewrite IH; [reflexivity |].
    eapply Forall_impl; [exact Hrefs |].
    intros r' Hr'. by apply rescale_in_place_floating.
Qed.

Lemma rescale_fold_frame (refs : list loc) :
  forall scales paddings (st : store) r,
  r ∉ refs ->
  foldl rescale_in_place st (zip refs (zip scales paddings)) !! r = st !! r.
Proof.
  induction refs as [|r0 refs IH]; intros scales paddings st r Hr;
    [reflexivity |].
  destruct scales as [|scale scales]; [reflexivity |].
  destruct paddings as [|p paddings]; [reflexivity |].
  apply not_elem_of_cons in Hr as [Hne Hr].
  cbn [zip zip_with foldl]. rewrite IH by done.
  unfold rescale_in_place. by rewrite lookup_alter_ne.
Qed.

(** With pairwise distinct tensors, each tensor is rescaled once, by the
    scale and the padding of its sample. *)
Lemma rescale_fold_lookup (refs : list loc) :
  forall scales paddings (st : store) (i : nat) r t scale p,
  NoDup refs ->
  refs !! i = Some r -> scales !! i = Some scale -> paddings !! i = Some p ->
  st !! r = Some t ->
  foldl rescale_in_place st (zip refs (zip scales paddings)) !! r
  = Some (tensor_map (rescale scale p) t).
Proof.
  induction refs as [|r0 refs IH];
    intros scales paddings st i r t scale p Hnodup Hi Hs Hp Hr;
    [discriminate |].
  apply NoDup_cons in Hnodup as [Hr0 Hnodup].
  destruct scales as [|scale0 scales]; [by destruct i |].
  destruct paddings as [|p0 paddings]; [by destruct i |].
  cbn [zip zip_with foldl]. destruct i as [|i]; cbn in Hi, Hs, Hp.
  - injection Hi as ->. injection Hs as ->. injection Hp as ->.
    rewrite rescale_fold_frame by done.
    unfold rescale_in_place. cbn [fst snd].
    by rewrite lookup_alter_eq, Hr.
  - apply (IH _ _ _ i); try done.
    unfold rescale_in_place. cbn [fst snd].
    rewrite lookup_alter_ne; [done |].
    intros ->. apply Hr0. by eapply list_elem_of_lookup_2.
Qed.

Lemma elem_of_keys (m : gmap string value) (k : string) :
  k ∈ (map_to_list m).*1 <-> is_Some (m !! k).
Proof.
  rewrite list_elem_of_fmap. split.
  - intros ([k' v] & -> & Hkv). apply elem_of_map_to_list in Hkv. by exists v.
  - intros [v Hv]. exists (k, v). split; [done |].
    by apply elem_of_map_to_list.
Qed.

Lemma Forall2_lookup_agree (key : string)
    (samples : list (gmap string value)) (values1 values2 : list value) :
  Forall2 (fun sample v => sample !! key = Some v) samples values1 ->
  Forall2 (fun sample v => sample !! key = Some v) samples values2 ->
  values1 = values2.
Proof.
  intros H1. revert values2.
  induction H1 as [|sample v samples values1 Hv _ IH]; intros values2 H2.
  - by inversion H2.
  - inversion H2 as [|? v' ? values2' Hv' H2']; subst.
    f_equal; [congruence | by apply IH].
Qed.

(** The tensors of the targets of a batch. *)
Lemma target_boxes_refs (samples : list (gmap string value)) (st : store) :
  Forall (fun sample =>
            exists r, target_boxes_of sample = Some r /\ floating st r)
         samples ->
  exists refs,
    Forall2 (fun sample r => target_boxes_of sample = Some r) samples refs /\
    Forall (floating st) refs.
Proof.
  induction 1 as [|sample samples (r & Hr & Hst) _ (refs & Hrefs & Hall)].
  - exists []. by split.
  - exists (r :: refs). split; by constructor.
Qed.

Lemma targets_of_refs (samples : list (gmap string value))
    (targets : list value) (refs : list loc) :
  Forall2 (fun sample v => sample !! TARGET = Some v) samples targets ->
  Forall2 (fun sample r => target_boxes_of sample = Some r) samples refs ->
  Forall2 (fun target r =>
             exists d, target = VDict d /\ d !! "boxes" = Some (VTensor r))
          targets refs.
Proof.
  intros Ht. revert refs.
  induction Ht as [|sample v samples targets Hv _ IH]; intros refs Hr.
  - inversion Hr. constructor.
  - inversion Hr as [|? r ? refs' Hr0 Hr']; subst. constructor; [|by apply IH].
    unfold target_boxes_of in Hr0. rewrite Hv in Hr0.
    destruct v as [?|?|d|?|?|?|?]; try discriminate.
    destruct (d !! "boxes") as [[?|r'|?|?|?|?|?]|] eqn:Hd; try discriminate.
    injection Hr0 as ->. eauto.
Qed.

(** The function from the call of [prepare_batch] on, for the batch
    [samples] the comprehension has made. *)
Definition after_prepare_batch (samples : gmap string value)
    (prepared : Batch * list R * list padding)
    : M store (gmap string value) :=
  let '(images, scales, paddings) := prepared in
  let samples := <["scales" := VScales scales]> samples in
  let samples := <["paddings" := VPaddings paddings]> samples in
  samples ←
    (if bool_decide (TARGET ∈ dom samples) then
       targets ← lift (getitem samples TARGET);
       targets ← lift (as_list targets);
       targets ← lift (rekey_targets targets);
       targets ← rescale_targets targets scales paddings;
       mret (<[TARGET := VList (VDict <$> targets)]> samples)
     else mret samples);
  mret (<[INPUT := VBatch images]> samples).

(** A run up to the call of [prepare_batch]. *)
Lemma fastface_collate_fn_collated (samples : list (gmap string value))
    (first collated : gmap string value) (inputs : list value) (st : store) :
  samples !! 0%nat = Some first ->
  collate_keys (map_to_list first).*1 samples = Ok collated ->
  collated !! INPUT = Some (VList inputs) ->
  fastface_collate_fn samples st
  = (lift (prepare_batch inputs) ≫= after_prepare_batch collated) st.
Proof.
  intros Hfirst Hcollate Hinput.
  destruct samples as [|first' rest]; [discriminate |].
  injection Hfirst as ->. unfold fastface_collate_fn.
  rewrite (image_data.bind_run_Ok _ _ st first st) by reflexivity.
  rewrite (image_data.bind_run_Ok _ _ st collated st)
    by (unfold lift; by rewrite Hcollate).
  rewrite (image_data.bind_run_Ok _ _ st (VList inputs) st)
    by (unfold lift; by rewrite (getitem_Some _ _ _ Hinput)).
  rewrite (image_data.bind_run_Ok _ _ st inputs st) by reflexivity.
  reflexivity.
Qed.

(** The comprehension on a batch whose samples carry the keys of the
    first one. *)
Lemma fastface_collate_fn_prepare (samples : list (gmap string value))
    (first : gmap string value) (inputs : list value) (st : store) :
  samples !! 0%nat = Some first ->
  (forall k sample,
     is_Some (first !! k) -> sample ∈ samples -> is_Some (sample !! k)) ->
  Forall2 (fun sample v => sample !! INPUT = Some v) samples inputs ->
  exists collated,
    fastface_collate_fn samples st
    = (lift (prepare_batch inputs) ≫= after_prepare_batch collated) st /\
    (forall k, is_Some (first !! k) ->
       exists values,
         collated !! k = Some (VList values) /\
         Forall2 (fun sample v => sample !! k = Some v) samples values) /\
    (forall k, first !! k = None -> collated !! k = None).
Proof.
  intros Hfirst Hkeys Hinputs.
  destruct (collate_keys_Ok (map_to_list first).*1 samples)
    as (collated & Hcollate & Hin & Hout).
  { intros k sample Hk. apply Hkeys. by apply elem_of_keys. }
  assert (Hinput : collated !! INPUT = Some (VList inputs)).
  { destruct (Hin INPUT) as (values & Hv & Hvalues).
    - apply elem_of_keys.
      destruct (Forall2_lookup_l _ _ _ 0%nat _ Hinputs Hfirst)
        as (x & _ & Hx).
      by eexists.
    - by rewrite (Forall2_lookup_agree _ _ _ _ Hinputs Hvalues). }
  exists collated. split_and!.
  - by eapply fastface_collate_fn_collated.
  - intros k Hk. apply Hin. by apply elem_of_keys.
  - intros k Hk. apply Hout. rewrite elem_of_keys, Hk. by intros [? ?].
Qed.

(** The part of the function that handles the targets, on targets that
    hold their boxes as floating point tensors. *)
Lemma after_prepare_batch_targets (collated : gmap string value)
    (images : Batch) (scales : list R) (paddings : list padding)
    (targets : list value) (refs : list loc) (st : store) :
  collated !! TARGET = Some (VList targets) ->
  Forall2 (fun target r =>
             exists d, target = VDict d /\ d !! "boxes" = Some (VTensor r))
          targets refs ->
  Forall (floating st) refs ->
  after_prepare_batch collated (images, scales, paddings) st
  = (Ok (<[INPUT := VBatch images]>
           (<[TARGET := VList (VDict <$> (rekeyed <$> refs))]>
              (<["paddings" := VPaddings paddings]>
                 (<["scales" := VScales scales]> collated)))),
     foldl rescale_in_place st (zip refs (zip scales paddings))).
Proof.
  intros Htarget Htargets Hst. unfold after_prepare_batch.
  rewrite bool_decide_eq_true_2
    by (rewrite elem_of_dom, !lookup_insert_ne, Htarget by done; by eexists).
  unfold mbind at 1, M_bind at 1.
  unfold mbind at 1, M_bind at 1, lift at 1.
  rewrite (getitem_Some _ TARGET (VList targets))
    by (by rewrite !lookup_insert_ne).
  unfold mbind at 1, M_bind at 1, lift at 1. cbn [as_list].
  unfold mbind at 1, M_bind at 1, lift at 1.
  rewrite (rekey_targets_Ok _ _ Htargets).
  unfold mbind at 1, M_bind at 1.
  rewrite (rescale_targets_Ok _ _ _ _ Hst). reflexivity.
Qed.

(** C8, amended. For every non-empty batch of samples that carry the keys
    of the first one, the input key among them, and of which fastface
    prepares the image batch: the result maps each key to the
    list of the values of that key across the samples, with the input key
    replaced by the prepared image batch and the entries ["scales"] and
    ["paddings"] added. When the target key is present, every target
    holding its boxes as a floating point tensor, each target of the
    result is a mapping that holds only ["target_boxes"], the tensor of
    its sample, and the loop has gone through the samples with their
    scales and paddings and has, in place, multiplied the boxes of each by
    its scale and then translated them by its padding, [padding[0]] added
    to columns 0 and 2 and [padding[1]] to columns 1 and 3; with pairwise
    distinct tensors, the tensor of each sample holds exactly its boxes
    rescaled so. *)
Theorem fastface_collate_fn_batch (samples : list (gmap string value))
    (first : gmap string value) (st : store) (inputs : list value)
    (images : Batch) (scales : list R) (paddings : list padding) :
  samples !! 0%nat = Some first ->
  (forall k sample,
     is_Some (first !! k) -> sample ∈ samples -> is_Some (sample !! k)) ->
  Forall2 (fun sample v => sample !! INPUT = Some v) samples inputs ->
  prepare_batch inputs = Ok (images, scales, paddings) ->
  (is_Some (first !! TARGET) ->
   Forall (fun sample =>
             exists r, target_boxes_of sample = Some r /\ floating st r)
          samples) ->
  exists result st',
    fastface_collate_fn samples st = (Ok result, st') /\
    (forall k, is_Some (first !! k) ->
       k <> INPUT -> k <> TARGET -> k <> "scales" -> k <> "paddings" ->
       exists values,
         result !! k = Some (VList values) /\
         Forall2 (fun sample v => sample !! k = Some v) samples values) /\
    result !! INPUT = Some (VBatch images) /\
    result !! "scales" = Some (VScales scales) /\
    result !! "paddings" = Some (VPaddings paddings) /\
    (first !! TARGET = None -> result !! TARGET = None /\ st' = st) /\
    (is_Some (first !! TARGET) ->
     exists refs,
       Forall2 (fun sample r => target_boxes_of sample = Some r) samples refs /\
       result !! TARGET
       = Some (VList ((fun r => VDict {[ "target_boxes" := VTensor r ]})
                      <$> refs)) /\
       st' = foldl rescale_in_place st (zip refs (zip scales paddings)) /\
       (NoDup refs ->
        forall i r t scale p,
          refs !! i = Some r -> st !! r = Some t ->
          scales !! i = Some scale -> paddings !! i = Some p ->
          st' !! r
          = Some {| tensor_dtype := tensor_dtype t;
                    tensor_boxes := rescale scale p <$> tensor_boxes t |})).
Proof.
  intros Hfirst Hkeys Hinputs Hprepare Htargets.
  destruct (fastface_collate_fn_prepare _ _ _ st Hfirst Hkeys Hinputs)
    as (collated & Hrun & Hin & Hout).
  rewrite Hrun.
  rewrite (image_data.bind_run_Ok _ _ st (images, scales, paddings) st)
    by (unfold lift; by rewrite Hprepare).
  destruct (first !! TARGET) as [target0|] eqn:Hfirst_target.
  - destruct (target_boxes_refs _ _ (Htargets ltac:(eauto)))
      as (refs & Hrefs & Hst).
    destruct (Hin TARGET) as (targets & Htarget & Htargets_all);
      [by rewrite Hfirst_target |].
    rewrite (after_prepare_batch_targets _ _ _ _ _ _ _ Htarget
               (targets_of_refs _ _ _ Htargets_all Hrefs) Hst).
    eexists _, _. split_and!; [reflexivity | | | | | |].
    + intros k Hk ? ? ? ?. rewrite !lookup_insert_ne by done. by apply Hin.
    + by rewrite lookup_insert_eq.
    + rewrite !lookup_insert_ne by done. by rewrite lookup_insert_eq.
    + rewrite !lookup_insert_ne by done. by rewrite lookup_insert_eq.
    + discriminate.
    + intros _. exists refs. split_and!; [done | | done |].
      * rewrite lookup_insert_ne by done.
        rewrite lookup_insert_eq. by rewrite <- list_fmap_compose.
      * intros Hnodup i r t scale p Hi Hr Hs Hp.
        by apply (rescale_fold_lookup refs scales paddings st i).
  - unfold after_prepare_batch.
    rewrite bool_decide_eq_false_2
      by (rewrite elem_of_dom, !lookup_insert_ne, (Hout TARGET) by done;
          by intros [? ?]).
    eexists _, st. split_and!; [reflexivity | | | | | |].
    + intros k Hk ? ? ? ?. rewrite !lookup_insert_ne by done. by apply Hin.
    + by rewrite lookup_insert_eq.
    + rewrite !lookup_insert_ne by done. by rewrite lookup_insert_eq.
    + rewrite !lookup_insert_ne by done. by rewrite lookup_insert_eq.
    + intros _. split; [|done]. rewrite !lookup_insert_ne by done.
      by apply Hout.
    + by intros [? ?].
Qed.

(** *** Shared tensors and exceptions *)

(** A run on a batch with targets, and the store it leaves. *)
Lemma fastface_collate_fn_store (samples : list (gmap string value))
    (first : gmap string value) (st : store) (inputs : list value)
    (images : Batch) (scales : list R) (paddings : list padding)
    (refs : list loc) :
  samples !! 0%nat = Some first ->
  (forall k sample,
     is_Some (first !! k) -> sample ∈ samples -> is_Some (sample !! k)) ->
  Forall2 (fun sample v => sample !! INPUT = Some v) samples inputs ->
  prepare_batch inputs = Ok (images, scales, paddings) ->
  is_Some (first !! TARGET) ->
  Forall2 (fun sample r => target_boxes_of sample = Some r) samples refs ->
  Forall (floating st) refs ->
  exists result,
    fastface_collate_fn samples st
    = (Ok result, foldl rescale_in_place st (zip refs (zip scales paddings))).
Proof.
  intros Hfirst Hkeys Hinputs Hprepare Htarget0 Hrefs Hst.
  destruct (fastface_collate_fn_prepare _ _ _ st Hfirst Hkeys Hinputs)
    as (collated & Hrun & Hin & Hout).
  rewrite Hrun.
  rewrite (image_data.bind_run_Ok _ _ st (images, scales, paddings) st)
    by (unfold lift; by rewrite Hprepare).
  destruct (Hin TARGET Htarget0) as (targets & Htarget & Htargets_all).
  rewrite (after_prepare_batch_targets _ _ _ _ _ _ _ Htarget
             (targets_of_refs _ _ _ Htargets_all Hrefs) Hst).
  by eexists.
Qed.

(** The scales and paddings a tensor is rescaled by: those of the samples
    that refer to it, in the order of the batch. *)
Definition rescalings_of (r : loc) (refs : list loc) (scales : list R)
    (paddings : list padding) : list (R * padding) :=
  (filter (fun x : loc * (R * padding) => x.1 = r)
          (zip refs (zip scales paddings))).*2.

(** One rescaling after the other. *)
Definition rescale_all (t : tensor) (by_ : list (R * padding)) : tensor :=
  foldl (fun t (x : R * padding) => tensor_map (rescale x.1 x.2) t) t by_.

Lemma rescale_all_dtype (by_ : list (R * padding)) :
  forall t, tensor_dtype (rescale_all t by_) = tensor_dtype t.
Proof.
  unfold rescale_all. induction by_ as [|x by_ IH]; intros t; [done |].
  cbn [foldl]. by rewrite IH.
Qed.

Lemma rescale_fold_shared (xs : list (loc * (R * padding))) :
  forall (st : store) (r : loc),
  foldl rescale_in_place st xs !! r
  = (fun t =>
       rescale_all t (filter (fun x : loc * (R * padding) => x.1 = r) xs).*2)
    <$> st !! r.
Proof.
  induction xs as [|x xs IH]; intros st r.
  - cbn. by destruct (st !! r).
  - cbn [foldl]. rewrite IH. unfold rescale_in_place.
    rewrite filter_cons. destruct (decide (x.1 = r)) as [<-|Hne].
    + rewrite lookup_alter_eq. by destruct (st !! x.1).
    + by rewrite lookup_alter_ne.
Qed.

(** X13. Tensors shared between samples. On a batch of samples that carry
    the keys of the first one, of which fastface prepares the image
    batch, each target holding its boxes as a floating point tensor, the
    boxes of every tensor end as rescaled once for each sample that
    refers to the tensor, one rescaling applied to the result of the
    other in the order of the batch: a tensor that two samples share is
    rescaled twice, and a tensor that no sample refers to is not
    touched. *)
Theorem fastface_collate_fn_shared_tensors
    (samples : list (gmap string value)) (first : gmap string value)
    (st : store) (inputs : list value) (images : Batch) (scales : list R)
    (paddings : list padding) (refs : list loc) :
  samples !! 0%nat = Some first ->
  (forall k sample,
     is_Some (first !! k) -> sample ∈ samples -> is_Some (sample !! k)) ->
  Forall2 (fun sample v => sample !! INPUT = Some v) samples inputs ->
  prepare_batch inputs = Ok (images, scales, paddings) ->
  is_Some (first !! TARGET) ->
  Forall2 (fun sample r => target_boxes_of sample = Some r) samples refs ->
  Forall (floating st) refs ->
  exists result st',
    fastface_collate_fn samples st = (Ok result, st') /\
    (forall r t, st !! r = Some t ->
       st' !! r
       = Some (rescale_all t (rescalings_of r refs scales paddings))) /\
    (forall r, r ∉ refs -> st' !! r = st !! r).
Proof.
  intros Hfirst Hkeys Hinputs Hprepare Htarget Hrefs Hst.
  destruct (fastface_collate_fn_store _ _ _ _ _ _ _ _ Hfirst Hkeys Hinputs
              Hprepare Htarget Hrefs Hst) as [result Hrun].
  exists result, (foldl rescale_in_place st (zip refs (zip scales paddings))).
  split_and!; [exact Hrun | |].
  - intros r t Hr. by rewrite rescale_fold_shared, Hr.
  - intros r Hr. by apply rescale_fold_frame.
Qed.



Lemma rekey_targets_app (targets1 targets2 : list value) :
  forall rekeyed1 rekeyed2,
  rekey_targets targets1 = Ok rekeyed1 ->
  rekey_targets targets2 = Ok rekeyed2 ->
  rekey_targets (targets1 ++ targets2) = Ok (rekeyed1 ++ rekeyed2).
Proof.
  unfold rekey_targets.
  induction targets1 as [|target targets1 IH]; intros rekeyed1 rekeyed2 H1 H2.
  - by injection H1 as <-.
  - cbn [mapM app] in H1 |- *.
    destruct (target_getitem target "boxes") as [boxes|]; [|discriminate].
    cbn in H1 |- *.
    destruct (mapM _ targets1) as [rekeyed1'|] eqn:Hrest; [|discriminate].
    cbn in H1. injection H1 as <-.
    by rewrite (IH _ _ eq_refl H2).
Qed.

(** The targets that are dicts with boxes are rekeyed without an
    exception, whatever their boxes are. *)
Lemma rekey_targets_boxes (targets : list value) :
  Forall (fun target => exists d, target = VDict d /\ is_Some (d !! "boxes"))
         targets ->
  exists rekeyed_targets, rekey_targets targets = Ok rekeyed_targets.
Proof.
  unfold rekey_targets.
  induction 1 as [|target targets (d & -> & boxes & Hd) _ [rekeyed_targets IH]].
  - by eexists.
  - eexists. cbn [mapM target_getitem]. rewrite (getitem_Some _ _ _ Hd).
    cbn. rewrite IH. reflexivity.
Qed.





(** *** An exception inside the loop *)

(** The loop on targets of which the first hold floating point tensors
    and the next one a tensor of integers: the tensors of the first are
    rescaled, and the product in place on the tensor of integers ends
    the loop. *)
Lemma rescale_targets_partial (refs : list loc) (r_bad : loc)
    (t_bad : tensor) (others : list (gmap string value)) :
  forall scales paddings (st : store),
  Forall (floating st) refs ->
  st !! r_bad = Some t_bad ->
  is_floating_point (tensor_dtype t_bad) = false ->
  (length refs < length scales)%nat -> (length refs < length paddings)%nat ->
  rescale_targets ((rekeyed <$> refs) ++ rekeyed r_bad :: others)
    scales paddings st
  = (Raise (RuntimeError (cannot_cast (tensor_dtype t_bad))),
     foldl rescale_in_place st (zip refs (zip scales paddings))).
Proof.
  induction refs as [|r refs IH]; intros scales paddings st Hrefs Hbad Hint Hs Hp.
  - destruct scales as [|scale scales]; [cbn in Hs; lia |].
    destruct paddings as [|p paddings]; [cbn in Hp; lia |].
    cbn [fmap list_fmap app rescale_targets zip zip_with foldl].
    apply image_data.bind_run_Raise. unfold rescale_target, rekeyed.
    unfold mbind, M_bind, lift, getitem.
    rewrite lookup_singleton_eq. unfold tensor_imul.
    by rewrite Hbad, Hint.
  - destruct scales as [|scale scales]; [cbn in Hs; lia |].
    destruct paddings as [|p paddings]; [cbn in Hp; lia |].
    apply Forall_cons in Hrefs as [(t & Hr & Hfloat) Hrefs].
    assert (Hne : r <> r_bad) by (intros ->; congruence).
    cbn [fmap list_fmap app rescale_targets zip zip_with foldl].
    rewrite (image_data.bind_run_Ok _ _ _ _ _
               (rescale_target_Ok _ scale p _ _ Hr Hfloat)).
    apply image_data.bind_run_Raise.
    apply IH; [| | done | cbn in Hs; lia | cbn in Hp; lia].
    + eapply Forall_impl; [exact Hrefs |].
      intros r' Hr'. by apply rescale_in_place_floating.
    + unfold rescale_in_place. cbn [fst]. by rewrite lookup_alter_ne.
Qed.

Lemma targets_with_boxes (samples : list (gmap string value))
    (targets : list value) :
  Forall2 (fun sample v => sample !! TARGET = Some v) samples targets ->
  Forall (fun sample =>
            exists d, sample !! TARGET = Some (VDict d) /\
                      is_Some (d !! "boxes")) samples ->
  Forall (fun target => exists d, target = VDict d /\ is_Some (d !! "boxes"))
         targets.
Proof.
  induction 1 as [|sample v samples targets Hv _ IH]; intros Hall;
    [constructor |].
  apply Forall_cons in Hall as [(d & Hd & Hboxes) Hall].
  constructor; [|by apply IH].
  rewrite Hd in Hv. injection Hv as <-. eauto.
Qed.

(** X21. What an exception inside the loop leaves behind. On a batch in
    which the targets of the first samples hold their boxes as floating
    point tensors and the boxes of the next sample are a tensor of
    integers, [fastface_collate_fn] raises the [RuntimeError] of the
    product in place on that tensor, whose dtype cannot hold the
    product with a floating point scale, and the tensors of the samples
    before it stay rescaled, in place, by their scales and paddings: the
    call has failed and has changed the boxes of a part of the batch. *)
Theorem fastface_collate_fn_partial_update
    (good rest : list (gmap string value)) (bad first : gmap string value)
    (st : store) (inputs : list value) (images : Batch) (scales : list R)
    (paddings : list padding) (refs : list loc) (r_bad : loc)
    (t_bad : tensor) :
  (good ++ bad :: rest) !! 0%nat = Some first ->
  (forall k sample,
     is_Some (first !! k) -> sample ∈ good ++ bad :: rest ->
     is_Some (sample !! k)) ->
  Forall2 (fun sample x => sample !! INPUT = Some x) (good ++ bad :: rest)
    inputs ->
  prepare_batch inputs = Ok (images, scales, paddings) ->
  is_Some (first !! TARGET) ->
  Forall2 (fun sample r => target_boxes_of sample = Some r) good refs ->
  Forall (floating st) refs ->
  target_boxes_of bad = Some r_bad ->
  st !! r_bad = Some t_bad ->
  is_floating_point (tensor_dtype t_bad) = false ->
  Forall (fun sample =>
            exists d', sample !! TARGET = Some (VDict d') /\
                       is_Some (d' !! "boxes")) rest ->
  (length good < length scales)%nat -> (length good < length paddings)%nat ->
  fastface_collate_fn (good ++ bad :: rest) st
  = (Raise (RuntimeError (cannot_cast (tensor_dtype t_bad))),
     foldl rescale_in_place st (zip refs (zip scales paddings))).
Proof.
  intros Hfirst Hkeys Hinputs Hprepare Htarget0 Hrefs Hst Hbad Hr_bad Hint
    Hrest Hscales Hpaddings.
  destruct (fastface_collate_fn_prepare _ _ _ st Hfirst Hkeys Hinputs)
    as (collated & -> & Hin & _).
  rewrite (image_data.bind_run_Ok _ _ st (images, scales, paddings) st)
    by (unfold lift; by rewrite Hprepare).
  destruct (Hin TARGET Htarget0) as (targets & Htarget & Htargets_all).
  apply Forall2_app_inv_l in Htargets_all
    as (targets1 & targets2 & Hgood & Hbad_rest & ->).
  apply Forall2_cons_inv_l in Hbad_rest
    as (target_bad & targets3 & Htarget_bad & Hrest' & ->).
  pose proof (targets_of_refs [bad] [target_bad] [r_bad]
                ltac:(by repeat constructor) ltac:(by repeat constructor))
    as Hbad_target.
  apply Forall2_cons_1 in Hbad_target as [(d & -> & Hd) _].
  destruct (rekey_targets_boxes _ (targets_with_boxes _ _ Hrest' Hrest))
    as [rekeyed3 Hrekey3].
  assert (Hrekey :
    rekey_targets (targets1 ++ VDict d :: targets3)
    = Ok ((rekeyed <$> refs) ++ rekeyed r_bad :: rekeyed3)).
  { apply rekey_targets_app.
    - exact (rekey_targets_Ok _ _ (targets_of_refs _ _ _ Hgood Hrefs)).
    - unfold rekey_targets in Hrekey3 |- *. cbn [mapM target_getitem].
      rewrite (getitem_Some _ _ _ Hd). cbn. rewrite Hrekey3. reflexivity. }
  unfold after_prepare_batch.
  rewrite bool_decide_eq_true_2
    by (rewrite elem_of_dom, !lookup_insert_ne, Htarget by done; by eexists).
  apply image_data.bind_run_Raise.
  rewrite (image_data.bind_run_Ok _ _ st
             (VList (targets1 ++ VDict d :: targets3)) st)
    by (unfold lift;
        by rewrite (getitem_Some _ TARGET
                      (VList (targets1 ++ VDict d :: targets3)))
          by (by rewrite !lookup_insert_ne)).
  rewrite (image_data.bind_run_Ok _ _ st
             (targets1 ++ VDict d :: targets3) st) by reflexivity.
  rewrite (image_data.bind_run_Ok _ _ st _ st)
    by (unfold lift; by rewrite Hrekey).
  apply image_data.bind_run_Raise.
  apply rescale_targets_partial; try done.
  - by rewrite <- (Forall2_length _ _ _ Hrefs).
  - by rewrite <- (Forall2_length _ _ _ Hrefs).
Qed.

(** *** [FaceDetectionOutputTransform.per_batch_transform] *)

(** A row of the (N, 6) tensor of predictions of the model: the box, the
    score, and in column 5 the index in the batch of the image the
    prediction is for. *)
Record prediction := Prediction {
  pred_x1 : R; pred_y1 : R; pred_x2 : R; pred_y2 : R; pred_score : R;
  pred_batch_idx : R;
}.

(** A row of an (N, 5) tensor: columns 0 to 4. *)
Record detection := Detection {
  det_x1 : R; det_y1 : R; det_x2 : R; det_y2 : R; det_score : R;
}.

(** The predictions fastface returns for a batch. *)
Variable Adjusted : Type.

(** The tensor element an integer compares with, and the comparison of
    two elements. *)
Variable R_of_nat : nat -> R.
Variable R_eqb : R -> R -> bool.

(** [ff.utils.preprocess.adjust_results(preds, scales, paddings)]. *)
Variable adjust_results :
  list (list detection) -> list R -> list padding -> Adjusted.

(** The values of the batch the output transform is given: the values of
    a collated batch, the tensor of predictions of the model, and the
    predictions fastface has adjusted. *)
Inductive output_value :=
| Collated (v : value)
| PredsTensor (preds : list prediction)
| AdjustedPreds (preds : Adjusted).

(** The batch is one dict object, read and written in place. *)
Abbreviation batch_state := (gmap string output_value).

Definition batch_getitem (key : string) : M batch_state output_value :=
  fun batch => (getitem batch key, batch).

(** [batch.pop(key, None)]. *)
Definition batch_pop (key : string) : M batch_state unit :=
  fun batch => (Ok tt, delete key batch).

Definition batch_setitem (key : string) (v : output_value)
    : M batch_state unit :=
  fun batch => (Ok tt, <[key := v]> batch).

(** [preds[:, :5]] on one row. *)
Definition first_five (p : prediction) : detection :=
  {| det_x1 := pred_x1 p; det_y1 := pred_y1 p; det_x2 := pred_x2 p;
     det_y2 := pred_y2 p; det_score := pred_score p |}.

(** The mask [preds[:, 5] == batch_idx] on one row. *)
Definition in_image (batch_idx : nat) (p : prediction) : bool :=
  R_eqb (pred_batch_idx p) (R_of_nat batch_idx).

(** [preds[preds[:, 5] == batch_idx, :5]]. *)
Definition preds_of_image (preds : list prediction) (batch_idx : nat)
    : list detection :=
  first_five <$> List.filter (in_image batch_idx) preds.

(** [[preds[preds[:, 5] == batch_idx, :5]
      for batch_idx in range(len(preds))]]: [len] of a tensor is the
    number of its rows. *)
Definition group_preds (preds : list prediction) : list (list detection) :=
  preds_of_image preds <$> seq 0 (length preds).

(** The indexing is defined on the tensor of predictions, and
    [adjust_results] on the scales and paddings of a collated batch. *)
Definition as_preds_tensor (v : output_value) : result (list prediction) :=
  match v with
  | PredsTensor preds => Ok preds
  | _ => Raise (TypeError "indices must be integers or slices, not tuple")
  end.

Definition call_adjust_results (preds : list (list detection))
    (scales paddings : output_value) : result Adjusted :=
  match scales, paddings with
  | Collated (VScales scales), Collated (VPaddings paddings) =>
      Ok (adjust_results preds scales paddings)
  | _, _ => Raise (TypeError "adjust_results")
  end.

(** [per_batch_transform(batch)]; it returns the batch it was given. *)
Definition per_batch_transform : M batch_state unit :=
  scales ← batch_getitem "scales";
  paddings ← batch_getitem "paddings";
  _ ← batch_pop "scales";
  _ ← batch_pop "paddings";
  preds ← batch_getitem PREDS;
  preds ← lift (as_preds_tensor preds);
  let preds := group_preds preds in
  preds ← lift (call_adjust_results preds scales paddings);
  batch_setitem PREDS (AdjustedPreds preds).


(** X16. What [per_batch_transform] leaves behind when it raises. A
    batch without scales, or with scales and without paddings, is rejected
    with a [KeyError] and is as it was. A batch with both and without
    predictions is rejected with a [KeyError] too, but only after the
    scales and the paddings have been removed from it. *)
Theorem per_batch_transform_raises (batch : batch_state) :
  (batch !! "scales" = None ->
   per_batch_transform batch = (Raise (KeyError "scales"), batch)) /\
  (is_Some (batch !! "scales") -> batch !! "paddings" = None ->
   per_batch_transform batch = (Raise (KeyError "paddings"), batch)) /\
  (is_Some (batch !! "scales") -> is_Some (batch !! "paddings") ->
   batch !! PREDS = None ->
   per_batch_transform batch
   = (Raise (KeyError PREDS), delete "paddings" (delete "scales" batch))).
Proof.
  unfold per_batch_transform, batch_getitem, batch_pop, batch_setitem.
  unfold mbind, M_bind, lift, getitem. split_and!.
  - by intros ->.
  - by intros [? ->] ->.
  - intros [? ->] [? ->] Hpreds.
    by rewrite !lookup_delete_ne, Hpreds.
Qed.

Lemma fastface_collate_fn_inv (samples : list (gmap string value))
    (st st' : store) (result : gmap string value) :
  fastface_collate_fn samples st = (Ok result, st') ->
  exists inputs images scales paddings,
    Forall2 (fun sample v => sample !! INPUT = Some v) samples inputs /\
    prepare_batch inputs = Ok (images, scales, paddings) /\
    result !! INPUT = Some (VBatch images) /\
    result !! "scales" = Some (VScales scales) /\
    result !! "paddings" = Some (VPaddings paddings).
Proof.
  intros Hrun. unfold fastface_collate_fn in Hrun.
  apply image_data.bind_Ok in Hrun as (first & st1 & H1 & Hrun).
  apply image_data.lift_Ok in H1 as [_ ->].
  apply image_data.bind_Ok in Hrun as (collated & st1 & H1 & Hrun).
  apply image_data.lift_Ok in H1 as [Hcollate ->].
  apply image_data.bind_Ok in Hrun as (inputs0 & st1 & H1 & Hrun).
  apply image_data.lift_Ok in H1 as [Hinputs0 ->].
  apply image_data.bind_Ok in Hrun as (inputs & st1 & H1 & Hrun).
  apply image_data.lift_Ok in H1 as [Hinputs ->].
  apply image_data.bind_Ok
    in Hrun as ([[images scales] paddings] & st1 & H1 & Hrun).
  apply image_data.lift_Ok in H1 as [Hprepare ->].
  apply image_data.bind_Ok in Hrun as (batch & st1 & Hbatch & Hrun).
  apply image_data.ret_Ok in Hrun as [-> ->].
  unfold getitem in Hinputs0.
  destruct (collated !! INPUT) as [v|] eqn:Hinput; [|discriminate].
  injection Hinputs0 as ->.
  destruct (collate_keys_inv _ _ _ Hcollate _ _ Hinput)
    as (values & -> & Hvalues).
  injection Hinputs as <-.
  exists values, images, scales, paddings.
  split_and!; [done | done | by rewrite lookup_insert_eq | |].
  - rewrite lookup_insert_ne by done.
    destruct (bool_decide _).
    + apply image_data.bind_Ok in Hbatch as (? & ? & H1 & Hbatch).
      apply image_data.lift_Ok in H1 as [_ ->].
      apply image_data.bind_Ok in Hbatch as (? & ? & H1 & Hbatch).
      apply image_data.lift_Ok in H1 as [_ ->].
      apply image_data.bind_Ok in Hbatch as (? & ? & H1 & Hbatch).
      apply image_data.lift_Ok in H1 as [_ ->].
      apply image_data.bind_Ok in Hbatch as (? & ? & _ & Hbatch).
      apply image_data.ret_Ok in Hbatch as [-> _].
      rewrite !lookup_insert_ne by done. by rewrite lookup_insert_eq.
    + apply image_data.ret_Ok in Hbatch as [-> _].
      rewrite lookup_insert_ne by done. by rewrite lookup_insert_eq.
  - rewrite lookup_insert_ne by done.
    destruct (bool_decide _).
    + apply image_data.bind_Ok in Hbatch as (? & ? & H1 & Hbatch).
      apply image_data.lift_Ok in H1 as [_ ->].
      apply image_data.bind_Ok in Hbatch as (? & ? & H1 & Hbatch).
      apply image_data.lift_Ok in H1 as [_ ->].
      apply image_data.bind_Ok in Hbatch as (? & ? & H1 & Hbatch).
      apply image_data.lift_Ok in H1 as [_ ->].
      apply image_data.bind_Ok in Hbatch as (? & ? & _ & Hbatch).
      apply image_data.ret_Ok in Hbatch as [-> _].
      rewrite lookup_insert_ne by done. by rewrite lookup_insert_eq.
    + apply image_data.ret_Ok in Hbatch as [-> _].
      by rewrite lookup_insert_eq.
Qed.

(** The keys of the batch a call returns. *)
Lemma fastface_collate_fn_keys (samples : list (gmap string value))
    (st st' : store) (result : gmap string value) :
  fastface_collate_fn samples st = (Ok result, st') ->
  exists first rest collated,
    samples = first :: rest /\
    collate_keys (map_to_list first).*1 samples = Ok collated /\
    is_Some (collated !! INPUT) /\
    forall k, is_Some (result !! k) <->
              is_Some (collated !! k) \/ k = "scales" \/ k = "paddings".
Proof.
  intros Hrun. unfold fastface_collate_fn in Hrun.
  apply image_data.bind_Ok in Hrun as (first & st1 & H1 & Hrun).
  apply image_data.lift_Ok in H1 as [Hfirst ->].
  destruct samples as [|first' rest]; [discriminate |].
  injection Hfirst as ->.
  apply image_data.bind_Ok in Hrun as (collated & st1 & H1 & Hrun).
  apply image_data.lift_Ok in H1 as [Hcollate ->].
  apply image_data.bind_Ok in Hrun as (inputs0 & st1 & H1 & Hrun).
  apply image_data.lift_Ok in H1 as [Hinputs0 ->].
  apply image_data.bind_Ok in Hrun as (inputs & st1 & H1 & Hrun).
  apply image_data.lift_Ok in H1 as [Hinputs ->].
  apply image_data.bind_Ok
    in Hrun as ([[images scales] paddings] & st1 & H1 & Hrun).
  apply image_data.lift_Ok in H1 as [Hprepare ->].
  apply image_data.bind_Ok in Hrun as (batch & st1 & Hbatch & Hrun).
  apply image_data.ret_Ok in Hrun as [-> ->].
  assert (Hinput : is_Some (collated !! INPUT)).
  { unfold getitem in Hinputs0. destruct (collated !! INPUT); [by eexists |].
    discriminate. }
  exists first, rest, collated. split_and!; [done | done | done |].
  intros k. rewrite lookup_insert_is_Some.
  assert (Hbatch_keys : is_Some (batch !! k) <->
            is_Some (collated !! k) \/ k = "scales" \/ k = "paddings").
  { destruct (bool_decide _) eqn:Htarget.
    - apply bool_decide_eq_true_1, elem_of_dom in Htarget.
      rewrite !lookup_insert_ne in Htarget by done.
      apply image_data.bind_Ok in Hbatch as (? & ? & H1 & Hbatch).
      apply image_data.lift_Ok in H1 as [_ ->].
      apply image_data.bind_Ok in Hbatch as (? & ? & H1 & Hbatch).
      apply image_data.lift_Ok in H1 as [_ ->].
      apply image_data.bind_Ok in Hbatch as (? & ? & H1 & Hbatch).
      apply image_data.lift_Ok in H1 as [_ ->].
      apply image_data.bind_Ok in Hbatch as (? & ? & _ & Hbatch).
      apply image_data.ret_Ok in Hbatch as [-> _].
      rewrite !lookup_insert_is_Some. split.
      + intros Hk. destruct Hk as [<- | [_ Hk]]; [auto |].
        destruct Hk as [<- | [_ Hk]]; [auto |].
        destruct Hk as [<- | [_ Hk]]; auto.
      + intros [Hk | [-> | ->]].
        * destruct (decide (TARGET = k)); [by left | right].
          split; [done |].
          destruct (decide ("paddings" = k)); [by left | right].
          split; [done |].
          destruct (decide ("scales" = k)); [by left | by right].
        * right. split; [done |]. right. split; [done |]. by left.
        * right. split; [done |]. by left.
    - apply image_data.ret_Ok in Hbatch as [-> _].
      rewrite !lookup_insert_is_Some. split.
      + intros Hk. destruct Hk as [<- | [_ Hk]]; [auto |].
        destruct Hk as [<- | [_ Hk]]; auto.
      + intros [Hk | [-> | ->]].
        * destruct (decide ("paddings" = k)); [by left | right].
          split; [done |].
          destruct (decide ("scales" = k)); [by left | by right].
        * right. split; [done |]. by left.
        * by left. }
  rewrite Hbatch_keys. split.
  - intros [<-|[_ Hk]]; [by left | done].
  - intros Hk. destruct (decide (INPUT = k)); [by left | by right].
Qed.

(** X22. What a collation that returns tells about the batch.
    [fastface_collate_fn] returns only for a batch that is not empty and
    in which every sample carries every key of the first sample, the
    input key among them; the keys of the mapping it returns are then the
    keys of the first sample together with ["scales"] and ["paddings"],
    and a key no sample but the first lacks never appears. *)
Theorem fastface_collate_fn_returns_only_if
    (samples : list (gmap string value)) (st st' : store)
    (result : gmap string value) :
  fastface_collate_fn samples st = (Ok result, st') ->
  exists first,
    samples !! 0%nat = Some first /\
    is_Some (first !! INPUT) /\
    (forall k sample,
       is_Some (first !! k) -> sample ∈ samples -> is_Some (sample !! k)) /\
    (forall k, is_Some (result !! k) <->
               is_Some (first !! k) \/ k = "scales" \/ k = "paddings").
Proof.
  intros Hrun.
  destruct (fastface_collate_fn_keys _ _ _ _ Hrun)
    as (first & rest & collated & -> & Hcollate & Hinput & Hkeys).
  pose proof (collate_keys_dom _ _ _ Hcollate) as Hdom.
  exists first. split_and!; [done | | |].
  - by apply elem_of_keys, Hdom.
  - intros k sample Hk Hsample.
    apply elem_of_keys, Hdom in Hk as [v Hv].
    destruct (collate_keys_inv _ _ _ Hcollate _ _ Hv) as (values & _ & Hall).
    apply list_elem_of_lookup in Hsample as [i Hi].
    destruct (Forall2_lookup_l _ _ _ _ _ Hall Hi) as (x & _ & Hx).
    by eexists.
  - intros k. by rewrite Hkeys, Hdom, elem_of_keys.
Qed.

(** X17. The output transform undoes the collation it follows. Whenever
    [fastface_collate_fn] has returned a batch, and the predictions of the
    model have been put into it, [per_batch_transform] finds the scales
    and the paddings it needs and hands to [adjust_results] exactly
    those that [prepare_batch] has computed for the inputs of the samples;
    the batch it leaves holds neither of the two entries. *)
Theorem per_batch_transform_after_collate
    (samples : list (gmap string value)) (st st' : store)
    (result : gmap string value) (preds : list prediction) :
  fastface_collate_fn samples st = (Ok result, st') ->
  exists inputs images scales paddings batch',
    Forall2 (fun sample v => sample !! INPUT = Some v) samples inputs /\
    prepare_batch inputs = Ok (images, scales, paddings) /\
    per_batch_transform (<[PREDS := PredsTensor preds]> (Collated <$> result))
    = (Ok tt, batch') /\
    batch' !! PREDS
    = Some (AdjustedPreds
              (adjust_results (group_preds preds) scales paddings)) /\
    batch' !! INPUT = Some (Collated (VBatch images)) /\
    batch' !! "scales" = None /\ batch' !! "paddings" = None.
Proof.
  intros Hrun.
  destruct (fastface_collate_fn_inv _ _ _ _ Hrun)
    as (inputs & images & scales & paddings & Hinputs & Hprepare & Hinput
        & Hscales & Hpaddings).
  exists inputs, images, scales, paddings,
    (<[PREDS := AdjustedPreds
                  (adjust_results (group_preds preds) scales paddings)]>
       (delete "paddings"
          (delete "scales"
             (<[PREDS := PredsTensor preds]> (Collated <$> result))))).
  split_and!; [done | done | | | | |].
  - unfold per_batch_transform, batch_getitem, batch_pop, batch_setitem.
    unfold mbind, M_bind, lift.
    rewrite (getitem_Some _ "scales" (Collated (VScales scales)))
      by (rewrite lookup_insert_ne, lookup_fmap, Hscales by done; done).
    rewrite (getitem_Some _ "paddings" (Collated (VPaddings paddings)))
      by (rewrite lookup_insert_ne, lookup_fmap, Hpaddings by done; done).
    rewrite (getitem_Some _ PREDS (PredsTensor preds))
      by (rewrite !lookup_delete_ne by done; by rewrite lookup_insert_eq).
    reflexivity.
  - by rewrite lookup_insert_eq.
  - rewrite lookup_insert_ne, !lookup_delete_ne, lookup_insert_ne by done.
    by rewrite lookup_fmap, Hinput.
  - rewrite lookup_insert_ne, lookup_delete_ne by done.
    by rewrite lookup_delete_eq.
  - rewrite lookup_insert_ne by done. by rewrite lookup_delete_eq.
Qed.

(** *** [FastFaceInput.load_data] *)

(** The integer [1], the label of a positive sample. *)
Variable int_1 : Object.

(** [DatasetInput.load_sample] of flash.core.data.io.input, which
    [load_data] calls through [super()] on the pair of a file path and a
    target; the sample it makes of them. *)
Variable Sample : Type.
Variable DatasetInput_load_sample : value -> value -> Sample.

(** [t.shape[0]]: the number of rows of a tensor of boxes. *)
Definition shape_0 (st : store) (t : value) : result nat :=
  match t with
  | VTensor r =>
      match st !! r with
      | Some boxes => Ok (length (tensor_boxes boxes))
      | None => Raise (AttributeError "shape")
      end
  | _ => Raise (AttributeError "shape")
  end.

(** The sample made of one file path and its targets. *)
Definition load_data_sample (st : store) (img_file_path targets : value)
    : result Sample :=
  boxes ← target_getitem targets "target_boxes";
  target_boxes ← target_getitem targets "target_boxes";
  n ← shape_0 st target_boxes;
  let labels := VList (replicate n (VObject int_1)) in
  Ok (DatasetInput_load_sample img_file_path
        (VDict (<["labels" := labels]> {[ "boxes" := boxes ]}))).

(** [load_data]: the loop over [zip(data.ids, data.targets)]. *)
Fixpoint load_data (st : store) (ids targets : list value)
    : result (list Sample) :=
  match ids, targets with
  | img_file_path :: ids, target :: targets =>
      sample ← load_data_sample st img_file_path target;
      new_data ← load_data st ids targets;
      Ok (sample :: new_data)
  | _, _ => Ok []
  end.

(** The tensor of boxes a target of the data set holds. *)
Definition dataset_boxes (st : store) (target : value) (r : loc) : Prop :=
  exists d, target = VDict d /\ d !! "target_boxes" = Some (VTensor r) /\
            is_Some (st !! r).

(** X18. [load_data] pairs the file paths with the targets by position
    and stops with the shorter of the two: it returns as many samples as
    the shorter sequence has elements, and what the longer one has beyond
    that is left out without an exception. Sample [i] is made of path [i]
    and a target that holds under ["boxes"] the very tensor of the data
    set (the same object, not a copy) and under ["labels"] a list with
    one [1] for each row of that tensor. *)
Theorem load_data_zip (st : store) (ids targets : list value)
    (refs : list loc) :
  Forall2 (dataset_boxes st) (take (length ids) targets) refs ->
  exists new_data,
    load_data st ids targets = Ok new_data /\
    length new_data = (length ids `min` length targets)%nat /\
    forall i img_file_path r boxes,
      ids !! i = Some img_file_path -> refs !! i = Some r ->
      st !! r = Some boxes ->
      new_data !! i
      = Some (DatasetInput_load_sample img_file_path
                (VDict (<["labels" :=
                            VList (replicate (length (tensor_boxes boxes))
                                     (VObject int_1))]>
                          {[ "boxes" := VTensor r ]}))).
Proof.
  revert targets refs.
  induction ids as [|img_file_path ids IH]; intros targets refs Hall.
  - exists []. split_and!; [by destruct targets | done |].
    intros i ? ? ? Hi. discriminate.
  - destruct targets as [|target targets].
    + exists []. split_and!; [done | done |].
      inversion Hall; subst. intros i ? ? ? _ Hr. discriminate.
    + cbn [length take] in Hall.
      inversion Hall as [|? r0 ? refs' (d & -> & Hd & (boxes0 & Hr0)) Hall'];
        subst.
      destruct (IH _ _ Hall') as (new_data & Hrun & Hlen & Hsamples).
      eexists. split_and!.
      * cbn [load_data]. unfold load_data_sample. cbn [target_getitem].
        rewrite (getitem_Some _ _ _ Hd). cbn [mbind result_bind shape_0].
        rewrite Hr0. cbn [mbind result_bind]. rewrite Hrun. reflexivity.
      * cbn [length]. rewrite Hlen. lia.
      * intros [|i] path r boxes Hi Hr Hst; cbn in Hi, Hr |- *.
        -- injection Hi as <-. injection Hr as <-.
           rewrite Hr0 in Hst. by injection Hst as <-.
        -- by eapply Hsamples.
Qed.

End fastface_collate.

(** *** A batch of two samples

    Elements are integers; an image is an opaque object and the batch
    fastface prepares is represented by the number of its images; a
    value that is not an image cannot be prepared. An opaque object
    under ["boxes"] is a number: its product with a scale is a number,
    which has no columns to index. *)

Definition is_image (v : value Z Z Z) : bool :=
  match v with
  | VObject _ _ _ _ => true
  | _ => false
  end.

Definition prepare_two (imgs : list (value Z Z Z))
    : result (Z * list Z * list (padding Z)) :=
  if forallb is_image imgs then
    Ok (Z.of_nat (length imgs), [2; 3],
        [Padding Z 10 20 0 0; Padding Z 100 200 0 0])
  else Raise (AttributeError "size").

Definition number_imul (v : value Z Z Z) (scale : Z) : result (value Z Z Z) :=
  match v with
  | VObject _ _ _ n => Ok (VObject Z Z Z (n * scale))
  | _ => Raise (TypeError "unsupported operand type(s) for *=")
  end.

Definition number_iadd_columns (v : value Z Z Z) (cols : list nat) (p : Z)
    : result unit :=
  Raise (IndexError "too many indices for tensor of dimension 0").

Definition collate
    : list (gmap string (value Z Z Z)) ->
      M (gmap loc (tensor Z)) (gmap string (value Z Z Z)) :=
  fastface_collate_fn Z Z Z Z.mul Z.add prepare_two number_imul
    number_iadd_columns.

Definition sample_a : gmap string (value Z Z Z) :=
  <[INPUT := VObject Z Z Z 7]>
    {[ TARGET := VDict Z Z Z (<["boxes" := VTensor Z Z Z 1%positive]>
                                {[ "labels" := VObject Z Z Z 0 ]}) ]}.

Definition sample_b : gmap string (value Z Z Z) :=
  <[INPUT := VObject Z Z Z 8]>
    {[ TARGET := VDict Z Z Z {[ "boxes" := VTensor Z Z Z 2%positive ]} ]}.

(** Two tensors of floating point boxes and one of integers. *)
Definition boxes_store : gmap loc (tensor Z) :=
  <[1%positive := Tensor Z float32 [Box Z 1 2 3 4]]>
    (<[2%positive := Tensor Z float32 [Box Z 5 6 7 8; Box Z 1 1 1 1]]>
       {[ 3%positive := Tensor Z int64 [Box Z 1 2 3 4] ]}).

Example fastface_collate_fn_two :
  (collate [sample_a; sample_b] boxes_store).2
  = <[1%positive := Tensor Z float32 [Box Z 12 24 16 28]]>
      (<[2%positive :=
           Tensor Z float32 [Box Z 115 218 121 224; Box Z 103 203 103 203]]>
         {[ 3%positive := Tensor Z int64 [Box Z 1 2 3 4] ]}).
Proof. vm_compute. reflexivity. Qed.

(** The same tensor in two samples is rescaled twice. *)
Example fastface_collate_fn_shared_tensor :
  (collate [sample_a; sample_a] boxes_store).2 !! 1%positive
  = Some (Tensor Z float32 [Box Z 136 272 148 284]).
Proof. vm_compute. reflexivity. Qed.

(** A sample whose boxes are a number, one whose boxes are the tensor of
    integers, one whose target has no boxes, and one whose input is not
    an image. *)
Definition sample_c : gmap string (value Z Z Z) :=
  <[INPUT := VObject Z Z Z 8]>
    {[ TARGET := VDict Z Z Z {[ "boxes" := VObject Z Z Z 0 ]} ]}.

Definition sample_d : gmap string (value Z Z Z) :=
  <[INPUT := VObject Z Z Z 8]>
    {[ TARGET := VDict Z Z Z {[ "boxes" := VTensor Z Z Z 3%positive ]} ]}.


Definition sample_f : gmap string (value Z Z Z) :=
  <[INPUT := VList Z Z Z []]>
    {[ TARGET := VDict Z Z Z {[ "boxes" := VTensor Z Z Z 2%positive ]} ]}.

(** C8, as stated, fails on non-empty batches. A batch whose second
    sample lacks a key of the first is rejected with a [KeyError], and so
    is a batch whose sample has no input key; a batch with an input
    fastface cannot prepare is rejected with the exception of fastface.
    With the target key present, boxes that are a tensor of integers are
    rejected with a [RuntimeError] by the product in place, and boxes that
    are a number with an [IndexError] after the product. And the call
    returns for two samples that share their tensor, whose boxes are then
    rescaled twice, and not by the scale and padding of either sample. *)
Lemma fastface_collate_fn_missing_key :
  ([sample_a; delete TARGET sample_b] <> [] /\
   collate [sample_a; delete TARGET sample_b] boxes_store
   = (Raise (KeyError TARGET), boxes_store)) /\
  collate [delete INPUT sample_a] boxes_store
  = (Raise (KeyError INPUT), boxes_store) /\
  collate [sample_a; sample_f] boxes_store
  = (Raise (AttributeError "size"), boxes_store) /\
  (collate [sample_d] boxes_store
   = (Raise (RuntimeError
        "result type Float can't be cast to the desired output type Long"),
      boxes_store)) /\
  (collate [sample_c] boxes_store
   = (Raise (IndexError "too many indices for tensor of dimension 0"),
      boxes_store)) /\
  (exists result st',
     collate [sample_a; sample_a] boxes_store = (Ok result, st') /\
     st' !! 1%positive = Some (Tensor Z float32 [Box Z 136 272 148 284]) /\
     rescale Z Z.mul Z.add 2 (Padding Z 10 20 0 0) (Box Z 1 2 3 4)
     = Box Z 12 24 16 28 /\
     rescale Z Z.mul Z.add 3 (Padding Z 100 200 0 0) (Box Z 1 2 3 4)
     = Box Z 103 206 109 212).
Proof.
  split_and!; try (vm_compute; reflexivity); [discriminate |].
  eexists _, _. split_and!; vm_compute; reflexivity.
Qed.

Lemma fastface_collate_fn_batch_witness :
  exists result st',
    collate [sample_a; sample_b] boxes_store = (Ok result, st') /\
    (forall k, is_Some (sample_a !! k) ->
       k <> INPUT -> k <> TARGET -> k <> "scales" -> k <> "paddings" ->
       exists values,
         result !! k = Some (VList Z Z Z values) /\
         Forall2 (fun sample v => sample !! k = Some v)
           [sample_a; sample_b] values) /\
    result !! INPUT = Some (VBatch Z Z Z 2) /\
    result !! "scales" = Some (VScales Z Z Z [2; 3]) /\
    result !! "paddings"
    = Some (VPaddings Z Z Z [Padding Z 10 20 0 0; Padding Z 100 200 0 0]) /\
    (sample_a !! TARGET = None -> result !! TARGET = None /\ st' = boxes_store)
    /\
    (is_Some (sample_a !! TARGET) ->
     exists refs,
       Forall2 (fun sample r => target_boxes_of Z Z Z sample = Some r)
         [sample_a; sample_b] refs /\
       result !! TARGET
       = Some (VList Z Z Z
                 ((fun r => VDict Z Z Z {[ "target_boxes" := VTensor Z Z Z r ]})
                  <$> refs)) /\
       st' = foldl (rescale_in_place Z Z.mul Z.add) boxes_store
               (zip refs (zip [2; 3]
                            [Padding Z 10 20 0 0; Padding Z 100 200 0 0])) /\
       (NoDup refs ->
        forall i r t scale p,
          refs !! i = Some r -> boxes_store !! r = Some t ->
          [2; 3] !! i = Some scale ->
          [Padding Z 10 20 0 0; Padding Z 100 200 0 0] !! i = Some p ->
          st' !! r
          = Some {| tensor_dtype := tensor_dtype Z t;
                    tensor_boxes :=
                      rescale Z Z.mul Z.add scale p <$> tensor_boxes Z t |})).
Proof.
  apply (fastface_collate_fn_batch Z Z Z Z.mul Z.add prepare_two number_imul
           number_iadd_columns [sample_a; sample_b] sample_a boxes_store
           [VObject Z Z Z 7; VObject Z Z Z 8] 2 [2; 3]
           [Padding Z 10 20 0 0; Padding Z 100 200 0 0]).
  - reflexivity.
  - intros k sample Hk Hsample.
    assert (Hdom : dom sample_a = dom sample_b) by (vm_compute; reflexivity).
    apply elem_of_dom in Hk.
    apply elem_of_cons in Hsample as [->|Hsample]; [by apply elem_of_dom |].
    apply list_elem_of_singleton in Hsample as ->.
    apply elem_of_dom. by rewrite <- Hdom.
  - repeat constructor.
  - reflexivity.
  - intros _. repeat constructor; eexists;
      (split; [vm_compute; reflexivity |]);
      eexists; split; vm_compute; reflexivity.
Defined.

(** The same sample twice: its tensor is rescaled once by the scale and
    padding of each position. *)
Lemma fastface_collate_fn_shared_tensors_witness :
  exists result st',
    collate [sample_a; sample_a] boxes_store = (Ok result, st') /\
    (forall r t, boxes_store !! r = Some t ->
       st' !! r
       = Some (rescale_all Z Z.mul Z.add t
                 (rescalings_of Z r [1%positive; 1%positive] [2; 3]
                    [Padding Z 10 20 0 0; Padding Z 100 200 0 0]))) /\
    (forall r, r ∉ [1%positive; 1%positive] -> st' !! r = boxes_store !! r).
Proof.
  apply (fastface_collate_fn_shared_tensors Z Z Z Z.mul Z.add prepare_two
           number_imul number_iadd_columns
           [sample_a; sample_a] sample_a boxes_store
           [VObject Z Z Z 7; VObject Z Z Z 7] 2 [2; 3]
           [Padding Z 10 20 0 0; Padding Z 100 200 0 0]
           [1%positive; 1%positive]).
  - reflexivity.
  - intros k sample Hk Hsample.
    apply elem_of_cons in Hsample as [->|Hsample]; [done |].
    by apply list_elem_of_singleton in Hsample as ->.
  - repeat constructor.
  - reflexivity.
  - eexists. vm_compute. reflexivity.
  - repeat constructor.
  - repeat constructor; eexists; split; vm_compute; reflexivity.
Defined.


(** A second sample whose boxes are the tensor of integers: the call
    raises, and the boxes of the first sample have been rescaled. *)
Lemma fastface_collate_fn_partial_update_witness :
  collate [sample_a; sample_d] boxes_store
  = (Raise (RuntimeError
       "result type Float can't be cast to the desired output type Long"),
     foldl (rescale_in_place Z Z.mul Z.add) boxes_store
       (zip [1%positive]
          (zip [2; 3] [Padding Z 10 20 0 0; Padding Z 100 200 0 0]))) /\
  foldl (rescale_in_place Z Z.mul Z.add) boxes_store
    (zip [1%positive]
       (zip [2; 3] [Padding Z 10 20 0 0; Padding Z 100 200 0 0]))
    !! 1%positive
  = Some (Tensor Z float32 [Box Z 12 24 16 28]).
Proof.
  split; [|vm_compute; reflexivity].
  apply (fastface_collate_fn_partial_update Z Z Z Z.mul Z.add prepare_two
           number_imul number_iadd_columns
           [sample_a] [] sample_d sample_a boxes_store
           [VObject Z Z Z 7; VObject Z Z Z 8] 2 [2; 3]
           [Padding Z 10 20 0 0; Padding Z 100 200 0 0] [1%positive]
           3%positive (Tensor Z int64 [Box Z 1 2 3 4])).
  - reflexivity.
  - intros k sample Hk Hsample.
    assert (Hdom : dom sample_a = dom sample_d) by (vm_compute; reflexivity).
    apply elem_of_dom in Hk.
    apply elem_of_cons in Hsample as [->|Hsample]; [by apply elem_of_dom |].
    apply list_elem_of_singleton in Hsample as ->.
    apply elem_of_dom. by rewrite <- Hdom.
  - repeat constructor.
  - reflexivity.
  - eexists. vm_compute. reflexivity.
  - repeat constructor.
  - repeat constructor; eexists; split; vm_compute; reflexivity.
  - vm_compute. reflexivity.
  - vm_compute. reflexivity.
  - reflexivity.
  - constructor.
  - cbn. lia.
  - cbn. lia.
Defined.

(** Two predictions, for the images 0 and 5 of a batch: the adjusted
    predictions are represented by the groups they are made of. *)
Definition two_preds : list (prediction Z) :=
  [Prediction Z 1 2 3 4 90 0; Prediction Z 5 6 7 8 80 5].

Definition keep_groups (groups : list (list (detection Z))) (scales : list Z)
    (paddings : list (padding Z)) : list (list (detection Z)) :=
  groups.

Definition batch_two
    : gmap string (output_value Z Z Z (list (list (detection Z)))) :=
  <["scales" := Collated Z Z Z _ (VScales Z Z Z [2; 3])]>
    (<["paddings" :=
         Collated Z Z Z _
           (VPaddings Z Z Z [Padding Z 10 20 0 0; Padding Z 100 200 0 0])]>
       {[ PREDS := PredsTensor Z Z Z _ two_preds ]}).


(** The prediction for image 5 is in neither of the two groups. *)
Example per_batch_transform_two :
  (per_batch_transform Z Z Z _ Z.of_nat Z.eqb keep_groups batch_two).2
  = {[ PREDS := AdjustedPreds Z Z Z _ [[Detection Z 1 2 3 4 90]; []] ]}.
Proof. vm_compute. reflexivity. Qed.

(** The batch [fastface_collate_fn] makes of the two samples. *)
Definition collated_two : gmap string (value Z Z Z) :=
  match (collate [sample_a; sample_b] boxes_store).1 with
  | Ok result => result
  | Raise _ => ∅
  end.

Lemma per_batch_transform_after_collate_witness :
  exists inputs images scales paddings batch',
    Forall2 (fun sample v => sample !! INPUT = Some v) [sample_a; sample_b]
      inputs /\
    prepare_two inputs = Ok (images, scales, paddings) /\
    per_batch_transform Z Z Z _ Z.of_nat Z.eqb keep_groups
      (<[PREDS := PredsTensor Z Z Z _ two_preds]>
         (Collated Z Z Z _ <$> collated_two))
    = (Ok tt, batch') /\
    batch' !! PREDS
    = Some (AdjustedPreds Z Z Z _
              (keep_groups (group_preds Z Z.of_nat Z.eqb two_preds)
                 scales paddings)) /\
    batch' !! INPUT = Some (Collated Z Z Z _ (VBatch Z Z Z images)) /\
    batch' !! "scales" = None /\ batch' !! "paddings" = None.
Proof.
  refine (per_batch_transform_after_collate Z Z Z Z.mul Z.add prepare_two
            number_imul number_iadd_columns _
            Z.of_nat Z.eqb keep_groups [sample_a; sample_b] boxes_store
            (collate [sample_a; sample_b] boxes_store).2
            collated_two two_preds _).
  vm_compute. reflexivity.
Defined.

Lemma fastface_collate_fn_returns_only_if_witness :
  exists first,
    [sample_a; sample_b] !! 0%nat = Some first /\
    is_Some (first !! INPUT) /\
    (forall k sample,
       is_Some (first !! k) -> sample ∈ [sample_a; sample_b] ->
       is_Some (sample !! k)) /\
    (forall k, is_Some (collated_two !! k) <->
               is_Some (first !! k) \/ k = "scales" \/ k = "paddings").
Proof.
  refine (fastface_collate_fn_returns_only_if Z Z Z Z.mul Z.add prepare_two
            number_imul number_iadd_columns
            [sample_a; sample_b] boxes_store
            (collate [sample_a; sample_b] boxes_store).2
            collated_two _).
  vm_compute. reflexivity.
Defined.

(** A data set of three file paths and two targets; a sample is
    represented by the pair it is made of. *)
Definition fddb_ids : list (value Z Z Z) :=
  [VObject Z Z Z 7; VObject Z Z Z 8; VObject Z Z Z 9].

Definition fddb_targets : list (value Z Z Z) :=
  [VDict Z Z Z {[ "target_boxes" := VTensor Z Z Z 1%positive ]};
   VDict Z Z Z {[ "target_boxes" := VTensor Z Z Z 2%positive ]}].

Lemma load_data_zip_witness :
  exists new_data,
    load_data Z Z Z 1 _ pair boxes_store fddb_ids fddb_targets = Ok new_data /\
    length new_data = 2%nat /\
    forall i img_file_path r boxes,
      fddb_ids !! i = Some img_file_path ->
      [1%positive; 2%positive] !! i = Some r ->
      boxes_store !! r = Some boxes ->
      new_data !! i
      = Some (img_file_path,
              VDict Z Z Z
                (<["labels" :=
                     VList Z Z Z (replicate (length (tensor_boxes Z boxes))
                                    (VObject Z Z Z 1))]>
                   {[ "boxes" := VTensor Z Z Z r ]})).
Proof.
  apply (load_data_zip Z Z Z 1 _ pair boxes_store fddb_ids fddb_targets
           [1%positive; 2%positive]).
  repeat constructor; eexists; (split_and!; [reflexivity | | eexists]);
    vm_compute; reflexivity.
Defined.

(** *** [FaceDetectionInputTransform] and its state dict *)

Section face_detection_transform.

(** Library types: a callable transform, an opaque Python object. *)
Variables Callable Object : Type.

(** The values a constructor call is given: None, a mapping of
    transforms, a pair of integers, any other object. *)
Inductive argument :=
| ArgNone
| ArgTransforms (d : gmap string Callable)
| ArgPair (h w : Z)
| ArgObject (o : Object).

(** The members of [InputFormat] the constructor names. *)
Inductive InputFormat := FILES | FOLDERS | DATASETS.

(** The attributes of a transform object. *)
Abbreviation self_state := (gmap string argument).

(** [InputTransform.__init__] of flash.core.data.io.input_transform, on
    the attributes of the object under construction, and the property
    [transforms] of that class. *)
Variable InputTransform___init__ :
  argument -> argument -> argument -> argument ->
  list (InputFormat * image_data.image_input) -> InputFormat ->
  M self_state unit.
Variable InputTransform_transforms : self_state -> gmap string argument.

(** [FaceDetectionInputTransform.__init__]. *)
Definition FaceDetectionInputTransform___init__
    (train_transform val_transform test_transform predict_transform
       image_size : argument) : M self_state unit :=
  _ ← (fun self => (Ok tt, <["image_size" := image_size]> self));
  InputTransform___init__ train_transform val_transform test_transform
    predict_transform
    [(FILES, image_data.ImagePathsInput);
     (FOLDERS, image_data.ImagePathsInput);
     (DATASETS, image_data.FastFaceInput)]
    FILES.

(** The parameters of [__init__] after [self]. *)
Definition init_parameters : list string :=
  ["train_transform"; "val_transform"; "test_transform"; "predict_transform";
   "image_size"].

(** A call of [FaceDetectionInputTransform] with keyword arguments, as
    [cls] applied to an unpacked state dict is: a keyword that is no
    parameter is a [TypeError]; a parameter without a keyword takes its
    default, None for the transforms and [(128, 128)] for the image size.
    The object is the attributes [__init__] has set. *)
Definition FaceDetectionInputTransform (kwargs : gmap string argument)
    : result self_state :=
  if bool_decide (dom kwargs ⊆ list_to_set init_parameters) then
    match
      FaceDetectionInputTransform___init__
        (default ArgNone (kwargs !! "train_transform"))
        (default ArgNone (kwargs !! "val_transform"))
        (default ArgNone (kwargs !! "test_transform"))
        (default ArgNone (kwargs !! "predict_transform"))
        (default (ArgPair 128 128) (kwargs !! "image_size")) ∅
    with
    | (Ok _, self) => Ok self
    | (Raise e, _) => Raise e
    end
  else Raise (TypeError "__init__() got an unexpected keyword argument").

(** [get_state_dict]: a copy of [self.transforms]. *)
Definition get_state_dict (self : self_state) : gmap string argument :=
  InputTransform_transforms self.

(** [load_state_dict(state_dict, strict)]. *)
Definition load_state_dict (state_dict : gmap string argument)
    (strict : bool) : result self_state :=
  FaceDetectionInputTransform state_dict.

(** X19. The state dict of a face detection transform does not keep the
    image size. When [self.transforms] holds transforms only (no
    ["image_size"] entry), restoring a transform from the state dict of
    an object is the constructor call with the saved transforms and the
    default image size [(128, 128)], whatever the image size of the
    object was: [__init__] then starts by setting [image_size] to
    [(128, 128)]. *)
Theorem load_state_dict_default_image_size (self : self_state)
    (strict : bool) :
  InputTransform_transforms self !! "image_size" = None ->
  load_state_dict (get_state_dict self) strict
  = FaceDetectionInputTransform
      (<["image_size" := ArgPair 128 128]> (InputTransform_transforms self)) /\
  (dom (InputTransform_transforms self) ⊆ list_to_set init_parameters ->
   load_state_dict (get_state_dict self) strict
   = match
       InputTransform___init__
         (default ArgNone (InputTransform_transforms self !! "train_transform"))
         (default ArgNone (InputTransform_transforms self !! "val_transform"))
         (default ArgNone (InputTransform_transforms self !! "test_transform"))
         (default ArgNone
            (InputTransform_transforms self !! "predict_transform"))
         [(FILES, image_data.ImagePathsInput);
          (FOLDERS, image_data.ImagePathsInput);
          (DATASETS, image_data.FastFaceInput)]
         FILES {[ "image_size" := ArgPair 128 128 ]}
     with
     | (Ok _, new) => Ok new
     | (Raise e, _) => Raise e
     end).
Proof.
  intros Hsize. unfold load_state_dict, get_state_dict.
  set (transforms := InputTransform_transforms self) in *.
  assert (Hdom : dom (<["image_size" := ArgPair 128 128]> transforms)
                   ⊆ (list_to_set init_parameters : gset string)
                 <-> dom transforms ⊆ list_to_set init_parameters).
  { rewrite dom_insert. split.
    - intros Hsub k Hk. apply Hsub, elem_of_union. by right.
    - intros Hsub k [Hk%elem_of_singleton|Hk]%elem_of_union; [|by apply Hsub].
      subst k. unfold init_parameters. rewrite elem_of_list_to_set.
      apply list_elem_of_In. cbn. auto 10. }
  split.
  - unfold FaceDetectionInputTransform.
    rewrite (bool_decide_ext _ _ Hdom).
    rewrite !lookup_insert_ne by done. rewrite lookup_insert_eq, Hsize.
    reflexivity.
  - intros Hsub. unfold FaceDetectionInputTransform.
    rewrite bool_decide_eq_true_2 by done. rewrite Hsize.
    unfold FaceDetectionInputTransform___init__, mbind, M_bind.
    by rewrite insert_empty.
Qed.

End face_detection_transform.

(** A base class that sets nothing and whose transforms are the training
    transform alone; an object with images of 512 by 512. *)
Definition no_transforms (self : gmap string (argument unit unit))
    : gmap string (argument unit unit) :=
  {[ "train_transform" := ArgNone unit unit ]}.

Lemma load_state_dict_default_image_size_witness :
  load_state_dict unit unit (fun _ _ _ _ _ _ => mret tt)
    (get_state_dict unit unit no_transforms
       {[ "image_size" := ArgPair unit unit 512 512 ]}) false
  = Ok {[ "image_size" := ArgPair unit unit 128 128 ]}.
Proof.
  refine (eq_trans
            (proj2 (load_state_dict_default_image_size unit unit
                      (fun _ _ _ _ _ _ => mret tt) no_transforms
                      {[ "image_size" := ArgPair unit unit 512 512 ]} false
                      eq_refl) _) _).
  - apply (bool_decide_unpack _). vm_compute. exact I.
  - reflexivity.
Defined.

End face_detection_data.

(** ** flash/image/keypoint_detection/cli.py and
    flash/text/question_answering/cli.py *)

Module cli.

(** The values of command-line and keyword arguments. A float is kept as
    its literal. *)
Inductive value :=
| VNone
| VInt (n : Z)
| VFloat (literal : string)
| VStr (s : string)
| VTuple (a b : value)
| VBool (b : bool).

(** The declared parameters of a function, each with its default, and the
    name of its [**kwargs] parameter when it has one. *)
Record signature := {
  parameters : list (string * value);
  var_keyword : option string;
}.

(** The function has a parameter of that name. *)
Definition has_parameter (sig : signature) (name : string) : bool :=
  bool_decide (name ∈ (parameters sig).*1).

(** A call of [f] with keyword arguments: each parameter takes the keyword argument of its
    name or its default, and the other keyword arguments go to the
    [**kwargs] parameter; without one they are a [TypeError]. *)
Definition bind_arguments (sig : signature) (kwargs : gmap string value)
    : result (list value * gmap string value) :=
  let named :=
    (fun p : string * value => default p.2 (kwargs !! p.1))
      <$> parameters sig in
  let extra :=
    filter (fun kv : string * value => kv.1 ∉ (parameters sig).*1) kwargs in
  match var_keyword sig with
  | Some _ => Ok (named, extra)
  | None =>
      if bool_decide (extra = ∅) then Ok (named, extra)
      else Raise (TypeError "got an unexpected keyword argument")
  end.

Inductive flash_class :=
| KeypointDetector
| KeypointDetectionData
| QuestionAnsweringTask
| QuestionAnsweringData.

(** A data module, by the class method that made it and the keyword
    arguments it was called with. *)
Record datamodule := {
  datamodule_class : flash_class;
  datamodule_method : string;
  datamodule_kwargs : gmap string value;
}.

(** The calls of a run to the outside world: the download of an archive
    from a URL into a directory, the construction of a data module and
    of a task, the training, and the saving of a checkpoint. The trace of
    a run holds, in order, the calls that have returned. *)
Inductive event :=
| Download (url path : string)
| DataModuleConstructed (dm : datamodule)
| TaskConstructed (cls : flash_class) (arguments : gmap string value)
| TrainerFit (task : flash_class) (dm : datamodule)
| SaveCheckpoint (path : string).

Abbreviation trace := (list event).

(** A call [f(k1=v1, ..., kn=vn, **kwargs)]: the keyword arguments of
    the call are those written out together with those of the mapping. A
    keyword that comes twice is a [TypeError], raised when the arguments
    are put together, before [f] is entered. *)
Definition keyword_arguments (explicit : list (string * value))
    (kwargs : gmap string value) : result (gmap string value) :=
  if existsb (fun kv : string * value => bool_decide (is_Some (kwargs !! kv.1)))
       explicit
  then Raise (TypeError "got multiple values for keyword argument")
  else Ok (foldr (fun (kv : string * value) m => <[kv.1 := kv.2]> m)
             kwargs explicit).

Section cli.

(** Which optional dependencies are installed. *)
Variable module_available : string -> bool.
Variable _ICEDATA_AVAILABLE : bool.

(** The archive of the BIWI data set [icedata.biwi.load_data()]
    downloads, the directory it downloads it into and returns, and the
    parser [icedata.biwi.parser]. *)
Variables icedata_biwi_url icedata_biwi_dir : string.
Variable icedata_biwi_parser : value.

(** The outside world: a call to it returns, or it raises the exception
    given here (no network, a file that cannot be written, a training
    that fails). *)
Variable raises : event -> option exn.

Definition call (e : event) : M trace unit := fun t =>
  match raises e with
  | None => (Ok tt, t ++ [e])
  | Some exn => (Raise exn, t)
  end.

(** Modelled from the spec: the decorator [requires] of
    flash.core.utilities.imports is not among the sources; see
    [image_data.requires]. *)
Definition requires {A B} (module_path : string) (func : A -> M trace B)
    : A -> M trace B :=
  fun a =>
    if module_available module_path then func a
    else raise (ModuleNotFoundError module_path).

(** [download_data(url, path)] of flash.core.data.utils. *)
Definition download_data (url path : string) : M trace unit :=
  call (Download url path).

(** The name [icedata] is bound by the import under
    [if _ICEDATA_AVAILABLE:]. *)
Definition name_icedata : result unit :=
  if _ICEDATA_AVAILABLE then Ok tt else Raise (NameError "icedata").

(** [icedata.biwi.load_data()]: it downloads the data set and returns the
    directory that holds it. *)
Definition icedata_biwi_load_data : M trace value :=
  _ ← lift name_icedata;
  _ ← call (Download icedata_biwi_url icedata_biwi_dir);
  mret (VStr icedata_biwi_dir).

(** A class method that builds a data module from keyword arguments. *)
Definition build_datamodule (cls : flash_class) (method : string)
    (kwargs : gmap string value) : M trace datamodule :=
  let dm := {| datamodule_class := cls; datamodule_method := method;
               datamodule_kwargs := kwargs |} in
  _ ← call (DataModuleConstructed dm); mret dm.

(** [def from_biwi(val_split=0.1, image_size=(128, 128), parser=None,
    **data_module_kwargs)]. *)
Definition from_biwi_signature : signature :=
  {| parameters :=
       [("val_split", VFloat "0.1");
        ("image_size", VTuple (VInt 128) (VInt 128));
        ("parser", VNone)];
     var_keyword := Some "data_module_kwargs" |}.

(** [if parser is None: parser = icedata.biwi.parser]. *)
Definition parser_or_default (parser : value) : M trace value :=
  match parser with
  | VNone => _ ← lift name_icedata; mret icedata_biwi_parser
  | _ => mret parser
  end.

Definition from_biwi_body (val_split image_size parser : value)
    (data_module_kwargs : gmap string value) : M trace datamodule :=
  data_dir ← icedata_biwi_load_data;
  parser ← parser_or_default parser;
  kwargs ← lift (keyword_arguments
                   [("train_folder", data_dir);
                    ("val_split", val_split);
                    ("image_size", image_size);
                    ("parser", parser)]
                   data_module_kwargs);
  build_datamodule KeypointDetectionData "from_folders" kwargs.

(** [from_biwi] called with keyword arguments, under its decorator
    [requires] for the image dependencies. *)
Definition from_biwi : gmap string value -> M trace datamodule :=
  requires "image" (fun kwargs =>
    bound ← lift (bind_arguments from_biwi_signature kwargs);
    match bound with
    | ([val_split; image_size; parser], data_module_kwargs) =>
        from_biwi_body val_split image_size parser data_module_kwargs
    | _ => raise (TypeError "from_biwi")
    end).

(** [def from_squad(backbone="distilbert-base-uncased", batch_size=4,
    num_workers=0, **input_transform_kwargs)]. *)
Definition from_squad_signature : signature :=
  {| parameters :=
       [("backbone", VStr "distilbert-base-uncased");
        ("batch_size", VInt 4);
        ("num_workers", VInt 0)];
     var_keyword := Some "input_transform_kwargs" |}.

Definition from_squad_body (backbone batch_size num_workers : value)
    (input_transform_kwargs : gmap string value) : M trace datamodule :=
  _ ← download_data "https://pl-flash-data.s3.amazonaws.com/squad_tiny.zip"
        "./data/";
  kwargs ← lift (keyword_arguments
                   [("train_file", VStr "./data/squad_tiny/train.json");
                    ("val_file", VStr "./data/squad_tiny/val.json");
                    ("backbone", backbone);
                    ("batch_size", batch_size);
                    ("num_workers", num_workers)]
                   input_transform_kwargs);
  build_datamodule QuestionAnsweringData "from_squad_v2" kwargs.

(** [from_squad] called with keyword arguments. *)
Definition from_squad (kwargs : gmap string value) : M trace datamodule :=
  bound ← lift (bind_arguments from_squad_signature kwargs);
  match bound with
  | ([backbone; batch_size; num_workers], input_transform_kwargs) =>
      from_squad_body backbone batch_size num_workers input_transform_kwargs
  | _ => raise (TypeError "from_squad")
  end.

(** Modelled from the spec: [FlashCLI] of flash.core.utilities.flash_cli
    is not among the sources. A CLI entry constructs a data module, by the
    default builder called with the arguments of the command line,
    constructs a task object, and hands both to the trainer, which drives
    the training. *)
Definition FlashCLI (model_class datamodule_class : flash_class)
    (default_datamodule_builder : gmap string value -> M trace datamodule)
    (default_arguments : gmap string value) (legacy : bool)
    (command_line : gmap string value) : M trace unit :=
  dm ← default_datamodule_builder command_line;
  _ ← call (TaskConstructed model_class default_arguments);
  call (TrainerFit model_class dm).

(** [cli.trainer.save_checkpoint(path)]. *)
Definition trainer_save_checkpoint (path : string) : M trace unit :=
  call (SaveCheckpoint path).

(** [keypoint_detection()], run with the given command line. *)
Definition keypoint_detection (command_line : gmap string value)
    : M trace unit :=
  _ ← FlashCLI KeypointDetector KeypointDetectionData from_biwi
        (<["model.num_keypoints" := VInt 1]>
           {[ "trainer.max_epochs" := VInt 3 ]})
        true command_line;
  trainer_save_checkpoint "keypoint_detection_model.pt".

(** [question_answering()], run with the given command line. *)
Definition question_answering (command_line : gmap string value)
    : M trace unit :=
  _ ← FlashCLI QuestionAnsweringTask QuestionAnsweringData from_squad
        (<["trainer.max_epochs" := VInt 3]>
           {[ "model.backbone" := VStr "distilbert-base-uncased" ]})
        true command_line;
  trainer_save_checkpoint "question_answering_model.pt".

(** The two entry points with their default builders. *)
Inductive entry_point := keypoint_detection_cli | question_answering_cli.

Definition default_datamodule_builder (e : entry_point) : signature :=
  match e with
  | keypoint_detection_cli => from_biwi_signature
  | question_answering_cli => from_squad_signature
  end.

Definition run (e : entry_point) : gmap string value -> M trace unit :=
  match e with
  | keypoint_detection_cli => keypoint_detection
  | question_answering_cli => question_answering
  end.

Definition checkpoint_path (e : entry_point) : string :=
  match e with
  | keypoint_detection_cli => "keypoint_detection_model.pt"
  | question_answering_cli => "question_answering_model.pt"
  end.

(** What the specification says of the default builder of every entry
    point: it accepts a backbone name, a batch size, a worker count and
    keyword options. *)
Definition accepts_backbone_batch_size_workers (sig : signature) : Prop :=
  has_parameter sig "backbone" = true /\
  has_parameter sig "batch_size" = true /\
  has_parameter sig "num_workers" = true /\
  is_Some (var_keyword sig).

(** [from_squad] is such a builder. *)
Lemma from_squad_accepts :
  accepts_backbone_batch_size_workers
    (default_datamodule_builder question_answering_cli).
Proof. unfold accepts_backbone_batch_size_workers. split_and!; by eauto. Qed.

(** The data module [from_squad] builds from a command line. *)
Definition squad_datamodule (command_line : gmap string value) : datamodule :=
  {| datamodule_class := QuestionAnsweringData;
     datamodule_method := "from_squad_v2";
     datamodule_kwargs :=
       <["train_file" := VStr "./data/squad_tiny/train.json"]>
         (<["val_file" := VStr "./data/squad_tiny/val.json"]>
            (<["backbone" := default (VStr "distilbert-base-uncased")
                               (command_line !! "backbone")]>
               (<["batch_size" := default (VInt 4)
                                    (command_line !! "batch_size")]>
                  (<["num_workers" := default (VInt 0)
                                        (command_line !! "num_workers")]>
                     (filter (fun kv : string * value =>
                                kv.1 ∉ ["backbone"; "batch_size";
                                        "num_workers"])
                             command_line))))) |}.

(** The parser [from_biwi] passes on. *)
Definition biwi_parser (parser : value) : value :=
  match parser with
  | VNone => icedata_biwi_parser
  | _ => parser
  end.

(** The data module [from_biwi] builds from a command line. *)
Definition biwi_datamodule (command_line : gmap string value) : datamodule :=
  {| datamodule_class := KeypointDetectionData;
     datamodule_method := "from_folders";
     datamodule_kwargs :=
       <["train_folder" := VStr icedata_biwi_dir]>
         (<["val_split" := default (VFloat "0.1")
                             (command_line !! "val_split")]>
            (<["image_size" := default (VTuple (VInt 128) (VInt 128))
                                 (command_line !! "image_size")]>
               (<["parser" :=
                    biwi_parser (default VNone (command_line !! "parser"))]>
                  (filter (fun kv : string * value =>
                             kv.1 ∉ ["val_split"; "image_size"; "parser"])
                          command_line)))) |}.

(** The calls a run of [question_answering] makes, in order. *)
Definition question_answering_calls (command_line : gmap string value)
    : list event :=
  [Download "https://pl-flash-data.s3.amazonaws.com/squad_tiny.zip" "./data/";
   DataModuleConstructed (squad_datamodule command_line);
   TaskConstructed QuestionAnsweringTask
     (<["trainer.max_epochs" := VInt 3]>
        {[ "model.backbone" := VStr "distilbert-base-uncased" ]});
   TrainerFit QuestionAnsweringTask (squad_datamodule command_line);
   SaveCheckpoint "question_answering_model.pt"].

(** The calls a run of [keypoint_detection] makes, in order. *)
Definition keypoint_detection_calls (command_line : gmap string value)
    : list event :=
  [Download icedata_biwi_url icedata_biwi_dir;
   DataModuleConstructed (biwi_datamodule command_line);
   TaskConstructed KeypointDetector
     (<["model.num_keypoints" := VInt 1]>
        {[ "trainer.max_epochs" := VInt 3 ]});
   TrainerFit KeypointDetector (biwi_datamodule command_line);
   SaveCheckpoint "keypoint_detection_model.pt"].

(** Calls made one after the other, up to the first that raises. *)
Fixpoint calls_in_order (calls : list event) : M trace unit :=
  match calls with
  | [] => mret tt
  | e :: calls => _ ← call e; calls_in_order calls
  end.

Lemma calls_in_order_return (calls : list event) (t : trace) :
  Forall (fun e => raises e = None) calls ->
  calls_in_order calls t = (Ok tt, t ++ calls).
Proof.
  revert t. induction calls as [|e calls IH]; intros t Hall.
  - cbn. by rewrite app_nil_r.
  - apply Forall_cons in Hall as [He Hall].
    cbn [calls_in_order]. unfold mbind, M_bind, call. rewrite He.
    rewrite IH by done. by rewrite <- app_assoc.
Qed.

Lemma calls_in_order_raise (calls : list event) (t : trace) (i : nat)
    (e : event) (exn : Py.exn) :
  calls !! i = Some e -> raises e = Some exn ->
  Forall (fun e => raises e = None) (take i calls) ->
  calls_in_order calls t = (Raise exn, t ++ take i calls).
Proof.
  revert t i. induction calls as [|e0 calls IH]; intros t i Hi He Hall;
    [discriminate |].
  destruct i as [|i]; cbn in Hi.
  - injection Hi as ->. cbn [calls_in_order take].
    unfold mbind, M_bind, call. by rewrite He, app_nil_r.
  - cbn [take] in Hall. apply Forall_cons in Hall as [He0 Hall].
    cbn [calls_in_order take]. unfold mbind, M_bind, call. rewrite He0.
    rewrite (IH _ i) by done. by rewrite <- app_assoc.
Qed.

(** A keyword the command line does not give is not among the keyword
    arguments that go to [**kwargs]. *)
Lemma extra_lookup_None (names : list string)
    (command_line : gmap string value) (k : string) :
  command_line !! k = None \/ k ∈ names ->
  ~ is_Some
      (filter (fun kv : string * value => kv.1 ∉ names) command_line !! k).
Proof.
  intros Hk [v Hv]. apply map_lookup_filter_Some in Hv as [Hv Hnot].
  destruct Hk as [Hk | Hk]; [congruence | by destruct Hnot].
Qed.

(** A name is, or is not, one of a list of names. *)
Ltac among := apply list_elem_of_In; cbn; auto 10.
Ltac not_among :=
  let Hin := fresh "Hin" in
  intros Hin;
  repeat (apply elem_of_cons in Hin as [Hin|Hin]; [discriminate Hin |]);
  by apply elem_of_nil in Hin.

Lemma extra_lookup_Some (names : list string)
    (command_line : gmap string value) (k : string) :
  is_Some (command_line !! k) -> k ∉ names ->
  is_Some (filter (fun kv : string * value => kv.1 ∉ names) command_line !! k).
Proof.
  intros [v Hv] Hk. exists v. by apply map_lookup_filter_Some.
Qed.

(** A run of [question_answering] makes its calls in order. *)
Lemma question_answering_run (command_line : gmap string value) (t : trace) :
  command_line !! "train_file" = None ->
  command_line !! "val_file" = None ->
  question_answering command_line t
  = calls_in_order (question_answering_calls command_line) t.
Proof.
  intros Htrain Hval.
  unfold question_answering, FlashCLI, from_squad, from_squad_body,
    download_data, build_datamodule, trainer_save_checkpoint,
    question_answering_calls, squad_datamodule, keyword_arguments.
  cbn [calls_in_order].
  unfold mbind, M_bind, lift, call. cbn [bind_arguments from_squad_signature
    parameters var_keyword fmap list_fmap fst snd existsb].
  rewrite !bool_decide_eq_false_2
    by (apply extra_lookup_None; first [by left | right; among]).
  cbn [orb foldr fst snd mret M_ret].
  repeat match goal with
         | |- context [raises ?e] => destruct (raises e); try reflexivity
         end.
Qed.

(** A run of [keypoint_detection] makes its calls in order. *)
Lemma keypoint_detection_run (command_line : gmap string value) (t : trace) :
  module_available "image" = true ->
  _ICEDATA_AVAILABLE = true ->
  command_line !! "train_folder" = None ->
  keypoint_detection command_line t
  = calls_in_order (keypoint_detection_calls command_line) t.
Proof.
  intros Havail Hicedata Htrain.
  unfold keypoint_detection, FlashCLI, from_biwi, requires, from_biwi_body,
    icedata_biwi_load_data, parser_or_default, name_icedata,
    build_datamodule, trainer_save_checkpoint,
    keypoint_detection_calls, biwi_datamodule, biwi_parser, keyword_arguments.
  rewrite Havail, Hicedata. cbn [calls_in_order].
  unfold mbind, M_bind, lift, call. cbn [bind_arguments from_biwi_signature
    parameters var_keyword fmap list_fmap fst snd existsb].
  destruct (raises (Download icedata_biwi_url icedata_biwi_dir));
    [reflexivity |].
  destruct (default VNone (command_line !! "parser")) eqn:Hparser;
    cbn [mret M_ret fst snd existsb];
    rewrite !bool_decide_eq_false_2
      by (apply extra_lookup_None; first [by left | right; among]);
    cbn [orb foldr fst snd mret M_ret];
    repeat match goal with
           | |- context [raises ?e] => destruct (raises e); try reflexivity
           end.
Qed.

(** Without the image dependencies, and without icedata,
    [keypoint_detection] stops at its builder and saves nothing. *)
Lemma keypoint_detection_unavailable (command_line : gmap string value)
    (t : trace) :
  module_available "image" = false ->
  keypoint_detection command_line t = (Raise (ModuleNotFoundError "image"), t).
Proof.
  intros Havail. unfold keypoint_detection, FlashCLI, from_biwi, requires.
  rewrite Havail. reflexivity.
Qed.

Lemma keypoint_detection_no_icedata (command_line : gmap string value)
    (t : trace) :
  module_available "image" = true ->
  _ICEDATA_AVAILABLE = false ->
  keypoint_detection command_line t = (Raise (NameError "icedata"), t).
Proof.
  intros Havail Hicedata.
  unfold keypoint_detection, FlashCLI, from_biwi, requires, from_biwi_body,
    icedata_biwi_load_data, name_icedata.
  rewrite Havail, Hicedata. reflexivity.
Qed.

(** A keyword of the command line that the builder passes itself ends
    the run after the download, when the arguments of the call are put
    together. *)
Lemma keypoint_detection_duplicate (command_line : gmap string value)
    (t : trace) :
  module_available "image" = true ->
  _ICEDATA_AVAILABLE = true ->
  raises (Download icedata_biwi_url icedata_biwi_dir) = None ->
  is_Some (command_line !! "train_folder") ->
  keypoint_detection command_line t
  = (Raise (TypeError "got multiple values for keyword argument"),
     t ++ [Download icedata_biwi_url icedata_biwi_dir]).
Proof.
  intros Havail Hicedata Hdownload Htrain.
  unfold keypoint_detection, FlashCLI, from_biwi, requires, from_biwi_body,
    icedata_biwi_load_data, parser_or_default, name_icedata,
    keyword_arguments.
  rewrite Havail, Hicedata.
  unfold mbind, M_bind, lift, call. cbn [bind_arguments from_biwi_signature
    parameters var_keyword fmap list_fmap fst snd existsb].
  rewrite Hdownload.
  destruct (default VNone (command_line !! "parser")) eqn:Hparser;
    cbn [mret M_ret fst snd existsb];
    rewrite bool_decide_eq_true_2
      by (apply extra_lookup_Some; [done | not_among]);
    reflexivity.
Qed.

Lemma question_answering_duplicate (command_line : gmap string value)
    (t : trace) :
  raises (Download "https://pl-flash-data.s3.amazonaws.com/squad_tiny.zip"
            "./data/") = None ->
  is_Some (command_line !! "train_file") \/
  is_Some (command_line !! "val_file") ->
  question_answering command_line t
  = (Raise (TypeError "got multiple values for keyword argument"),
     t ++ [Download "https://pl-flash-data.s3.amazonaws.com/squad_tiny.zip"
             "./data/"]).
Proof.
  intros Hdownload Hduplicate.
  unfold question_answering, FlashCLI, from_squad, from_squad_body,
    download_data, keyword_arguments.
  unfold mbind, M_bind, lift, call. cbn [bind_arguments from_squad_signature
    parameters var_keyword fmap list_fmap fst snd existsb].
  rewrite Hdownload.
  destruct Hduplicate as [Htrain | Hval].
  - rewrite bool_decide_eq_true_2
      by (apply extra_lookup_Some; [done | not_among]).
    reflexivity.
  - assert (Hgiven :
      bool_decide
        (is_Some
           (filter (fun kv : string * value =>
                      kv.1 ∉ ["backbone"; "batch_size"; "num_workers"])
                   command_line !! "val_file")) = true)
      by (apply bool_decide_eq_true_2, extra_lookup_Some;
          [done | not_among]).
    rewrite Hgiven, orb_true_r. reflexivity.
Qed.

(** C7, amended. The default builder of [question_answering],
    [from_squad], accepts a backbone name, a batch size, a worker count
    and keyword options; the default builder of [keypoint_detection],
    [from_biwi], accepts a validation split, an image size, a parser and
    keyword options. Each downloads a fixed archive, [from_squad] the
    archive squad_tiny.zip over HTTP and [from_biwi] the BIWI data set
    through icedata, and constructs a data module; each entry point then
    has the task constructed and trained by the trainer, and afterwards
    saves a checkpoint to its fixed path. These are the calls of a run,
    in this order, for every command line that does not give a keyword
    the builder passes itself (the training and validation files of
    [from_squad], the training folder of [from_biwi]), with the image
    dependencies and icedata installed for [keypoint_detection]: the run
    returns when they all return, and stops at the first that raises,
    with no checkpoint saved. In every other case the builder raises,
    after the download for a keyword given twice and before it for a
    missing dependency, and no checkpoint is saved. *)
Theorem cli_entry_points (command_line : gmap string value) (t : trace) :
  ((parameters from_squad_signature).*1
   = ["backbone"; "batch_size"; "num_workers"] /\
   var_keyword from_squad_signature = Some "input_transform_kwargs") /\
  ((parameters from_biwi_signature).*1
   = ["val_split"; "image_size"; "parser"] /\
   var_keyword from_biwi_signature = Some "data_module_kwargs") /\
  (command_line !! "train_file" = None ->
   command_line !! "val_file" = None ->
   (Forall (fun e => raises e = None)
      (question_answering_calls command_line) ->
    question_answering command_line t
    = (Ok tt,
       t ++ [Download "https://pl-flash-data.s3.amazonaws.com/squad_tiny.zip"
               "./data/";
             DataModuleConstructed (squad_datamodule command_line);
             TaskConstructed QuestionAnsweringTask
               (<["trainer.max_epochs" := VInt 3]>
                  {[ "model.backbone" := VStr "distilbert-base-uncased" ]});
             TrainerFit QuestionAnsweringTask (squad_datamodule command_line);
             SaveCheckpoint "question_answering_model.pt"])) /\
   (forall i e exn,
      question_answering_calls command_line !! i = Some e ->
      raises e = Some exn ->
      Forall (fun e => raises e = None)
        (take i (question_answering_calls command_line)) ->
      question_answering command_line t
      = (Raise exn, t ++ take i (question_answering_calls command_line)))) /\
  (module_available "image" = true ->
   _ICEDATA_AVAILABLE = true ->
   command_line !! "train_folder" = None ->
   (Forall (fun e => raises e = None)
      (keypoint_detection_calls command_line) ->
    keypoint_detection command_line t
    = (Ok tt,
       t ++ [Download icedata_biwi_url icedata_biwi_dir;
             DataModuleConstructed (biwi_datamodule command_line);
             TaskConstructed KeypointDetector
               (<["model.num_keypoints" := VInt 1]>
                  {[ "trainer.max_epochs" := VInt 3 ]});
             TrainerFit KeypointDetector (biwi_datamodule command_line);
             SaveCheckpoint "keypoint_detection_model.pt"])) /\
   (forall i e exn,
      keypoint_detection_calls command_line !! i = Some e ->
      raises e = Some exn ->
      Forall (fun e => raises e = None)
        (take i (keypoint_detection_calls command_line)) ->
      keypoint_detection command_line t
      = (Raise exn, t ++ take i (keypoint_detection_calls command_line)))) /\
  (raises (Download "https://pl-flash-data.s3.amazonaws.com/squad_tiny.zip"
             "./data/") = None ->
   is_Some (command_line !! "train_file") \/
   is_Some (command_line !! "val_file") ->
   question_answering command_line t
   = (Raise (TypeError "got multiple values for keyword argument"),
      t ++ [Download "https://pl-flash-data.s3.amazonaws.com/squad_tiny.zip"
              "./data/"])) /\
  (module_available "image" = false ->
   keypoint_detection command_line t
   = (Raise (ModuleNotFoundError "image"), t)) /\
  (module_available "image" = true ->
   _ICEDATA_AVAILABLE = false ->
   keypoint_detection command_line t = (Raise (NameError "icedata"), t)) /\
  (module_available "image" = true ->
   _ICEDATA_AVAILABLE = true ->
   raises (Download icedata_biwi_url icedata_biwi_dir) = None ->
   is_Some (command_line !! "train_folder") ->
   keypoint_detection command_line t
   = (Raise (TypeError "got multiple values for keyword argument"),
      t ++ [Download icedata_biwi_url icedata_biwi_dir])).
Proof.
  split_and!; try done.
  - intros Htrain Hval. rewrite question_answering_run by done. split.
    + apply calls_in_order_return.
    + intros i e exn. apply calls_in_order_raise.
  - intros Havail Hicedata Htrain.
    rewrite keypoint_detection_run by done. split.
    + apply calls_in_order_return.
    + intros i e exn. apply calls_in_order_raise.
  - apply question_answering_duplicate.
  - apply keypoint_detection_unavailable.
  - apply keypoint_detection_no_icedata.
  - apply keypoint_detection_duplicate.
Qed.

End cli.

(** *** The entry points on concrete command lines

    The outside world is given with each run: which of its calls
    raise. *)

Definition run_question_answering (raises : event -> option exn)
    : gmap string value -> M trace unit :=
  question_answering raises.

Definition run_keypoint_detection (image icedata : bool)
    (raises : event -> option exn) : gmap string value -> M trace unit :=
  keypoint_detection (fun _ => image) icedata
    "https://github.com/airctic/icedata" "~/.icevision/data/biwi"
    (VStr "icedata.biwi.parser") raises.

(** C7, as stated, fails for [keypoint_detection]: its default builder
    [from_biwi] declares a validation split, an image size and a parser,
    and none of a backbone name, a batch size and a worker count. And a
    checkpoint is not always saved: none is when the builder raises,
    which [from_biwi] does without the image dependencies or without
    icedata, and either builder on a command line that gives a keyword
    the builder passes itself; and none is when a call of the run raises,
    here the download. *)
Lemma from_biwi_declares_no_backbone :
  (~ accepts_backbone_batch_size_workers
       (default_datamodule_builder keypoint_detection_cli) /\
   has_parameter from_biwi_signature "backbone" = false /\
   has_parameter from_biwi_signature "batch_size" = false /\
   has_parameter from_biwi_signature "num_workers" = false) /\
  run_keypoint_detection false true (fun _ => None) ∅ []
  = (Raise (ModuleNotFoundError "image"), []) /\
  run_keypoint_detection true false (fun _ => None) ∅ []
  = (Raise (NameError "icedata"), []) /\
  run_keypoint_detection true true (fun _ => None)
    {[ "train_folder" := VStr "data/" ]} []
  = (Raise (TypeError "got multiple values for keyword argument"),
     [Download "https://github.com/airctic/icedata" "~/.icevision/data/biwi"])
  /\
  run_question_answering (fun _ => None)
    {[ "train_file" := VStr "train.json" ]} []
  = (Raise (TypeError "got multiple values for keyword argument"),
     [Download "https://pl-flash-data.s3.amazonaws.com/squad_tiny.zip"
        "./data/"]) /\
  run_question_answering
    (fun e => match e with
              | Download _ _ => Some (RuntimeError "no network")
              | _ => None
              end) ∅ []
  = (Raise (RuntimeError "no network"), []).
Proof.
  split_and!; try (vm_compute; reflexivity); try done.
  intros (Hbackbone & _). vm_compute in Hbackbone. discriminate.
Qed.

(** A command line with a backbone and a batch size, and one with a
    validation split. *)
Lemma cli_entry_points_witness :
  run_question_answering (fun _ => None)
    (<["backbone" := VStr "bert-base-uncased"]> {[ "batch_size" := VInt 8 ]}) []
  = (Ok tt,
     [Download "https://pl-flash-data.s3.amazonaws.com/squad_tiny.zip"
        "./data/";
      DataModuleConstructed
        (squad_datamodule
           (<["backbone" := VStr "bert-base-uncased"]>
              {[ "batch_size" := VInt 8 ]}));
      TaskConstructed QuestionAnsweringTask
        (<["trainer.max_epochs" := VInt 3]>
           {[ "model.backbone" := VStr "distilbert-base-uncased" ]});
      TrainerFit QuestionAnsweringTask
        (squad_datamodule
           (<["backbone" := VStr "bert-base-uncased"]>
              {[ "batch_size" := VInt 8 ]}));
      SaveCheckpoint "question_answering_model.pt"]) /\
  run_keypoint_detection true true (fun _ => None)
    {[ "val_split" := VFloat "0.2" ]} []
  = (Ok tt,
     [Download "https://github.com/airctic/icedata" "~/.icevision/data/biwi";
      DataModuleConstructed
        (biwi_datamodule "~/.icevision/data/biwi" (VStr "icedata.biwi.parser")
           {[ "val_split" := VFloat "0.2" ]});
      TaskConstructed KeypointDetector
        (<["model.num_keypoints" := VInt 1]>
           {[ "trainer.max_epochs" := VInt 3 ]});
      TrainerFit KeypointDetector
        (biwi_datamodule "~/.icevision/data/biwi" (VStr "icedata.biwi.parser")
           {[ "val_split" := VFloat "0.2" ]});
      SaveCheckpoint "keypoint_detection_model.pt"]).
Proof.
  split.
  - refine (proj1 (proj1 (proj2 (proj2
      (cli_entry_points (fun _ => true) true
         "https://github.com/airctic/icedata" "~/.icevision/data/biwi"
         (VStr "icedata.biwi.parser") (fun _ => None)
         (<["backbone" := VStr "bert-base-uncased"]>
            {[ "batch_size" := VInt 8 ]}) []))) eq_refl eq_refl) _).
    by repeat constructor.
  - refine (proj1 (proj1 (proj2 (proj2 (proj2
      (cli_entry_points (fun _ => true) true
         "https://github.com/airctic/icedata" "~/.icevision/data/biwi"
         (VStr "icedata.biwi.parser") (fun _ => None)
         {[ "val_split" := VFloat "0.2" ]} [])))) eq_refl eq_refl eq_refl) _).
    by repeat constructor.
Defined.

End cli.
